(** * A police dashboard client: resource accessors, enrollment guard,
      alert and complaint triage, analytics aggregation.

    Shallow embedding of the TypeScript sources:
    - [lib/api/client.ts]     the [ApiError] class and the response interceptor;
    - [lib/api/criminals.ts], [lib/api/alerts.ts], [lib/api/enroll.ts],
      [lib/api/match.ts], [lib/api/images.ts]   the resource accessors;
    - [components/UploadCard.tsx], [app/upload/page.tsx]   the enrollment flow;
    - [components/AlertsTable.tsx]   the alert rows and their buttons;
    - [app/complaints/page.tsx]   the three triage buckets;
    - [app/analytics/page.tsx]    the summary counts and the monthly trend.

    Conventions.  A JavaScript [number] is a binary64 float ([PrimFloat]); a
    string is a [string] of bytes, the UTF-8 encoding of its text, off which
    [trim] reads the white space of Unicode and the sort the UTF-16 code
    units; [undefined] and [null] are [None]; an awaited promise is the
    value it settles to, a rejection being [inl].
    [console.*] output of the accessors is not part of the model. *)

From Stdlib Require Import Floats.PrimFloat Floats.SpecFloat Floats.FloatOps Floats.FloatAxioms.
From Stdlib Require Import Bool Ascii String List ZArith Lia Sorted Permutation.
Import ListNotations.
Open Scope string_scope.
Open Scope list_scope.
#[local] Set Warnings "-register-all,-inexact-float".

(* ===================================================================== *)
(** * Part I: definitions                                                 *)
(* ===================================================================== *)

(** ** JavaScript values and the few built-ins the sources call *)
Module Js.

Definition number := float.

(** [a < b], [a > b], [a >= b] on numbers; every comparison with NaN is
    false, as [PrimFloat] has it. *)
Definition lt (a b : number) : bool := PrimFloat.ltb a b.
Definition gt (a b : number) : bool := PrimFloat.ltb b a.
Definition ge (a b : number) : bool := PrimFloat.leb b a.
Arguments lt (a b)%_float.
Arguments gt (a b)%_float.
Arguments ge (a b)%_float.

(** Truthiness of a string: [""] is falsy. *)
Definition truthy (s : string) : bool :=
  match s with EmptyString => false | String _ _ => true end.

(** [a || b] on strings. *)
Definition or_else (a b : string) : string := if truthy a then a else b.

(** White space removed by [String.prototype.trim]: the WhiteSpace and
    LineTerminator code points of ECMAScript, in the UTF-8 bytes of the
    model's strings.  Those of one byte: TAB, LF, VT, FF, CR and SPACE. *)
Definition is_space (c : ascii) : bool :=
  match nat_of_ascii c with
  | 9 | 10 | 11 | 12 | 13 | 32 => true
  | _ => false
  end.

(** U+00A0 (no-break space), two bytes. *)
Definition is_space2 (c1 c2 : ascii) : bool :=
  (N_of_ascii c1 =? 194)%N && (N_of_ascii c2 =? 160)%N.

(** Those of three bytes: U+1680, U+2000 to U+200A, U+2028, U+2029,
    U+202F, U+205F, U+3000 and U+FEFF. *)
Definition is_space3 (c1 c2 c3 : ascii) : bool :=
  let a := N_of_ascii c1 in
  let b := N_of_ascii c2 in
  let c := N_of_ascii c3 in
  ((a =? 225) && (b =? 154) && (c =? 128)
   || (a =? 226) && (b =? 128)
      && ((128 <=? c) && (c <=? 138) || (c =? 168) || (c =? 169) || (c =? 175))
   || (a =? 226) && (b =? 129) && (c =? 159)
   || (a =? 227) && (b =? 128) && (c =? 128)
   || (a =? 239) && (b =? 187) && (c =? 191))%N.

Fixpoint trimStart (s : string) : string :=
  match s with
  | EmptyString => EmptyString
  | String c1 s1 =>
      if is_space c1 then trimStart s1
      else
        match s1 with
        | EmptyString => s
        | String c2 s2 =>
            if is_space2 c1 c2 then trimStart s2
            else
              match s2 with
              | EmptyString => s
              | String c3 s3 => if is_space3 c1 c2 c3 then trimStart s3 else s
              end
        end
  end.

(** A suffix made of white space only is dropped. *)
Fixpoint trimEnd (s : string) : string :=
  match s with
  | EmptyString => EmptyString
  | String c s' =>
      match trimStart (String c s') with
      | EmptyString => EmptyString
      | String _ _ => String c (trimEnd s')
      end
  end.

Definition trim (s : string) : string := trimEnd (trimStart s).

(** [!s || !s.trim()]: the recurring "required field" test. *)
Definition blank (s : string) : bool :=
  negb (truthy s) || negb (truthy (trim s)).

(** [s && s.trim()] used as a condition. *)
Definition present (s : string) : bool := truthy s && truthy (trim s).

(** [String.prototype.toLowerCase] on the ASCII letters. *)
Definition lower_ascii (c : ascii) : ascii :=
  let n := nat_of_ascii c in
  if (65 <=? n)%nat && (n <=? 90)%nat then ascii_of_nat (n + 32) else c.

Fixpoint toLowerCase (s : string) : string :=
  match s with
  | EmptyString => EmptyString
  | String c s' => String (lower_ascii c) (toLowerCase s')
  end.

(** [Array.prototype.includes] on an array of strings. *)
Definition includes (l : list string) (s : string) : bool :=
  existsb (String.eqb s) l.

(** [Array.prototype.join]. *)
Definition join (sep : string) (l : list string) : string :=
  String.concat sep l.

Definition startsWith (s p : string) : bool := String.prefix p s.

(** [s.lastIndexOf('.')]: the index of the last dot, [-1] when there is none. *)
Fixpoint lastIndexOf_from (c : ascii) (s : string) (i : Z) (found : Z) : Z :=
  match s with
  | EmptyString => found
  | String d s' =>
      lastIndexOf_from c s' (i + 1) (if Ascii.eqb c d then i else found)
  end.

Definition lastIndexOf (c : ascii) (s : string) : Z :=
  lastIndexOf_from c s 0 (-1).

(** [s.substring(start)]: a negative start counts as [0]. *)
Definition substring_from (start : Z) (s : string) : string :=
  let n := Z.to_nat start in
  String.substring n (String.length s - n) s.

(** The decimal digits of a natural number. *)
Fixpoint digits_of (fuel : nat) (n : Z) (acc : string) : string :=
  match fuel with
  | O => acc
  | S fuel' =>
      let acc' := String (ascii_of_N (Z.to_N (48 + n mod 10))) acc in
      if (n / 10 =? 0)%Z then acc' else digits_of fuel' (n / 10) acc'
  end.

Definition decimal (n : Z) : string := digits_of 400 n "".

Fixpoint zeros (n : nat) : string :=
  match n with O => "" | S n' => String "0" (zeros n') end.

(** [num / den < 10 ^ n], for positive [num] and [den]. *)
Definition below_power (num den n : Z) : bool :=
  if (0 <=? n)%Z then (num <? den * 10 ^ n)%Z else (num * 10 ^ (- n) <? den)%Z.

(** The least [n] from [n] on with [num / den < 10 ^ n]. *)
Fixpoint exponent10 (fuel : nat) (num den n : Z) : Z :=
  match fuel with
  | O => n
  | S fuel' => if below_power num den n then n else exponent10 fuel' num den (n + 1)
  end.

(** [a * 2 ^ p] against [s * 10 ^ q]. *)
Definition scaled_compare (a p s q : Z) : comparison :=
  (a * 2 ^ Z.max p 0 * 10 ^ Z.max (- q) 0 ?= s * 10 ^ Z.max q 0 * 2 ^ Z.max (- p) 0)%Z.

(** The digits of a positive finite number [m * 2 ^ e]: the least [k], with
    the [k]-digit integer [s] and the exponent [n], such that
    [s * 10 ^ (n - k)] reads back as the number, the closest to it if
    there are several. *)
Section Shortest.
Variable m e : Z.

Let p : Z := (e - 2)%Z.
Let boundary : bool := (m =? 2 ^ 52)%Z && (-1074 <? e)%Z.
Let low : Z := if boundary then (4 * m - 1)%Z else (4 * m - 2)%Z.
Let high : Z := (4 * m + 2)%Z.
Let closed : bool := Z.even m.

Definition reads_back (s q : Z) : bool :=
  match scaled_compare low p s q, scaled_compare high p s q with
  | Lt, Gt => true
  | Eq, Gt | Lt, Eq => closed
  | _, _ => false
  end.

(** The candidate with [k] digits, if any. *)
Definition candidate (n0 k : Z) : option (Z * Z) :=
  let q := (n0 - k)%Z in
  let s0 := ((4 * m * 2 ^ Z.max p 0 * 10 ^ Z.max (- q) 0)
             / (2 ^ Z.max (- p) 0 * 10 ^ Z.max q 0))%Z in
  let s1 := (s0 + 1)%Z in
  let pick s := if (s =? 10 ^ k)%Z then (10 ^ (k - 1), n0 + 1)%Z else (s, n0) in
  match reads_back s0 q, reads_back s1 q with
  | true, false => Some (pick s0)
  | false, true => Some (pick s1)
  | true, true =>
      match scaled_compare (8 * m) p (2 * s0 + 1) q with
      | Lt => Some (pick s0)
      | Gt => Some (pick s1)
      | Eq => Some (pick (if Z.even s0 then s0 else s1))
      end
  | false, false => None
  end.

Fixpoint shortest (fuel : nat) (n0 k : Z) : Z * Z * Z :=
  match fuel with
  | O => (k, 0, n0)%Z
  | S fuel' =>
      match candidate n0 k with
      | Some (s, n) => (k, s, n)
      | None => shortest fuel' n0 (k + 1)%Z
      end
  end.

End Shortest.

(** [Number::toString] of a positive finite number [m * 2 ^ e]. *)
Definition positive_to_string (m e : Z) : string :=
  let n0 :=
    if (0 <=? e)%Z then exponent10 700 (m * 2 ^ e) 1 (-330)
    else exponent10 700 m (2 ^ (- e)) (-330) in
  let '(k, s, n) := shortest m e 18 n0 1 in
  let ds := decimal s in
  (if (k <=? n)%Z && (n <=? 21)%Z then ds ++ zeros (Z.to_nat (n - k))
   else if (0 <? n)%Z && (n <=? 21)%Z then
     substring 0 (Z.to_nat n) ds ++ "." ++ substring (Z.to_nat n) (Z.to_nat (k - n)) ds
   else if (-6 <? n)%Z && (n <=? 0)%Z then "0." ++ zeros (Z.to_nat (- n)) ++ ds
   else
     let e' := (n - 1)%Z in
     let tail := "e" ++ (if (e' <? 0)%Z then "-" else "+") ++ decimal (Z.abs e') in
     if (k =? 1)%Z then ds ++ tail
     else substring 0 1 ds ++ "." ++ substring 1 (Z.to_nat (k - 1)) ds ++ tail)%string.

(** [String(x)] for a number: [Number::toString] with radix 10. *)
Definition number_to_string (x : number) : string :=
  match Prim2SF x with
  | S754_nan => "NaN"
  | S754_zero _ => "0"
  | S754_infinity false => "Infinity"
  | S754_infinity true => "-Infinity"
  | S754_finite sign m e =>
      ((if sign then "-" else "") ++ positive_to_string (Z.pos m) e)%string
  end.

(** A parsed JSON document, the [any] the HTTP client hands back. *)
Inductive json : Type :=
| JNull
| JBool (b : bool)
| JNum (n : number)
| JStr (s : string)
| JArr (items : list json)
| JObj (fields : list (string * json)).

(** Truthiness of a value: [null], [false], [0], [NaN] and [""] are falsy;
    every array and object is truthy. *)
Definition truthy_value (v : json) : bool :=
  match v with
  | JNull => false
  | JBool b => b
  | JNum n => negb (PrimFloat.eqb n 0 || negb (PrimFloat.eqb n n))
  | JStr s => truthy s
  | JArr _ | JObj _ => true
  end.

Fixpoint assoc (k : string) (fields : list (string * json)) : option json :=
  match fields with
  | [] => None
  | (k', v) :: rest => if String.eqb k k' then Some v else assoc k rest
  end.

(** [a || b] on values. *)
Definition or_value (a b : json) : json := if truthy_value a then a else b.

(** [String(v)], the conversion [new Error(v)] applies to its message.
    An array is its elements joined by commas, [null] counting as empty;
    an object is ["[object Object]"], unless it has a property of its own
    named [toString]: parsed from JSON that property cannot be called,
    [valueOf] gives the object back, and the conversion throws a
    [TypeError], which is [None] here. *)
Fixpoint to_string (v : json) : option string :=
  match v with
  | JNull => Some "null"
  | JBool b => Some (if b then "true" else "false")
  | JNum n => Some (number_to_string n)
  | JStr s => Some s
  | JArr items =>
      (fix join (l : list json) : option string :=
         match l with
         | [] => Some ""
         | x :: rest =>
             match (match x with JNull => Some "" | _ => to_string x end) with
             | Some sx =>
                 match rest with
                 | [] => Some sx
                 | _ :: _ =>
                     match join rest with
                     | Some sr => Some (sx ++ "," ++ sr)%string
                     | None => None
                     end
                 end
             | None => None
             end
         end) items
  | JObj fields =>
      match assoc "toString" fields with
      | Some _ => None
      | None => Some "[object Object]"
      end
  end.

(** A File of the browser: only what the sources read of it. *)
Record File : Type := mkFile {
  file_name : string;
  file_type : string;   (* MIME type *)
  file_size : number    (* bytes *)
}.

End Js.

(** ** [lib/api/client.ts]: the error class, the transport and its interceptor *)
Module Client.
Import Js.

(** [class ApiError extends Error]: [message], [statusCode?], [response?]. *)
Record ApiError : Type := mkApiError {
  message : string;
  statusCode : option Z;
  response : option json
}.

(** What a [catch] clause can receive: an [ApiError], or any other thrown
    value (a [TypeError], ...), for which [instanceof ApiError] is false. *)
Inductive exn : Type :=
| IsApiError (e : ApiError)
| OtherError (name : string) (msg : string).

(** An [AxiosError] as the response interceptor reads it: [error.response]
    (status and body) when the server answered, [error.request] when a
    request was made, and [error.message]. *)
Record AxiosError : Type := mkAxiosError {
  error_response : option (Z * json);
  error_request : bool;
  error_message : string
}.

Record AxiosResponse : Type := mkAxiosResponse {
  status : Z;
  data : json
}.

Inductive Method : Type := GET | POST | PUT.

(** A value put in a query string, a form or a JSON body, before the
    client serialises it. *)
Inductive field : Type :=
| FStr (s : string)
| FNum (n : number)
| FBool (b : bool)
| FFile (f : File).

Inductive Body : Type :=
| NoBody
| FormData (entries : list (string * field))
| JsonBody (entries : list (string * field)).

Record Request : Type := mkRequest {
  method : Method;
  url : string;
  params : list (string * field);
  body : Body
}.

(** The world outside: the configured base URL and what the network does
    with a request. *)
Record Backend : Type := mkBackend {
  API_BASE_URL : string;
  transport : Request -> AxiosError + AxiosResponse
}.

(** [data?.k] on the body of a failed response: the property of an
    object, [undefined] (read as [null]) on anything else. *)
Definition prop (k : string) (d : json) : json :=
  match d with
  | JObj fields =>
      match assoc k fields with
      | Some v => v
      | None => JNull
      end
  | _ => JNull
  end.

(** [throw new ApiError(message, code, body)] where [message] is any
    value: [super(message)] converts it to a string, and when that
    conversion throws, its [TypeError] is what is thrown. *)
Definition throw_ApiError (message : json) (code : Z) (body : json) : exn :=
  match to_string message with
  | Some text => IsApiError (mkApiError text (Some code) (Some body))
  | None => OtherError "TypeError" "Cannot convert object to primitive value"
  end.

(** The rejection handler of [apiClient.interceptors.response]: what it
    throws.  (On a 401 it also removes the stored [auth_token].) *)
Definition onResponseError (base : string) (error : AxiosError) : exn :=
  match error_response error with
  | Some (st, d) =>
      let errorMessage :=
        or_value (or_value (or_value (prop "error" d) (prop "detail" d)) (prop "message" d))
                 (JStr (error_message error)) in
      match st with
      | 400%Z => throw_ApiError (or_value errorMessage (JStr "Invalid request")) 400 d
      | 401%Z => IsApiError (mkApiError "Unauthorized access" (Some 401%Z) (Some d))
      | 403%Z => throw_ApiError (or_value errorMessage (JStr "Access forbidden")) 403 d
      | 404%Z => IsApiError (mkApiError "Resource not found" (Some 404%Z) (Some d))
      | 500%Z => throw_ApiError (or_value errorMessage (JStr "Internal server error")) 500 d
      | 503%Z =>
          throw_ApiError (or_value errorMessage (JStr "Service temporarily unavailable"))
                         503 d
      | _ => throw_ApiError (or_value errorMessage (JStr "An error occurred")) st d
      end
  | None =>
      if error_request error then
        IsApiError
          (mkApiError ("Network error: Unable to reach server at " ++ base
                       ++ ". Please ensure the backend is running.")
                      (Some 0%Z) None)
      else
        IsApiError
          (mkApiError (or_else (error_message error) "Request setup failed") (Some 0%Z) None)
  end.

(** What an accessor call amounts to: how it settled, and the requests it
    handed to the client, in order. *)
Record Outcome (A : Type) : Type := mkOutcome {
  result : exn + A;
  sent : list Request
}.
Arguments mkOutcome {A} _ _.
Arguments result {A} _.
Arguments sent {A} _.

(** An asynchronous computation against a backend. *)
Definition M (A : Type) : Type := Backend -> Outcome A.

Definition ret {A} (a : A) : M A := fun _ => mkOutcome (inr a) [].

Definition throw {A} (e : exn) : M A := fun _ => mkOutcome (inl e) [].

Definition bind {A B} (m : M A) (k : A -> M B) : M B :=
  fun b =>
    let o := m b in
    match result o with
    | inl e => mkOutcome (inl e) (sent o)
    | inr a => let o' := k a b in mkOutcome (result o') (sent o ++ sent o')
    end.

(** [try { m } catch (error) { h error }]. *)
Definition try_catch {A} (m : M A) (h : exn -> M A) : M A :=
  fun b =>
    let o := m b in
    match result o with
    | inl e => let o' := h e b in mkOutcome (result o') (sent o ++ sent o')
    | inr _ => o
    end.

(** [await apiClient.get/post/put(...)]: the request goes out; a failure
    comes back as what the response interceptor throws. *)
Definition send (r : Request) : M AxiosResponse :=
  fun b =>
    match transport b r with
    | inl err => mkOutcome (inl (onResponseError (API_BASE_URL b) err)) [r]
    | inr resp => mkOutcome (inr resp) [r]
    end.

Definition new_ApiError (msg : string) (code : Z) : exn :=
  IsApiError (mkApiError msg (Some code) None).

(** The [catch] clause every accessor ends with:
    [if (error instanceof ApiError) throw error; throw new ApiError(msg, 500)]. *)
Definition rethrow_or {A} (msg : string) (error : exn) : M A :=
  match error with
  | IsApiError _ => throw error
  | OtherError _ _ => throw (new_ApiError msg 500)
  end.

(** ['data' in v]: a property test on an object or an array, a [TypeError]
    on anything else.  An array has no property named [data]. *)
Definition data_in (v : json) : M bool :=
  match v with
  | JObj fields => ret (match assoc "data" fields with Some _ => true | None => false end)
  | JArr _ => ret false
  | _ => throw (OtherError "TypeError" "Cannot use 'in' operator to search for 'data'")
  end.

(** [v.data] on an object: the property, or [undefined] (read as [null]). *)
Definition get_data (v : json) : json :=
  match v with
  | JObj fields => match assoc "data" fields with Some d => d | None => JNull end
  | _ => JNull
  end.

(** "Handle both wrapped and unwrapped responses", as the criminals and
    alerts accessors spell it after each request:
    [if (response.data && 'data' in response.data) return response.data.data;
     return response.data]. *)
Definition unwrap (response : AxiosResponse) : M json :=
  if truthy_value (data response) then
    bind (data_in (data response)) (fun wrapped =>
      if wrapped then ret (get_data (data response)) else ret (data response))
  else ret (data response).

End Client.

Declare Scope api_scope.
Delimit Scope api_scope with api.
Notation "x <- m ;; k" := (Client.bind m (fun x => k))
  (at level 61, m at next level, right associativity) : api_scope.
Notation "m ;;; k" := (Client.bind m (fun _ => k))
  (at level 61, right associativity) : api_scope.

(** ** The resource accessors *)
Module Api.
Import Js Client.
Local Open Scope api_scope.

(** [x ?? d]. *)
Definition nullish {A} (x : option A) (d : A) : A :=
  match x with Some a => a | None => d end.

(** [if (s && s.trim()) entries[k] = s.trim()] for an optional string. *)
Definition trimmed_entry (k : string) (s : option string) : list (string * field) :=
  match s with
  | Some v => if present v then [(k, FStr (trim v))] else []
  | None => []
  end.

(** A property left out when [undefined]. *)
Definition optional_entry (k : string) (v : option field) : list (string * field) :=
  match v with Some f => [(k, f)] | None => [] end.

(** *** [lib/api/criminals.ts] *)

Record CriminalsQueryParams : Type := mkCriminalsQueryParams {
  cq_limit : option number;
  cq_offset : option number;
  cq_search : option string;
  cq_crime_type : option string;
  cq_state : option string;
  cq_district : option string;
  cq_gender : option string
}.

(** [params?.f]. *)
Definition opt_get {P A} (params : option P) (f : P -> option A) : option A :=
  match params with Some p => f p | None => None end.

Definition getCriminals (params : option CriminalsQueryParams) : M json :=
  let limit := nullish (opt_get params cq_limit) 100%float in
  let offset := nullish (opt_get params cq_offset) 0%float in
  if lt limit 1 || gt limit 1000 then
    throw (new_ApiError "limit must be between 1 and 1000" 400)
  else if lt offset 0 then
    throw (new_ApiError "offset must be non-negative" 400)
  else
    let queryParams :=
      [("limit", FNum limit); ("offset", FNum offset)]
      ++ trimmed_entry "search" (opt_get params cq_search)
      ++ trimmed_entry "crime_type" (opt_get params cq_crime_type)
      ++ trimmed_entry "state" (opt_get params cq_state)
      ++ trimmed_entry "district" (opt_get params cq_district)
      ++ trimmed_entry "gender" (opt_get params cq_gender) in
    try_catch
      (response <- send (mkRequest GET "/api/v1/criminals" queryParams NoBody) ;;
       unwrap response)
      (rethrow_or "Failed to retrieve criminals").

Definition getCriminal (personId : string) : M json :=
  if blank personId then throw (new_ApiError "personId is required" 400)
  else
    try_catch
      (response <- send (mkRequest GET ("/api/v1/criminals/" ++ trim personId) [] NoBody) ;;
       unwrap response)
      (rethrow_or "Failed to retrieve criminal").

Record CriminalUpdate : Type := mkCriminalUpdate {
  up_name : option string;
  up_crime_type : option string;
  up_state : option string;
  up_district : option string;
  up_gender : option string;
  up_image : option File
}.

(** [if (v !== undefined) formData.append(k, v || '')]. *)
Definition defined_entry (k : string) (v : option string) : list (string * field) :=
  match v with Some s => [(k, FStr (or_else s ""))] | None => [] end.

Definition updateCriminal (personId : string) (updateData : CriminalUpdate) : M json :=
  if blank personId then throw (new_ApiError "personId is required" 400)
  else
    try_catch
      (let formData :=
         optional_entry "name" (option_map FStr (up_name updateData))
         ++ defined_entry "crime_type" (up_crime_type updateData)
         ++ defined_entry "state" (up_state updateData)
         ++ defined_entry "district" (up_district updateData)
         ++ defined_entry "gender" (up_gender updateData)
         ++ optional_entry "image" (option_map FFile (up_image updateData)) in
       response <- send (mkRequest PUT ("/api/v1/criminals/" ++ trim personId) []
                                   (FormData formData)) ;;
       unwrap response)
      (rethrow_or "Failed to update criminal").

(** *** [lib/api/alerts.ts] *)

Record AlertsQueryParams : Type := mkAlertsQueryParams {
  aq_status : option string;
  aq_limit : option number;
  aq_offset : option number
}.

Definition getAlerts (params : option AlertsQueryParams) : M json :=
  let limit := nullish (opt_get params aq_limit) 100%float in
  let offset := nullish (opt_get params aq_offset) 0%float in
  if lt limit 1 || gt limit 1000 then
    throw (new_ApiError "limit must be between 1 and 1000" 400)
  else if lt offset 0 then
    throw (new_ApiError "offset must be non-negative" 400)
  else
    let queryParams :=
      [("limit", FNum limit); ("offset", FNum offset)]
      ++ match opt_get params aq_status with
         | Some s => if truthy s then [("status", FStr s)] else []
         | None => []
         end in
    try_catch
      (response <- send (mkRequest GET "/api/v1/alerts" queryParams NoBody) ;;
       unwrap response)
      (rethrow_or "Failed to retrieve alerts").

Definition getAlert (alertId : string) : M json :=
  if blank alertId then throw (new_ApiError "alertId is required" 400)
  else
    try_catch
      (response <- send (mkRequest GET ("/api/v1/alerts/" ++ alertId) [] NoBody) ;;
       unwrap response)
      (rethrow_or "Failed to retrieve alert").

Definition validStatuses : list string := ["Pending"; "Verified"; "Rejected"].

Definition updateAlertStatus (alertId : string) (status : string) : M json :=
  if blank alertId then throw (new_ApiError "alertId is required" 400)
  else if negb (includes validStatuses status) then
    throw (new_ApiError ("Invalid status. Must be one of: " ++ join ", " validStatuses) 400)
  else
    try_catch
      (response <- send (mkRequest PUT ("/api/v1/alerts/" ++ alertId ++ "/status") []
                                   (JsonBody [("status", FStr status)])) ;;
       unwrap response)
      (rethrow_or "Failed to update alert status").

(** *** [lib/api/enroll.ts] *)

Definition validTypes : list string :=
  ["image/jpeg"; "image/jpg"; "image/png"; "image/bmp"; "image/gif"].

Definition uploadSingleImage
    (image : option File) (name : string) (personId : option string)
    (crimeType : string) (gender : option string)
    (state district ageRange : string) (applyAugmentations : bool) : M json :=
  match image with
  | None => throw (new_ApiError "Image file is required" 400)
  | Some img =>
      if blank name then throw (new_ApiError "Name is required" 400)
      else if negb (includes validTypes (toLowerCase (file_type img))) then
        throw (new_ApiError "Invalid image type. Supported: JPEG, PNG, BMP, GIF" 400)
      else
        let formData :=
          [("image", FFile img); ("name", FStr (trim name))]
          ++ trimmed_entry "person_id" personId
          ++ [("state", FStr (trim state));
              ("district", FStr (trim district));
              ("age_range", FStr (trim ageRange));
              ("crime_type", FStr (trim crimeType))]
          ++ match gender with
             | Some g => if present g then [("gender", FStr (toLowerCase (trim g)))] else []
             | None => []
             end
          ++ [("apply_augmentations", FBool applyAugmentations)] in
        try_catch
          (response <- send (mkRequest POST "/api/v1/enroll/image" [] (FormData formData)) ;;
           ret (data response))
          (rethrow_or "Failed to enroll image")
  end.

(** The [for (const image of images)] loop: the first image of a type
    outside [validTypes], if any. *)
Definition first_invalid (images : list File) : option File :=
  find (fun image => negb (includes validTypes (toLowerCase (file_type image)))) images.

Definition uploadMultipleImages
    (images : list File) (name : string) (personId crimeType : option string)
    (applyAugmentations : bool) : M json :=
  match images with
  | [] => throw (new_ApiError "At least one image is required" 400)
  | _ :: _ =>
      if blank name then throw (new_ApiError "Name is required" 400)
      else
        match first_invalid images with
        | Some image =>
            throw (new_ApiError ("Invalid image type: " ++ file_name image
                                 ++ ". Supported: JPEG, PNG, BMP, GIF") 400)
        | None =>
            let formData :=
              map (fun image => ("images", FFile image)) images
              ++ [("name", FStr (trim name))]
              ++ trimmed_entry "person_id" personId
              ++ trimmed_entry "crime_type" crimeType
              ++ [("apply_augmentations", FBool applyAugmentations)] in
            try_catch
              (response <- send (mkRequest POST "/api/v1/enroll/images" []
                                           (FormData formData)) ;;
               ret (data response))
              (rethrow_or "Failed to enroll images")
        end
  end.

Definition validExtensions : list string := [".xlsx"; ".xls"; ".csv"].

Definition enrollBulk (excelFile : option File) (imagesFolderPath : option string)
  : M json :=
  match excelFile with
  | None => throw (new_ApiError "Excel/CSV file is required" 400)
  | Some xls =>
      let fileExtension :=
        substring_from (lastIndexOf "."%char (file_name xls))
                       (toLowerCase (file_name xls)) in
      if negb (includes validExtensions fileExtension) then
        throw (new_ApiError "Invalid file type. Supported: .xlsx, .xls, .csv" 400)
      else
        let formData :=
          [("excel_file", FFile xls)] ++ trimmed_entry "images_folder" imagesFolderPath in
        try_catch
          (response <- send (mkRequest POST "/api/v1/enroll" [] (FormData formData)) ;;
           ret (data response))
          (rethrow_or "Failed to enroll from Excel/CSV")
  end.

(** *** [lib/api/match.ts] *)

Definition matchFace
    (image : option File) (maxResults similarityThreshold : option number)
    (createAlert : option bool) (senderId : option string) : M json :=
  let maxResults := nullish maxResults 5%float in
  let similarityThreshold := nullish similarityThreshold 80.0%float in
  let createAlert := nullish createAlert true in
  match image with
  | None => throw (new_ApiError "Image file is required" 400)
  | Some img =>
      if lt maxResults 1 || gt maxResults 100 then
        throw (new_ApiError "maxResults must be between 1 and 100" 400)
      else if lt similarityThreshold 0 || gt similarityThreshold 100 then
        throw (new_ApiError "similarityThreshold must be between 0 and 100" 400)
      else
        let formData :=
          [("image", FFile img);
           ("max_results", FNum maxResults);
           ("similarity_threshold", FNum similarityThreshold);
           ("create_alert", FBool createAlert)]
          ++ match senderId with
             | Some s => if truthy s then [("sender_id", FStr s)] else []
             | None => []
             end in
        try_catch
          (response <- send (mkRequest POST "/api/v1/match" [] (FormData formData)) ;;
           ret (data response))
          (rethrow_or "Failed to match face")
  end.

Record MatchRequest : Type := mkMatchRequest {
  mr_image_url : string;
  mr_max_results : option number;
  mr_similarity_threshold : option number;
  mr_create_alert : option bool;
  mr_sender_id : option string
}.

(** [x !== undefined && (x < lo || x > hi)]. *)
Definition defined_outside (x : option number) (lo hi : number) : bool :=
  match x with Some v => lt v lo || gt v hi | None => false end.

Definition matchFaceFromUrl (request : MatchRequest) : M json :=
  if blank (mr_image_url request) then throw (new_ApiError "image_url is required" 400)
  else if negb (startsWith (mr_image_url request) "http://")
          && negb (startsWith (mr_image_url request) "https://") then
    throw (new_ApiError "image_url must be a valid HTTP/HTTPS URL" 400)
  else if defined_outside (mr_max_results request) 1%float 100%float then
    throw (new_ApiError "max_results must be between 1 and 100" 400)
  else if defined_outside (mr_similarity_threshold request) 0%float 100%float then
    throw (new_ApiError "similarity_threshold must be between 0 and 100" 400)
  else
    let json_body :=
      [("image_url", FStr (mr_image_url request))]
      ++ optional_entry "max_results" (option_map FNum (mr_max_results request))
      ++ optional_entry "similarity_threshold"
                        (option_map FNum (mr_similarity_threshold request))
      ++ optional_entry "create_alert" (option_map FBool (mr_create_alert request))
      ++ optional_entry "sender_id" (option_map FStr (mr_sender_id request)) in
    try_catch
      (response <- send (mkRequest POST "/api/v1/match/url" [] (JsonBody json_body)) ;;
       ret (data response))
      (rethrow_or "Failed to match face from URL").

(** *** [lib/api/images.ts] *)

Record ImageUrlRequest : Type := mkImageUrlRequest {
  iu_s3_key : option string;
  iu_image_url : option string
}.

(** Truthiness of an optional string: [undefined] and [""] are falsy. *)
Definition truthy_opt (s : option string) : bool :=
  match s with Some v => truthy v | None => false end.

Definition getPresignedUrl (request : ImageUrlRequest) : M json :=
  if negb (truthy_opt (iu_s3_key request)) && negb (truthy_opt (iu_image_url request)) then
    throw (new_ApiError "Either s3_key or image_url must be provided" 400)
  else if truthy_opt (iu_s3_key request)
          && negb (truthy (trim (nullish (iu_s3_key request) ""))) then
    throw (new_ApiError "s3_key cannot be empty" 400)
  else
    let trimmedUrl := trim (nullish (iu_image_url request) "") in
    if truthy_opt (iu_image_url request) && negb (truthy trimmedUrl) then
      throw (new_ApiError "image_url cannot be empty" 400)
    else if truthy_opt (iu_image_url request)
            && negb (startsWith trimmedUrl "http://")
            && negb (startsWith trimmedUrl "https://") then
      throw (new_ApiError "image_url must be a valid HTTP/HTTPS URL" 400)
    else
      let json_body :=
        optional_entry "s3_key" (option_map (fun s => FStr (trim s)) (iu_s3_key request))
        ++ optional_entry "image_url"
                          (option_map (fun s => FStr (trim s)) (iu_image_url request)) in
      try_catch
        (response <- send (mkRequest POST "/api/v1/images/presigned-url" []
                                     (JsonBody json_body)) ;;
         ret (data response))
        (rethrow_or "Failed to generate presigned URL").

(** [response.presigned_url]: a [TypeError] on [null], the property (or
    [undefined], read as [null]) otherwise. *)
Definition presigned_url_of (response : json) : M json :=
  match response with
  | JNull => throw (OtherError "TypeError" "Cannot read properties of null")
  | JObj fields => ret (nullish (assoc "presigned_url" fields) JNull)
  | _ => ret JNull
  end.

Definition getPresignedUrlFromS3Key (s3Key : string) : M json :=
  if blank s3Key then throw (new_ApiError "s3Key is required" 400)
  else
    response <- getPresignedUrl (mkImageUrlRequest (Some (trim s3Key)) None) ;;
    presigned_url_of response.

Definition getPresignedUrlFromImageUrl (imageUrl : string) : M json :=
  if blank imageUrl then throw (new_ApiError "imageUrl is required" 400)
  else
    response <- getPresignedUrl (mkImageUrlRequest None (Some (trim imageUrl))) ;;
    presigned_url_of response.

End Api.

(** ** Types of [lib/types/api.ts] the pages read *)
Module Types.
Import Js.

Record MatchResult : Type := mkMatchResult {
  person_id : string;
  name : string;
  crime_type : option string;
  confidence : number;
  face_id : option string;
  image_url : option string;
  gender : option string;
  state : option string;
  district : option string;
  age_range : option string
}.

(** [matches] is declared present; the enrollment page still tests it, so
    an absent list is representable. *)
Record MatchResponse : Type := mkMatchResponse {
  query_image_url : string;
  matches : option (list MatchResult);
  total_matches : number;
  processing_time_ms : option number
}.

Record EnrollmentResponse : Type := mkEnrollmentResponse {
  success : bool;
  enroll_message : string;
  total_criminals : number;
  total_images_indexed : number;
  errors : list string
}.

(** [status] is declared ['Pending' | 'Verified' | 'Rejected']; what the
    table compares is the string the backend sent. *)
Record AlertResponse : Type := mkAlertResponse {
  alert_id : string;
  alert_query_image_url : string;
  alert_matches : option (list MatchResult);
  sender_id : option string;
  status : string;
  created_at : string;
  updated_at : option string
}.

End Types.

(** ** [components/UploadCard.tsx] *)
Module UploadCard.
Import Js.

Definition VALID_IMAGE_TYPES : list string :=
  ["image/jpeg"; "image/jpg"; "image/png"; "image/bmp"; "image/gif"; "image/webp"].

Definition isValidImageType (file : File) : bool :=
  includes VALID_IMAGE_TYPES (toLowerCase (file_type file)).

(** The card's [error] state.  The size message interpolates two numbers
    and is kept as its parts. *)
Inductive ErrorText : Type :=
| Text (s : string)
| FileTooLarge (maxSizeMB : number) (size : number).

Definition invalid_type_text : string :=
  "Invalid file type. Please select a JPEG, PNG, BMP, GIF, or WebP image.".

(** [validateFile]: the value returned and the [error] state it leaves. *)
Definition validateFile (maxSizeMB : number) (file : File) : bool * option ErrorText :=
  if negb (isValidImageType file) then (false, Some (Text invalid_type_text))
  else
    let maxSizeBytes := (maxSizeMB * 1024 * 1024)%float in
    if gt (file_size file) maxSizeBytes then
      (false, Some (FileTooLarge maxSizeMB (file_size file)))
    else if PrimFloat.eqb (file_size file) 0 then
      (false, Some (Text "File is empty. Please select a valid image file."))
    else (true, None).

(** [handleFile]: the [error] state it leaves and the file handed to
    [onFileSelect], if the callback is called at all. *)
Definition handleFile (disabled : bool) (maxSizeMB : number) (file : File)
  : option ErrorText * option File :=
  if disabled then (Some (Text "Upload is disabled"), None)
  else
    let '(ok, err) := validateFile maxSizeMB file in
    if ok then (None, Some file) else (err, None).

End UploadCard.

(** ** [app/upload/page.tsx]: the enrollment page *)
Module UploadPage.
Import Js Client Types.

Inductive Description : Type :=
| Plain (s : string)
| EnrolledSuccessfully (total_images_indexed : number).

Record Toast : Type := mkToast {
  title : string;
  description : Description;
  variant : string
}.

Record State : Type := mkState {
  file : option File;
  name : string;
  personId : string;
  crimeType : string;
  gender : string;
  state : string;
  district : string;
  ageRange : string;
  applyAugmentations : bool;
  loading : bool;
  toasts : list Toast;
  existingMatch : option MatchResult;
  checkingMatch : bool
}.

Definition setFile (v : option File) (s : State) : State :=
  mkState v (name s) (personId s) (crimeType s) (gender s) (state s) (district s)
          (ageRange s) (applyAugmentations s) (loading s) (toasts s)
          (existingMatch s) (checkingMatch s).

Definition setExistingMatch (v : option MatchResult) (s : State) : State :=
  mkState (file s) (name s) (personId s) (crimeType s) (gender s) (state s) (district s)
          (ageRange s) (applyAugmentations s) (loading s) (toasts s)
          v (checkingMatch s).

Definition setCheckingMatch (v : bool) (s : State) : State :=
  mkState (file s) (name s) (personId s) (crimeType s) (gender s) (state s) (district s)
          (ageRange s) (applyAugmentations s) (loading s) (toasts s)
          (existingMatch s) v.

Definition setLoading (v : bool) (s : State) : State :=
  mkState (file s) (name s) (personId s) (crimeType s) (gender s) (state s) (district s)
          (ageRange s) (applyAugmentations s) v (toasts s)
          (existingMatch s) (checkingMatch s).

(** [addToast]: the toast is appended (its random id and its removal
    after five seconds are left out). *)
Definition addToast (t : Toast) (s : State) : State :=
  mkState (file s) (name s) (personId s) (crimeType s) (gender s) (state s) (district s)
          (ageRange s) (applyAugmentations s) (loading s) (toasts s ++ [t])
          (existingMatch s) (checkingMatch s).

(** "Reset form" after a successful enrollment; [applyAugmentations] is
    not reset. *)
Definition resetForm (s : State) : State :=
  mkState None "" "" "" "" "" "" "" (applyAugmentations s) (loading s) (toasts s)
          (existingMatch s) (checkingMatch s).

(** What the page writes to the console. *)
Inductive Console : Type :=
| Warn (msg : string) (error : exn).

(** One run of a handler: the state it leaves, the requests it made and
    what it logged. *)
Record Run : Type := mkRun {
  after : State;
  requests : list Request;
  console : list Console
}.

Section Handlers.
(** The awaited values read at their declared types
    ([Promise<MatchResponse>], [Promise<EnrollmentResponse>]). *)
Variable as_MatchResponse : json -> MatchResponse.
Variable as_EnrollmentResponse : json -> EnrollmentResponse.
Variable backend : Backend.

(** The probe of [checkExistingPerson]:
    [matchFace(file, 1, 80.0, false)]. *)
Definition probe (f : File) : M json :=
  Api.matchFace (Some f) (Some 1%float) (Some 80.0%float) (Some false) None.

(** "If match found with high confidence, show modal": the statements
    after the [await]. *)
Definition showIfDuplicate (matchResult : MatchResponse) (s : State) : State :=
  match matches matchResult with
  | Some (topMatch :: _) =>
      if ge (confidence topMatch) 80.0 then setExistingMatch (Some topMatch) s
      else s
  | _ => s
  end.

(** The body of [checkExistingPerson]. *)
Definition checkExistingPerson (f : File) (s : State) : Run :=
  let s := setCheckingMatch true s in
  let s := setExistingMatch None s in
  let o := probe f backend in
  match result o with
  | inr payload =>
      let s := showIfDuplicate (as_MatchResponse payload) s in
      mkRun (setCheckingMatch false s) (sent o) []
  | inl error =>
      mkRun (setCheckingMatch false s) (sent o)
            [Warn "Failed to check for existing person:" error]
  end.

(** The effect that depends on [file]. *)
Definition fileEffect (s : State) : Run :=
  match file s with
  | Some f => checkExistingPerson f s
  | None => mkRun (setExistingMatch None s) [] []
  end.

(** [onFileSelect={setFile}] followed by the effect it triggers. *)
Definition onFileSelect (f : option File) (s : State) : Run :=
  fileEffect (setFile f s).

(** The page's use of the card: [maxSizeMB={10}], [disabled={checkingMatch}]. *)
Definition chooseFile (f : File) (s : State) : option UploadCard.ErrorText * Run :=
  match UploadCard.handleFile (checkingMatch s) 10%float f with
  | (err, Some f') => (err, onFileSelect (Some f') s)
  | (err, None) => (err, mkRun s [] [])
  end.

(** [x || undefined] for a form field. *)
Definition or_undefined (x : string) : option string :=
  if truthy x then Some x else None.

Definition required_missing (s : State) : bool :=
  match file s with None => true | Some _ => false end
  || negb (truthy (name s)) || negb (truthy (state s)) || negb (truthy (district s))
  || negb (truthy (ageRange s)) || negb (truthy (crimeType s)).

(** [error.message || 'Failed to upload image'] on a caught value. *)
Definition error_message_of (error : exn) : string :=
  match error with
  | IsApiError e => message e
  | OtherError _ msg => msg
  end.

Definition handleSubmit (s : State) : Run :=
  if required_missing s then
    mkRun (addToast (mkToast "Error"
             (Plain "Please fill in all required fields: Name, State, District, Age Range, and Crime Type")
             "error") s) [] []
  else
    let s := setLoading true s in
    let o := Api.uploadSingleImage (file s) (name s) (or_undefined (personId s))
               (crimeType s) (or_undefined (gender s)) (state s) (district s)
               (ageRange s) (applyAugmentations s) backend in
    let s :=
      match result o with
      | inr payload =>
          let r := as_EnrollmentResponse payload in
          if success r then
            (* [setFile(null)] re-runs the file effect, which clears the match *)
            setExistingMatch None
              (resetForm (addToast (mkToast "Success"
                            (EnrolledSuccessfully (total_images_indexed r)) "success") s))
          else
            addToast (mkToast "Error"
                        (Plain (or_else (enroll_message r) "Enrollment failed")) "error") s
      | inl error =>
          addToast (mkToast "Error"
                      (Plain (or_else (error_message_of error) "Failed to upload image"))
                      "error") s
      end in
    mkRun (setLoading false s) (sent o) [].

(** The submit button's [disabled]. *)
Definition submitDisabled (s : State) : bool := loading s || required_missing s.

(** The [ExistingPersonModal] elements of the render: the JSX holds the
    [existingMatch && <ExistingPersonModal .../>] block twice. *)
Definition modals (s : State) : list MatchResult :=
  match existingMatch s with
  | Some m => [m; m]
  | None => []
  end.

Definition modalShown (s : State) : bool :=
  match modals s with [] => false | _ :: _ => true end.

End Handlers.

End UploadPage.

(** ** [components/AlertsTable.tsx] *)
Module AlertsTable.
Import Js Client Types.

(** What a click does. *)
Inductive Action : Type :=
| HandleView (alert : AlertResponse)
| HandleStatusUpdate (alertId : string) (status : string).

Record Button : Type := mkButton {
  label : string;
  onClick : Action;
  disabled : bool
}.

Record Props : Type := mkProps {
  alerts : list AlertResponse;
  onView : bool   (* whether the [onView] callback was passed *)
}.

Record State : Type := mkState {
  updating : option string;
  error : option string
}.

Definition is_updating (s : State) (alert : AlertResponse) : bool :=
  match updating s with
  | Some id => String.eqb id (alert_id alert)
  | None => false
  end.

(** [{onView && <Button ...>View</Button>}]. *)
Definition viewButtons (p : Props) (s : State) (alert : AlertResponse) : list Button :=
  if onView p then [mkButton "View" (HandleView alert) (is_updating s alert)] else [].

(** [{alert.status === 'Pending' && <> Verify, Reject </>}]. *)
Definition statusButtons (s : State) (alert : AlertResponse) : list Button :=
  if String.eqb (status alert) "Pending" then
    [mkButton "Verify" (HandleStatusUpdate (alert_id alert) "Verified") (is_updating s alert);
     mkButton "Reject" (HandleStatusUpdate (alert_id alert) "Rejected") (is_updating s alert)]
  else [].

(** The Actions cell of one row. *)
Definition rowButtons (p : Props) (s : State) (alert : AlertResponse) : list Button :=
  viewButtons p s alert ++ statusButtons s alert.

(** An entry of [STATUS_CONFIG]; the icon is kept as its name. *)
Record Badge : Type := mkBadge {
  variant : string;
  icon : string;
  color : string;
  badge_label : string
}.

Definition STATUS_CONFIG : list (string * Badge) :=
  [("Pending", mkBadge "secondary" "Clock" "text-yellow-500" "Pending");
   ("Verified", mkBadge "default" "CheckCircle2" "text-green-500" "Verified");
   ("Rejected", mkBadge "destructive" "XCircle" "text-red-500" "Rejected")].

Fixpoint config_of (status' : string) (config : list (string * Badge)) : option Badge :=
  match config with
  | [] => None
  | (k, badge) :: rest => if String.eqb status' k then Some badge else config_of status' rest
  end.

(** [getStatusBadge(status)].  For a status that is no key of
    [STATUS_CONFIG] there is no badge: [config.icon] is read off
    [undefined] and throws, or, when the status names a property of
    [Object.prototype], the icon is [undefined] and the element cannot be
    rendered.  Either way the table does not render: [None]. *)
Definition getStatusBadge (status' : string) : option Badge :=
  config_of status' STATUS_CONFIG.

(** A row of the table: the alert, its badge, its Actions cell. *)
Record Row : Type := mkRow {
  row_alert : AlertResponse;
  row_badge : Badge;
  row_buttons : list Button
}.

(** [alerts.map((alert) => <TableRow> ... </TableRow>)]: no rows at all
    once one of them cannot be built. *)
Fixpoint rows (p : Props) (s : State) (l : list AlertResponse) : option (list Row) :=
  match l with
  | [] => Some []
  | alert :: rest =>
      match getStatusBadge (status alert) with
      | Some badge =>
          match rows p s rest with
          | Some rs => Some (mkRow alert badge (rowButtons p s alert) :: rs)
          | None => None
          end
      | None => None
      end
  end.

(** The rows of the table; the empty state ("No alerts found") has none,
    and [None] is a rendering that throws. *)
Definition render (p : Props) (s : State) : option (list Row) :=
  rows p s (alerts p).

(** The status changes the buttons of a row ask for, enabled or not: the
    status shown in the row, and the status asked for. *)
Definition transitionsOf (row : Row) : list (string * string) :=
  flat_map
    (fun b =>
       match onClick b with
       | HandleStatusUpdate _ target => [(status (row_alert row), target)]
       | HandleView _ => []
       end)
    (row_buttons row).

(** A button that asks for a status change. *)
Definition changesStatus (b : Button) : bool :=
  match onClick b with
  | HandleStatusUpdate _ _ => true
  | HandleView _ => false
  end.

(** Every status change a button of the rendered table asks for. *)
Definition offeredTransitions (p : Props) (s : State) : list (string * string) :=
  match render p s with
  | Some rs => flat_map transitionsOf rs
  | None => []
  end.

(** The status buttons the rendered table shows for the alert [id]. *)
Definition statusButtonsFor (id : string) (rs : list Row) : list Button :=
  flat_map
    (fun row =>
       if String.eqb (alert_id (row_alert row)) id
       then filter changesStatus (row_buttons row)
       else [])
    rs.

(** The callbacks of the parent a handler called. *)
Inductive Callback : Type :=
| OnStatusUpdate
| OnError (msg : string).

Record Run : Type := mkRun {
  after : State;
  requests : list Request;
  called : list Callback
}.

(** [handleStatusUpdate(alertId, status)]. *)
Definition handleStatusUpdate (backend : Backend) (alertId status : string) (s : State)
  : Run :=
  if negb (truthy alertId) || negb (truthy status) then
    let errorMsg := "Alert ID and status are required" in
    mkRun (mkState (updating s) (Some errorMsg)) [] [OnError errorMsg]
  else
    let o := Api.updateAlertStatus alertId status backend in
    match result o with
    | inr _ => mkRun (mkState None None) (sent o) [OnStatusUpdate]
    | inl err =>
        let errorMessage :=
          match err with
          | IsApiError e => message e
          | OtherError _ _ => "Failed to update alert status"
          end in
        mkRun (mkState None (Some errorMessage)) (sent o) [OnError errorMessage]
    end.

(** The alert as the list shows it once the backend has recorded the new
    status and the list has been fetched again. *)
Definition withStatus (status' : string) (alert : AlertResponse) : AlertResponse :=
  mkAlertResponse (alert_id alert) (alert_query_image_url alert) (alert_matches alert)
                  (sender_id alert) status' (created_at alert) (updated_at alert).

End AlertsTable.

(** ** [app/complaints/page.tsx] *)
Module ComplaintsPage.

Record Complaint : Type := mkComplaint {
  id : string;
  created_at : string;
  complaint_type : string;
  status : string;
  user_id : option string;
  description : option string;
  location : option string;
  updated_at : option string
}.

Definition getFilteredComplaints (complaints : list Complaint) (status' : string)
  : list Complaint :=
  if String.eqb status' "pending" then
    filter (fun c =>
              String.eqb (status c) "Pending"
              || String.eqb (status c) "pending"
              || String.eqb (status c) "submitted"
              || String.eqb (status c) "Submitted") complaints
  else if String.eqb status' "open" then
    filter (fun c => String.eqb (status c) "Open" || String.eqb (status c) "open")
           complaints
  else
    filter (fun c =>
              String.eqb (status c) "Closed"
              || String.eqb (status c) "Resolved"
              || String.eqb (status c) "closed"
              || String.eqb (status c) "resolved") complaints.

(** The three tabs, [TabType]. *)
Definition tabs : list string := ["pending"; "open"; "closed"].

End ComplaintsPage.

(** ** [app/analytics/page.tsx]: summary counts and monthly trend *)
Module AnalyticsPage.

(** A [Date] by its local calendar fields, as [new Date(year, monthIndex, 1)]
    takes them: a month index outside 0..11 carries into the year. *)
Record Date : Type := mkDate {
  year : Z;
  monthIndex : Z
}.

Definition getFullYear (d : Date) : Z := (year d + monthIndex d / 12)%Z.
Definition getMonth (d : Date) : Z := (monthIndex d mod 12)%Z.

(** [new Date(c.created_at)]: parsing and the time zone are the runtime's;
    a row holds the outcome, a date or [Invalid Date]. *)
Inductive Parsed : Type :=
| InvalidDate
| Valid (d : Date).

(** The short month names ([en-US]). *)
Definition monthShort (m : Z) : string :=
  match m with
  | 0 => "Jan" | 1 => "Feb" | 2 => "Mar" | 3 => "Apr"
  | 4 => "May" | 5 => "Jun" | 6 => "Jul" | 7 => "Aug"
  | 8 => "Sep" | 9 => "Oct" | 10 => "Nov" | 11 => "Dec"
  | _ => ""
  end%Z.

(** [d.toLocaleString('default', { month: 'short' })]. *)
Definition toLocaleMonth (d : Parsed) : string :=
  match d with
  | InvalidDate => "Invalid Date"
  | Valid d => monthShort (getMonth d)
  end.

Record ComplaintRow : Type := mkComplaintRow {
  id : string;
  created_at : Parsed;
  complaint_type : option string;
  status : string
}.

Record RTIRow : Type := mkRTIRow {
  rti_id : string;
  rti_created_at : Parsed;
  rti_status : string
}.

Record Stats : Type := mkStats {
  totalUsers : nat;
  totalComplaints : nat;
  openComplaints : nat;
  closedComplaints : nat;
  totalRTI : nat
}.

Record MonthlyData : Type := mkMonthlyData {
  name : string;
  complaints : nat;
  rti : nat
}.

(** The filter behind [open]. *)
Definition isOpen (c : ComplaintRow) : bool :=
  negb (String.eqb (status c) "Resolved")
  && negb (String.eqb (status c) "Closed")
  && negb (String.eqb (status c) "closed")
  && negb (String.eqb (status c) "resolved").

(** The filter behind [closed]. *)
Definition isClosed (c : ComplaintRow) : bool :=
  String.eqb (status c) "Resolved"
  || String.eqb (status c) "Closed"
  || String.eqb (status c) "closed"
  || String.eqb (status c) "resolved".

(** "2. Calculate Summary Stats". *)
Definition summary (userCount : option nat) (allComplaints : list ComplaintRow)
           (allRTIs : list RTIRow) : Stats :=
  let open := length (filter isOpen allComplaints) in
  let closed := length (filter isClosed allComplaints) in
  mkStats (match userCount with Some n => n | None => 0 end)
          (length allComplaints) open closed (length allRTIs).

(** The [months] object: string keys in insertion order. *)
Definition Months : Type := list (string * MonthlyData).

Fixpoint lookup (key : string) (months : Months) : option MonthlyData :=
  match months with
  | [] => None
  | (k, v) :: rest => if String.eqb key k then Some v else lookup key rest
  end.

(** [months[key] = v]: an existing key keeps its place. *)
Fixpoint assign (key : string) (v : MonthlyData) (months : Months) : Months :=
  match months with
  | [] => [(key, v)]
  | (k, x) :: rest =>
      if String.eqb key k then (k, v) :: rest else (k, x) :: assign key v rest
  end.

(** [if (months[key]) months[key] = f(months[key])], in place. *)
Fixpoint update (key : string) (f : MonthlyData -> MonthlyData) (months : Months)
  : Months :=
  match months with
  | [] => []
  | (k, x) :: rest =>
      if String.eqb key k then (k, f x) :: rest else (k, x) :: update key f rest
  end.

(** The loop [for (let i = 5; i >= 0; i--)]. *)
Definition initMonths (now : Date) : Months :=
  fold_left
    (fun months i =>
       let d := mkDate (getFullYear now) (getMonth now - i) in
       let key := toLocaleMonth (Valid d) in
       assign key (mkMonthlyData key 0 0) months)
    [5; 4; 3; 2; 1; 0]%Z [].

Definition countComplaint (months : Months) (c : ComplaintRow) : Months :=
  update (toLocaleMonth (created_at c))
         (fun m => mkMonthlyData (name m) (S (complaints m)) (rti m)) months.

Definition countRTI (months : Months) (r : RTIRow) : Months :=
  update (toLocaleMonth (rti_created_at r))
         (fun m => mkMonthlyData (name m) (complaints m) (S (rti m))) months.

(** "3. Monthly Trend (Last 6 Months)": [Object.values(months)] after the
    two [forEach] passes. *)
Definition monthlyTrend (now : Date) (allComplaints : list ComplaintRow)
           (allRTIs : list RTIRow) : list MonthlyData :=
  let months := initMonths now in
  let months := fold_left countComplaint allComplaints months in
  let months := fold_left countRTI allRTIs months in
  map snd months.

(** [complaints || []]. *)
Definition or_empty {A} (rows : option (list A)) : list A :=
  match rows with Some l => l | None => [] end.

(** The part of [fetchAnalytics] that fills [stats] and [monthlyData]. *)
Definition fetchAnalytics (now : Date) (complaints : option (list ComplaintRow))
           (rtis : option (list RTIRow)) (userCount : option nat)
  : Stats * list MonthlyData :=
  let allComplaints := or_empty complaints in
  let allRTIs := or_empty rtis in
  (summary userCount allComplaints allRTIs, monthlyTrend now allComplaints allRTIs).

(** The month keys of the trailing window, oldest first. *)
Definition windowKeys (now : Date) : list string :=
  map (fun i => monthShort ((getMonth now - i) mod 12)%Z) [5; 4; 3; 2; 1; 0]%Z.

Definition countKey {A} (key_of : A -> string) (key : string) (rows : list A) : nat :=
  length (filter (fun r => String.eqb (key_of r) key) rows).

(** The bucket key of a row. *)
Definition complaintKey (c : ComplaintRow) : string := toLocaleMonth (created_at c).
Definition rtiKey (r : RTIRow) : string := toLocaleMonth (rti_created_at r).

(** The same row dated in another year. *)
Definition inYear (y : Z) (c : ComplaintRow) : ComplaintRow :=
  mkComplaintRow (id c)
    (match created_at c with
     | InvalidDate => InvalidDate
     | Valid d => Valid (mkDate y (getMonth d))
     end)
    (complaint_type c) (status c).

End AnalyticsPage.

(** ** Vocabulary of the statements below *)
Module Shapes.
Import Js Client.

(** The backend answers every request with a success whose body is [d]. *)
Definition answers (b : Backend) (d : json) : Prop :=
  forall r, exists st, transport b r = inr (mkAxiosResponse st d).

(** A backend that answers [200] and [d] to everything. *)
Definition answering (d : json) : Backend :=
  mkBackend "https://policestaging.codegnan.ai/" (fun _ => inr (mkAxiosResponse 200 d)).

(** A backend on which every request fails with [err]. *)
Definition failing (err : AxiosError) : Backend :=
  mkBackend "https://policestaging.codegnan.ai/" (fun _ => inl err).

(** [d] is the envelope [{data: payload, ...}]. *)
Definition envelope_of (payload d : json) : Prop :=
  exists fields, d = JObj fields /\ assoc "data" fields = Some payload.

(** A payload sent bare that the ['data' in] test tells from an envelope:
    an array, an object without a [data] property, or a falsy value. *)
Definition is_bare (p : json) : bool :=
  match p with
  | JArr _ => true
  | JObj fields => match assoc "data" fields with Some _ => false | None => true end
  | _ => negb (truthy_value p)
  end.

(** The call yields [payload] whenever it gets as far as a request. *)
Definition yields (call : M json) (b : Backend) (payload : json) : Prop :=
  sent (call b) = [] \/ result (call b) = inr payload.

(** The call is refused on the client, whatever the backend: it throws
    the [ApiError] [msg] with status 400 and sends nothing. *)
Definition refused {A} (call : M A) (msg : string) : Prop :=
  forall b, call b = mkOutcome (inl (new_ApiError msg 400)) [].

(** What a thrown value is once it has passed an accessor's [catch]
    clause: an [ApiError] is the same error, anything else has become the
    [ApiError] [own] with status 500. *)
Definition rethrown (own : string) (error : exn) : exn :=
  match error with
  | IsApiError e => IsApiError e
  | OtherError _ _ => new_ApiError own 500
  end.

(** The call passes validation and sends the one request [r].  When [r]
    fails, the call throws what the response interceptor threw for the
    failure, as its [catch] clause passes it on.  When [r] is answered,
    the call goes on with [k]: it returns what [k] returns, and throws
    what [k] throws as its [catch] clause passes it on. *)
Definition guarded (call : M json) (r : Request) (k : AxiosResponse -> M json)
           (own : string) : Prop :=
  forall b,
    sent (call b) = [r]
    /\ (forall err, transport b r = inl err ->
          result (call b) = inl (rethrown own (onResponseError (API_BASE_URL b) err)))
    /\ (forall resp, transport b r = inr resp ->
          result (call b) = match result (k resp b) with
                            | inr v => inr v
                            | inl e => inl (rethrown own e)
                            end).

(** The same, for a call that goes on with [k] outside any [catch]
    clause: what [k] throws leaves the call as it is. *)
Definition unguarded (call : M json) (r : Request) (k : AxiosResponse -> M json)
           (own : string) : Prop :=
  forall b,
    sent (call b) = [r]
    /\ (forall err, transport b r = inl err ->
          result (call b) = inl (rethrown own (onResponseError (API_BASE_URL b) err)))
    /\ (forall resp, transport b r = inr resp -> result (call b) = result (k resp b)).


(** The checks an accessor makes before any request, in source order, each
    with the message it throws: the call is refused with the message of the
    first check that fails, and is [otherwise] when none does. *)
Fixpoint checked {A} (call : M A) (checks : list (bool * string)) (otherwise : Prop)
  : Prop :=
  match checks with
  | [] => otherwise
  | (failed, msg) :: rest =>
      if failed then refused call msg else checked call rest otherwise
  end.



(** The accepted spellings of a complaint status, by triage bucket. *)
Definition pendingSpelling (s : string) : Prop :=
  s = "Pending" \/ s = "pending" \/ s = "submitted" \/ s = "Submitted".
Definition openSpelling (s : string) : Prop :=
  s = "Open" \/ s = "open".
Definition closedSpelling (s : string) : Prop :=
  s = "Closed" \/ s = "closed" \/ s = "Resolved" \/ s = "resolved".

Definition sampleComplaints : list ComplaintsPage.Complaint :=
  [ComplaintsPage.mkComplaint "1" "2025-01-02" "Theft" "submitted" None None None None;
   ComplaintsPage.mkComplaint "2" "2025-01-03" "Noise" "Resolved" None None None None;
   ComplaintsPage.mkComplaint "3" "2025-01-04" "Noise" "In Review" None None None None].

End Shapes.

(** ** More built-ins: suffix and substring tests, sets and sorting of strings *)
Module JsMore.
Import Js Client.

(** [s.endsWith(suffix)]. *)
Fixpoint endsWith (s suffix : string) : bool :=
  String.eqb s suffix
  || match s with
     | EmptyString => false
     | String _ s' => endsWith s' suffix
     end.

(** [s.includes(sub)]. *)
Fixpoint contains (s sub : string) : bool :=
  String.prefix sub s
  || match s with
     | EmptyString => false
     | String _ s' => contains s' sub
     end.

(** [set.add(x)] on a [Set<string>], kept in insertion order. *)
Definition set_add (x : string) (set : list string) : list string :=
  if includes set x then set else set ++ [x].

(** A byte that continues a UTF-8 sequence. *)
Definition continuation (c : ascii) : bool :=
  ((128 <=? N_of_ascii c) && (N_of_ascii c <? 192))%N.

(** The UTF-16 code units of a string, read off its UTF-8 bytes: one unit
    for a sequence of one, two or three bytes, a surrogate pair for one of
    four; a byte that starts no sequence reads as U+FFFD. *)
Fixpoint code_units (s : string) : list N :=
  match s with
  | EmptyString => []
  | String c1 s1 =>
      let b1 := N_of_ascii c1 in
      if (b1 <? 128)%N then b1 :: code_units s1
      else
        match s1 with
        | EmptyString => [65533%N]
        | String c2 s2 =>
            let b2 := N_of_ascii c2 in
            if ((192 <=? b1) && (b1 <? 224))%N && continuation c2 then
              ((b1 - 192) * 64 + (b2 - 128))%N :: code_units s2
            else
              match s2 with
              | EmptyString => 65533%N :: code_units s1
              | String c3 s3 =>
                  let b3 := N_of_ascii c3 in
                  if ((224 <=? b1) && (b1 <? 240))%N && continuation c2 && continuation c3
                  then ((b1 - 224) * 4096 + (b2 - 128) * 64 + (b3 - 128))%N :: code_units s3
                  else
                    match s3 with
                    | EmptyString => 65533%N :: code_units s1
                    | String c4 s4 =>
                        let b4 := N_of_ascii c4 in
                        if ((240 <=? b1) && (b1 <? 248))%N && continuation c2
                           && continuation c3 && continuation c4
                        then
                          let v := ((b1 - 240) * 262144 + (b2 - 128) * 4096
                                    + (b3 - 128) * 64 + (b4 - 128) - 65536)%N in
                          (55296 + v / 1024)%N :: (56320 + v mod 1024)%N :: code_units s4
                        else 65533%N :: code_units s1
                    end
              end
        end
  end.

(** [a <= b] on sequences of code units, the first difference deciding. *)
Fixpoint units_leb (a b : list N) : bool :=
  match a, b with
  | [], _ => true
  | _ :: _, [] => false
  | x :: a', y :: b' =>
      if (x <? y)%N then true else if (y <? x)%N then false else units_leb a' b'
  end.

(** The order of [Array.prototype.sort()] without a comparator, on
    strings: by UTF-16 code unit. *)
Definition code_unit_leb (x y : string) : bool :=
  units_leb (code_units x) (code_units y).

(** [Array.prototype.sort()] without a comparator, on strings.  The sort
    is stable, as this insertion is: of two strings that compare equal the
    earlier stays first. *)
Fixpoint insert_sorted (x : string) (l : list string) : list string :=
  match l with
  | [] => [x]
  | y :: l' => if code_unit_leb x y then x :: l else y :: insert_sorted x l'
  end.

Definition sort (l : list string) : list string := fold_right insert_sorted [] l.

(** The [TypeError] of a property read on [null]. *)
Definition null_read : exn := OtherError "TypeError" "Cannot read properties of null".

(** [v = row.k; v && typeof v === 'string'] on a row of a payload, for a
    property name that no array, string, number or boolean has ([state],
    [district], [crime_type]): the string when the test holds.  Reading a
    property of [null] throws. *)
Definition string_prop (k : string) (row : json) : exn + option string :=
  match row with
  | JNull => inl null_read
  | JObj fields =>
      inr (match assoc k fields with
           | Some (JStr s) => if truthy s then Some s else None
           | _ => None
           end)
  | _ => inr None
  end.

(** A pure computation that may throw, as a step of an accessor. *)
Definition lift {A} (x : exn + A) : M A :=
  match x with inl e => throw e | inr a => ret a end.

End JsMore.

(** ** [lib/api/criminals.ts]: the option lists *)
Module Options.
Import Js Client Api JsMore.
Local Open Scope api_scope.

(** [getCriminals({ limit: 1000 })]. *)
Definition allCriminals : M json :=
  getCriminals (Some (mkCriminalsQueryParams (Some 1000%float) None None None None None None)).

(** [criminals.forEach(criminal => { if (test(criminal)) set.add(value(criminal)) })]
    where [pick] is the test and the value: the set after the loop, or the
    first exception. *)
Fixpoint forEach_add (pick : json -> exn + option string) (rows : list json)
         (set : list string) : exn + list string :=
  match rows with
  | [] => inr set
  | row :: rest =>
      match pick row with
      | inl e => inl e
      | inr (Some s) => forEach_add pick rest (set_add s set)
      | inr None => forEach_add pick rest set
      end
  end.

(** [criminals.forEach(...)] on the awaited value: only an array has the
    method. *)
Definition collect (pick : json -> exn + option string) (criminals : json)
  : M (list string) :=
  match criminals with
  | JArr rows => lift (forEach_add pick rows [])
  | JNull => throw null_read
  | _ => throw (OtherError "TypeError" "criminals.forEach is not a function")
  end.

Definition getUniqueStates : M (list string) :=
  try_catch
    (criminals <- allCriminals ;;
     states <- collect (string_prop "state") criminals ;;
     ret (sort states))
    (rethrow_or "Failed to retrieve states").

(** [criminal.state === state && criminal.district
     && typeof criminal.district === 'string'], and the district then. *)
Definition district_in (state : string) (row : json) : exn + option string :=
  match row with
  | JNull => inl null_read
  | JObj fields =>
      inr (match assoc "state" fields with
           | Some (JStr s) =>
               if String.eqb s state then
                 match assoc "district" fields with
                 | Some (JStr d) => if truthy d then Some d else None
                 | _ => None
                 end
               else None
           | _ => None
           end)
  | _ => inr None
  end.

Definition getDistrictsByState (state : string) : M (list string) :=
  if blank state then ret []
  else
    try_catch
      (criminals <- allCriminals ;;
       districts <- collect (district_in state) criminals ;;
       ret (sort districts))
      (rethrow_or "Failed to retrieve districts").

(** The rows of a payload are objects or other non-null values. *)
Definition no_null_row (rows : list json) : Prop := Forall (fun row => row <> JNull) rows.

(** The string relation of the sort. *)
Definition string_le (a b : string) : Prop := code_unit_leb a b = true.

End Options.

(** ** [app/upload/page.tsx]: the modal's buttons and the state and district lists *)
Module EnrollmentFlow.
Import Js Client Types UploadPage.

(** [onProceed]: "Close modal but keep file". *)
Definition onProceed (s : State) : State := setExistingMatch None s.

Section Flow.
Variable as_MatchResponse : json -> MatchResponse.
Variable backend : Backend.

(** [onClose]: [setExistingMatch(null); setFile(null)], and the file effect
    that the change of [file] triggers. *)
Definition onClose (s : State) : Run :=
  onFileSelect as_MatchResponse backend None (setExistingMatch None s).

End Flow.

(** The lists behind the two selects and their loading flags. *)
Record Lists : Type := mkLists {
  states : list string;
  districts : list string;
  loadingStates : bool;
  loadingDistricts : bool
}.

Definition setState (v : string) (s : State) : State :=
  mkState (file s) (name s) (personId s) (crimeType s) (gender s) v (district s)
          (ageRange s) (applyAugmentations s) (loading s) (toasts s)
          (existingMatch s) (checkingMatch s).

Definition setDistrict (v : string) (s : State) : State :=
  mkState (file s) (name s) (personId s) (crimeType s) (gender s) (state s) v
          (ageRange s) (applyAugmentations s) (loading s) (toasts s)
          (existingMatch s) (checkingMatch s).

Inductive Logged : Type :=
| ConsoleError (msg : string) (error : exn).

Record Loaded : Type := mkLoaded {
  form : State;
  lists : Lists;
  sent_requests : list Request;
  logged : list Logged
}.

(** "Load states on mount". *)
Definition loadStates (backend : Backend) (s : State) (l : Lists) : Loaded :=
  let o := Options.getUniqueStates backend in
  match result o with
  | inr statesList =>
      mkLoaded s (mkLists statesList (districts l) false (loadingDistricts l)) (sent o) []
  | inl error =>
      mkLoaded
        (addToast (mkToast "Warning"
                     (Plain "Could not load states. You can still enter manually.")
                     "default") s)
        (mkLists (states l) (districts l) false (loadingDistricts l))
        (sent o) [ConsoleError "Failed to load states:" error]
  end.

(** "Load districts when state changes": the effect that depends on [state]. *)
Definition stateEffect (backend : Backend) (s : State) (l : Lists) : Loaded :=
  if truthy (state s) then
    let s := setDistrict "" s in
    let o := Options.getDistrictsByState (state s) backend in
    match result o with
    | inr districtsList =>
        mkLoaded s (mkLists (states l) districtsList (loadingStates l) false) (sent o) []
    | inl error =>
        mkLoaded s (mkLists (states l) [] (loadingStates l) false) (sent o)
                 [ConsoleError "Failed to load districts:" error]
    end
  else
    mkLoaded (setDistrict "" s) (mkLists (states l) [] (loadingStates l) (loadingDistricts l))
             [] [].

(** The state select's [onChange] and the effect it triggers. *)
Definition onStateChange (backend : Backend) (v : string) (s : State) (l : Lists) : Loaded :=
  stateEffect backend (setState v s) l.

End EnrollmentFlow.

(** ** [CriminalResponse] of [lib/types/api.ts] *)
Module Criminal.

(** [images] and [s3_paths] are declared present; the cards read them with
    [?.], so an absent list is representable. *)
Record CriminalResponse : Type := mkCriminalResponse {
  person_id : string;
  name : string;
  crime_type : option string;
  gender : option string;
  state : option string;
  district : option string;
  age_range : option string;
  images : option (list string);
  s3_paths : option (list string);
  created_at : string;
  updated_at : option string
}.

(** [x || ''] for an optional string. *)
Definition or_empty (x : option string) : string :=
  match x with Some s => Js.or_else s "" | None => "" end.

End Criminal.

(** ** [app/criminals/page.tsx]: the list, its pages and the edit *)
Module CriminalsPage.
Import Js Client Api Criminal.

Record State : Type := mkState {
  criminals : list json;
  loading : bool;
  search : string;
  page : number;
  hasMore : bool;
  crimeTypeFilter : string;
  stateFilter : string;
  districtFilter : string;
  genderFilter : string;
  editingCriminal : option CriminalResponse
}.

Definition setCriminals (v : list json) (s : State) : State :=
  mkState v (loading s) (search s) (page s) (hasMore s) (crimeTypeFilter s) (stateFilter s)
          (districtFilter s) (genderFilter s) (editingCriminal s).

Definition setLoading (v : bool) (s : State) : State :=
  mkState (criminals s) v (search s) (page s) (hasMore s) (crimeTypeFilter s) (stateFilter s)
          (districtFilter s) (genderFilter s) (editingCriminal s).

Definition setPage (v : number) (s : State) : State :=
  mkState (criminals s) (loading s) (search s) v (hasMore s) (crimeTypeFilter s)
          (stateFilter s) (districtFilter s) (genderFilter s) (editingCriminal s).

Definition setHasMore (v : bool) (s : State) : State :=
  mkState (criminals s) (loading s) (search s) (page s) v (crimeTypeFilter s) (stateFilter s)
          (districtFilter s) (genderFilter s) (editingCriminal s).

Definition setEditingCriminal (v : option CriminalResponse) (s : State) : State :=
  mkState (criminals s) (loading s) (search s) (page s) (hasMore s) (crimeTypeFilter s)
          (stateFilter s) (districtFilter s) (genderFilter s) v.

(** [const limit = 20]. *)
Definition limit : number := 20%float.

(** [x || undefined]. *)
Definition or_undefined (x : string) : option string :=
  if truthy x then Some x else None.

Record Run : Type := mkRun {
  after : State;
  requests : list Request
}.

(** The query of [fetchCriminals]: every value is the one of the render the
    function was created in, [page] included. *)
Definition query (s : State) : CriminalsQueryParams :=
  mkCriminalsQueryParams (Some limit) (Some (page s * limit)%float)
    (or_undefined (search s)) (or_undefined (crimeTypeFilter s))
    (or_undefined (stateFilter s)) (or_undefined (districtFilter s))
    (or_undefined (genderFilter s)).

(** [Array.isArray(data) ? data : []]. *)
Definition rows_of (data : json) : list json :=
  match data with JArr rows => rows | _ => [] end.

(** [fetchCriminals(reset)], called from the render whose state is [s]. *)
Definition fetchCriminals (backend : Backend) (reset : bool) (s : State) : Run :=
  let s1 := if reset then setCriminals [] (setPage 0%float s) else s in
  let s1 := setLoading true s1 in
  let o := getCriminals (Some (query s)) backend in
  let s2 :=
    match result o with
    | inr data =>
        let criminalsData := rows_of data in
        let s2 :=
          if reset then setCriminals criminalsData s1
          else setCriminals (criminals s1 ++ criminalsData) s1 in
        setHasMore (Nat.eqb (length criminalsData) 20) s2
    | inl _ =>
        let s2 := if reset then setCriminals [] s1 else s1 in
        setHasMore false s2
    end in
  mkRun (setLoading false s2) (sent o).

(** [handleLoadMore]. *)
Definition handleLoadMore (s : State) : State :=
  if negb (loading s) && hasMore s then setPage (page s + 1)%float s else s.

(** The effect that depends on [page]: [if (page > 0) fetchCriminals(false)]. *)
Definition pageEffect (backend : Backend) (s : State) : Run :=
  if gt (page s) 0 then fetchCriminals backend false s else mkRun s [].

(** [handleUpdate], the modal's [onSave]: the state it leaves and the
    requests made, the refresh included, and whether it threw. *)
Definition handleUpdate (backend : Backend) (updatedData : CriminalUpdate) (s : State)
  : Run * option exn :=
  match editingCriminal s with
  | None => (mkRun s [], None)
  | Some editing =>
      let o := updateCriminal (person_id editing) updatedData backend in
      match result o with
      | inr _ =>
          let refresh := fetchCriminals backend true (setEditingCriminal None s) in
          (mkRun (after refresh) (sent o ++ requests refresh), None)
      | inl error => (mkRun s (sent o), Some error)
      end
  end.

End CriminalsPage.

(** ** [components/EditCriminalModal.tsx] *)
Module EditCriminalModal.
Import Js Client Api Criminal.

Record Form : Type := mkForm {
  name : string;
  crimeType : string;
  state : string;
  district : string;
  gender : string;
  imageFile : option File;
  districts : list string;
  loadingDistricts : bool;
  saving : bool
}.

(** The initial state, from the [criminal] and [districts] props. *)
Definition initial (criminal : CriminalResponse) (initialDistricts : list string) : Form :=
  mkForm (or_else (Criminal.name criminal) "") (or_empty (crime_type criminal))
         (or_empty (Criminal.state criminal)) (or_empty (Criminal.district criminal))
         (or_empty (Criminal.gender criminal)) None initialDistricts false false.

(** [normalizeValue]: [val.trim() || undefined]. *)
Definition normalizeValue (val : string) : option string :=
  if truthy (trim val) then Some (trim val) else None.

(** [a !== b] on [string | undefined]. *)
Definition differ (a b : option string) : bool :=
  match a, b with
  | Some x, Some y => negb (String.eqb x y)
  | None, None => false
  | _, _ => true
  end.

(** [if (normalizeValue(v) !== normalizeValue(old || '')) updateData.k = normalizeValue(v)].
    A property set to [undefined] and a property left out are both [None]:
    [updateCriminal] tests [!== undefined] only. *)
Definition changed (v : string) (old : option string) : option string :=
  if differ (normalizeValue v) (normalizeValue (or_empty old)) then normalizeValue v
  else None.

(** The [updateData] that [handleSubmit] builds. *)
Definition updateData (criminal : CriminalResponse) (f : Form) : CriminalUpdate :=
  mkCriminalUpdate
    (if negb (String.eqb (trim (name f)) (or_else (Criminal.name criminal) ""))
     then normalizeValue (name f) else None)
    (changed (crimeType f) (crime_type criminal))
    (changed (state f) (Criminal.state criminal))
    (changed (district f) (Criminal.district criminal))
    (changed (gender f) (Criminal.gender criminal))
    (imageFile f).

Definition setSaving (v : bool) (f : Form) : Form :=
  mkForm (name f) (crimeType f) (state f) (district f) (gender f) (imageFile f)
         (districts f) (loadingDistricts f) v.

(** What the modal shows with [alert]. *)
Inductive Alerted : Type :=
| Alert (msg : string).

(** [handleSubmit], with [onSave] the page's [handleUpdate]. *)
Definition handleSubmit (backend : Backend) (criminal : CriminalResponse) (f : Form)
           (p : CriminalsPage.State) : Form * CriminalsPage.Run * list Alerted :=
  match CriminalsPage.handleUpdate backend (updateData criminal f) p with
  | (run, None) => (setSaving false f, run, [])
  | (run, Some _) =>
      (setSaving false f, run, [Alert "Failed to update criminal. Please try again."])
  end.

(** The effect that depends on [state]: the districts are loaded, and the
    chosen district is reset if the new list lacks it. *)
Definition stateEffect (backend : Backend) (f : Form) : Form * list Request :=
  if truthy (state f) then
    let o := Options.getDistrictsByState (state f) backend in
    match result o with
    | inr dists =>
        let district' :=
          if truthy (district f) && negb (includes dists (district f)) then ""
          else district f in
        (mkForm (name f) (crimeType f) (state f) district' (gender f) (imageFile f)
                dists false (saving f), sent o)
    | inl _ =>
        (mkForm (name f) (crimeType f) (state f) (district f) (gender f) (imageFile f)
                [] false (saving f), sent o)
    end
  else
    (mkForm (name f) (crimeType f) (state f) "" (gender f) (imageFile f)
            [] (loadingDistricts f) (saving f), []).

(** [handleImageChange] on a chosen file: the form and the alert, if any. *)
Definition handleImageChange (file : File) (f : Form) : Form * list Alerted :=
  if gt (file_size file) (10 * 1024 * 1024)%float then
    (f, [Alert "Image size must be less than 10MB"])
  else
    (mkForm (name f) (crimeType f) (state f) (district f) (gender f) (Some file)
            (districts f) (loadingDistricts f) (saving f), []).

End EditCriminalModal.

(** ** Vocabulary of the statements about the edit form *)
Module EditVocabulary.
Import Js Client Api EditCriminalModal.

(** The form entries of the update that [updateData] leads to. *)
Definition entries_of (u : CriminalUpdate) : list (string * field) :=
  optional_entry "name" (option_map FStr (up_name u))
  ++ defined_entry "crime_type" (up_crime_type u)
  ++ defined_entry "state" (up_state u)
  ++ defined_entry "district" (up_district u)
  ++ defined_entry "gender" (up_gender u)
  ++ optional_entry "image" (option_map FFile (up_image u)).

(** The field of the form behind a key of the update. *)
Definition field_of (f : Form) (k : string) : option string :=
  if String.eqb k "name" then Some (name f)
  else if String.eqb k "crime_type" then Some (crimeType f)
  else if String.eqb k "state" then Some (state f)
  else if String.eqb k "district" then Some (district f)
  else if String.eqb k "gender" then Some (gender f)
  else None.

End EditVocabulary.

(** ** Sample values used by witnesses *)
Module Samples.
Import Js Criminal.

Definition criminal : CriminalResponse :=
  mkCriminalResponse "P-7" "Ravi" (Some "Theft") (Some "male") (Some "Kerala") (Some "Kochi")
                     (Some "20-30") (Some ["https://bucket/ravi.jpg"]) None
                     "2025-01-02T10:00:00Z" None.

Definition criminalsPage : CriminalsPage.State :=
  CriminalsPage.mkState [] false "" 2%float true "" "" "" "" (Some criminal).

Definition editForm : EditCriminalModal.Form :=
  EditCriminalModal.mkForm "Ravi K" "" "Kerala" "Kochi" "male" None ["Kochi"] false true.

End Samples.

(** ** [components/CriminalCard.tsx], [components/CriminalRow.tsx] and
       [components/MatchResultCard.tsx]: loading the image *)
Module Cards.
Import Js Client Api Criminal Types.

(** [imageUrl] is [string | null]; it holds what the accessor returned. *)
Record ImageState : Type := mkImageState {
  imageUrl : json;
  imageError : bool;
  imageLoading : bool
}.

Inductive Logged : Type :=
| Warned (msg : string) (error : exn).

Record Run : Type := mkRun {
  after : ImageState;
  requests : list Request;
  logged : list Logged
}.

(** [list?.[0]]. *)
Definition first (l : option (list string)) : option string :=
  match l with
  | Some (x :: _) => Some x
  | _ => None
  end.

(** The second half of [loadImage], from [if (imagePath)] on; [made] and
    [said] are the requests and warnings so far. *)
Definition fromImagePath (backend : Backend) (imagePath : option string)
           (made : list Request) (said : list Logged) : Run :=
  match imagePath with
  | Some path =>
      if truthy path then
        let o := getPresignedUrlFromImageUrl path backend in
        match result o with
        | inr presignedUrl => mkRun (mkImageState presignedUrl false false) (made ++ sent o) said
        | inl error =>
            mkRun (mkImageState (JStr path) false false) (made ++ sent o)
                  (said ++ [Warned "Failed to get presigned URL from image URL, using original:"
                                   error])
        end
      else mkRun (mkImageState JNull false false) made said
  | None => mkRun (mkImageState JNull false false) made said
  end.

(** [loadImage] of [CriminalCard] and of [CriminalRow] (the two are the
    same text). *)
Definition loadImage (backend : Backend) (criminal : CriminalResponse) : Run :=
  let s3Path := first (s3_paths criminal) in
  let imagePath := first (images criminal) in
  match s3Path with
  | Some key =>
      if truthy key then
        let o := getPresignedUrlFromS3Key key backend in
        match result o with
        | inr presignedUrl => mkRun (mkImageState presignedUrl false false) (sent o) []
        | inl error =>
            fromImagePath backend imagePath (sent o)
                          [Warned "Failed to get presigned URL from S3 key:" error]
        end
      else fromImagePath backend imagePath [] []
  | None => fromImagePath backend imagePath [] []
  end.

(** [MatchResultCard]: the initial [imageUrl] is [match.image_url || null]. *)
Definition initialImage (m : MatchResult) : ImageState :=
  mkImageState
    (match image_url m with
     | Some u => if truthy u then JStr u else JNull
     | None => JNull
     end)
    false false.

(** [loadImage] of [MatchResultCard], from a render with state [st]. *)
Definition loadMatchImage (backend : Backend) (m : MatchResult) (st : ImageState) : Run :=
  match image_url m with
  | Some u =>
      if negb (truthy u) || truthy_value (imageUrl st) then mkRun st [] []
      else
        let o := getPresignedUrlFromImageUrl u backend in
        match result o with
        | inr presignedUrl => mkRun (mkImageState presignedUrl false false) (sent o) []
        | inl error =>
            mkRun (mkImageState (JStr u) false false) (sent o)
                  [Warned "Failed to get presigned URL, using original:" error]
        end
  | None => mkRun st [] []
  end.

(** The backend fails every request. *)
Definition unreachable (b : Backend) : Prop :=
  forall r, exists err, transport b r = inl err.

End Cards.

(** ** The health probe, [testBackendConnection] *)
Module Health.
Import Js Client.

(** [details]: the response body on success, the diagnostic object on
    failure. *)
Inductive Details : Type :=
| Body (data : json)
| Diagnostic (url : string) (error : json) (note : string).

Record Report : Type := mkReport {
  success : bool;
  message : string;
  details : Details
}.

(** [error.response?.data] on a caught value: [response] is the raw body an
    [ApiError] carries, if any. *)
Definition response_data (error : exn) : json :=
  match error with
  | IsApiError e =>
      match response e with
      | Some d => get_data d
      | None => JNull
      end
  | OtherError _ _ => JNull
  end.

(** The request is made with [{ timeout: 5000 }]; time is not part of the
    model. *)
Definition testBackendConnection (b : Backend) : Report * list Request :=
  let o := send (mkRequest GET "/health" [] NoBody) b in
  (match result o with
   | inr response => mkReport true "Backend is reachable" (Body (data response))
   | inl error =>
       let msg := UploadPage.error_message_of error in
       mkReport false
         (or_else msg "Health check failed (alerts may still work)")
         (Diagnostic (API_BASE_URL b)
                     (or_value (response_data error) (JStr msg))
                     "This is a diagnostic check. Alerts functionality may still work.")
   end,
   sent o).

End Health.

(** ** The alerts page *)
Module AlertsPage.
Import Js Client Types JsMore.

Record State : Type := mkState {
  alerts : list AlertResponse;
  loading : bool;
  statusFilter : option string;
  selectedAlert : option AlertResponse;
  connectionError : option string
}.

Record Run : Type := mkRun {
  after : State;
  requests : list Request
}.

Section Handlers.
(** The awaited values read at their declared types
    ([Promise<AlertResponse[]>], [Promise<AlertResponse>]). *)
Variable as_alerts : json -> list AlertResponse.
Variable as_alert : json -> AlertResponse.
Variable backend : Backend.

(** [fetchAlerts] of the render with state [closure], called when the
    page is in state [s].  The function reads [statusFilter] and [alerts]
    of its own render; in the [catch] clause
    [if (alerts.length === 0) setAlerts([])] empties the list on screen
    when the render it comes from had none. *)
Definition fetchAlerts (closure : State) (s : State) : Run :=
  let o := Api.getAlerts
             (Some (Api.mkAlertsQueryParams (statusFilter closure) (Some 100%float)
                                            (Some 0%float))) backend in
  match result o with
  | inr data =>
      mkRun (mkState (if truthy_value data then as_alerts data else []) false
                     (statusFilter s) (selectedAlert s) None)
            (sent o)
  | inl error =>
      let msg := UploadPage.error_message_of error in
      mkRun (mkState (match alerts closure with [] => [] | _ :: _ => alerts s end) false
                     (statusFilter s) (selectedAlert s)
                     (if contains msg "Network error" || contains msg "Unable to reach"
                      then Some msg else None))
            (sent o)
  end.

(** The Refresh button: [onClick={fetchAlerts}] of the render on screen. *)
Definition refresh (s : State) : Run := fetchAlerts s s.

(** An event of the realtime subscription.  The effect that subscribes
    runs on mount and when [statusFilter] changes, and its callback keeps
    the [fetchAlerts] of that render, [subscribed]. *)
Definition realtime (subscribed : State) (s : State) : Run := fetchAlerts subscribed s.

(** [handleViewAlert]: [setSelectedAlert(fullAlert)], a falsy [fullAlert]
    selecting nothing. *)
Definition handleViewAlert (alert : AlertResponse) (s : State) : Run :=
  let o := Api.getAlert (alert_id alert) backend in
  let chosen :=
    match result o with
    | inr fullAlert => if truthy_value fullAlert then Some (as_alert fullAlert) else None
    | inl _ => Some alert
    end in
  mkRun (mkState (alerts s) (loading s) (statusFilter s) chosen (connectionError s))
        (sent o).

(** [<AlertsTable alerts={alerts} onStatusUpdate={fetchAlerts}
    onView={handleViewAlert} />], shown when the page is not loading. *)
Definition table (s : State) : AlertsTable.Props := AlertsTable.mkProps (alerts s) true.

(** [connectionError && alerts.length === 0 && loading === false]: the red
    "Backend Connection Error" card. *)
Definition bannerShown (s : State) : bool :=
  match connectionError s with
  | Some msg => truthy msg && Nat.eqb (length (alerts s)) 0 && negb (loading s)
  | None => false
  end.

(** A click on Verify or Reject in the table, as the page wires it:
    [onStatusUpdate={fetchAlerts}] of the render on screen, no [onError]. *)
Definition statusClick (alertId status : string) (t : AlertsTable.State) (s : State)
  : AlertsTable.State * Run :=
  let click := AlertsTable.handleStatusUpdate backend alertId status t in
  match AlertsTable.called click with
  | AlertsTable.OnStatusUpdate :: _ =>
      let again := refresh s in
      (AlertsTable.after click,
       mkRun (after again) (AlertsTable.requests click ++ requests again))
  | _ => (AlertsTable.after click, mkRun s (AlertsTable.requests click))
  end.

End Handlers.

End AlertsPage.

(** ** An alert, two states of the alerts page and three backends *)
Module AlertSamples.
Import Js Client Types.

Definition pendingAlert : AlertResponse :=
  mkAlertResponse "a1" "https://bucket/query.jpg" None None "Pending"
                  "2025-01-02T10:00:00Z" None.

(** The page as it mounts, and with one alert loaded. *)
Definition mounted : AlertsPage.State := AlertsPage.mkState [] true None None None.
Definition loaded : AlertsPage.State :=
  AlertsPage.mkState [pendingAlert] false None None None.

Definition text_of (v : json) : string :=
  match v with JStr s => s | _ => "" end.

(** The alerts of a payload, read off its [alert_id] and [status]. *)
Definition read_alerts (v : json) : list AlertResponse :=
  match v with
  | JArr items =>
      map (fun item =>
             mkAlertResponse (text_of (prop "alert_id" item)) "https://bucket/query.jpg"
                             None None (text_of (prop "status" item))
                             "2025-01-02T10:00:00Z" None)
          items
  | _ => []
  end.

Definition verified : json := JObj [("alert_id", JStr "a1"); ("status", JStr "Verified")].

(** A backend that cannot be reached. *)
Definition down : Backend :=
  mkBackend "http://localhost:8000" (fun _ => inl (mkAxiosError None true "Network Error")).

(** A backend that records a change of status and then lists the alert
    with its new status. *)
Definition recording : Backend :=
  mkBackend "http://localhost:8000"
            (fun r =>
               match method r with
               | PUT => inr (mkAxiosResponse 200 verified)
               | _ => inr (mkAxiosResponse 200 (JArr [verified]))
               end).

(** A backend that records a change of status and cannot be reached for
    the list. *)
Definition recordingOnly : Backend :=
  mkBackend "http://localhost:8000"
            (fun r =>
               match method r with
               | PUT => inr (mkAxiosResponse 200 verified)
               | _ => inl (mkAxiosError None true "Network Error")
               end).

End AlertSamples.

(** ** [app/match/page.tsx]: the face matching page *)
Module MatchPage.
Import Js Client Types.

(** A toast's text; the "Found n match(es)" text is kept as its number,
    and the text of a [TypeError] raised by the page's own code is the
    engine's. *)
Inductive Description : Type :=
| Plain (s : string)
| FoundMatches (n : nat)
| EngineText.

Record Toast : Type := mkToast {
  title : string;
  description : Description;
  variant : string
}.

Record State : Type := mkState {
  file : option File;
  similarityThreshold : number;
  createAlert : bool;
  loading : bool;
  result : option MatchResponse;
  toasts : list Toast
}.

Definition initial : State := mkState None 80.0%float true false None [].

Definition setSimilarityThreshold (v : number) (s : State) : State :=
  mkState (file s) v (createAlert s) (loading s) (result s) (toasts s).

Definition setLoading (v : bool) (s : State) : State :=
  mkState (file s) (similarityThreshold s) (createAlert s) v (result s) (toasts s).

Definition setResult (v : option MatchResponse) (s : State) : State :=
  mkState (file s) (similarityThreshold s) (createAlert s) (loading s) v (toasts s).

(** [addToast]: the toast is appended (its random id and its removal after
    five seconds are left out). *)
Definition addToast (t : Toast) (s : State) : State :=
  mkState (file s) (similarityThreshold s) (createAlert s) (loading s) (result s)
          (toasts s ++ [t]).

(** Truthiness of a number: [0], [-0] and [NaN] are falsy. *)
Definition truthy_number (x : number) : bool :=
  negb (PrimFloat.eqb x 0 || PrimFloat.is_nan x).

(** The threshold input's [onChange], on what [parseFloat] made of the
    text: [setSimilarityThreshold(parseFloat(e.target.value) || 80.0)]. *)
Definition onThresholdChange (parsed : number) (s : State) : State :=
  setSimilarityThreshold (if truthy_number parsed then parsed else 80.0%float) s.

Record Run : Type := mkRun {
  after : State;
  requests : list Request
}.

Section Handlers.
Variable as_MatchResponse : json -> MatchResponse.
Variable backend : Backend.

Definition handleMatch (s : State) : Run :=
  match file s with
  | None =>
      mkRun (addToast (mkToast "Error" (Plain "Please select an image to match") "error") s)
            []
  | Some f =>
      let s1 := setResult None (setLoading true s) in
      let o := Api.matchFace (Some f) (Some 5%float) (Some (similarityThreshold s))
                             (Some (createAlert s)) None backend in
      let s2 :=
        match Client.result o with
        | inr payload =>
            let matchResult := as_MatchResponse payload in
            let s2 := setResult (Some matchResult) s1 in
            match matches matchResult with
            | Some found =>
                if (0 <? length found)%nat then
                  addToast (mkToast "Match Found" (FoundMatches (length found)) "success") s2
                else
                  addToast (mkToast "No Matches"
                              (Plain "No matching faces found in the database") "warning") s2
            | None =>
                (* [matchResult.matches.length] throws; the [catch] clause shows its text *)
                addToast (mkToast "Error" EngineText "error") s2
            end
        | inl error =>
            addToast (mkToast "Error"
                        (Plain (or_else (UploadPage.error_message_of error)
                                        "Failed to match face")) "error") s1
        end in
      mkRun (setLoading false s2) (sent o)
  end.

End Handlers.

End MatchPage.

(** ** [app/bulk-upload/page.tsx]: bulk enrollment *)
Module BulkUploadPage.
Import Js Client Types JsMore.

Inductive Description : Type :=
| Plain (s : string)
| BulkComplete (total_criminals total_images_indexed : number).

Record Toast : Type := mkToast {
  title : string;
  description : Description;
  variant : string
}.

(** The progress bar is driven by timers and is left out. *)
Record State : Type := mkState {
  excelFile : option File;
  imagesFolderPath : string;
  loading : bool;
  toasts : list Toast
}.

Definition setExcelFile (v : option File) (s : State) : State :=
  mkState v (imagesFolderPath s) (loading s) (toasts s).

Definition setImagesFolderPath (v : string) (s : State) : State :=
  mkState (excelFile s) v (loading s) (toasts s).

Definition setLoading (v : bool) (s : State) : State :=
  mkState (excelFile s) (imagesFolderPath s) v (toasts s).

(** [addToast] as a handler calls it: [setToasts([...toasts, toast])],
    where [toasts] is the array of the render the handler belongs to,
    [shown], not the state at the time of the call. *)
Definition addToast (shown : list Toast) (t : Toast) (s : State) : State :=
  mkState (excelFile s) (imagesFolderPath s) (loading s) (shown ++ [t]).

(** [handleExcelSelect], on [e.target.files?.[0]]. *)
Definition handleExcelSelect (file : option File) (s : State) : State :=
  match file with
  | Some f =>
      if endsWith (file_name f) ".xlsx" || endsWith (file_name f) ".csv" then
        setExcelFile (Some f) s
      else
        addToast (toasts s)
                 (mkToast "Error" (Plain "Please select an Excel (.xlsx) or CSV file") "error")
                 s
  | None => s
  end.

Record Run : Type := mkRun {
  after : State;
  requests : list Request
}.

Section Handlers.
Variable as_EnrollmentResponse : json -> EnrollmentResponse.
Variable backend : Backend.

Definition missing (s : State) : Run :=
  mkRun (addToast (toasts s)
           (mkToast "Error"
              (Plain "Please select Excel file and provide images folder path") "error") s)
        [].

Definition handleSubmit (s : State) : Run :=
  match excelFile s with
  | None => missing s
  | Some xls =>
      if negb (truthy (imagesFolderPath s)) then missing s
      else
        let shown := toasts s in
        let s1 := setLoading true s in
        let o := Api.enrollBulk (Some xls) (Some (imagesFolderPath s)) backend in
        let s2 :=
          match result o with
          | inr payload =>
              let r := as_EnrollmentResponse payload in
              if success r then
                setImagesFolderPath ""
                  (setExcelFile None
                     (addToast shown
                        (mkToast "Success"
                           (BulkComplete (total_criminals r) (total_images_indexed r))
                           "success") s1))
              else
                fold_left
                  (fun st error => addToast shown (mkToast "Error" (Plain error) "error") st)
                  (errors r)
                  (addToast shown
                     (mkToast "Error"
                        (Plain (or_else (enroll_message r) "Bulk enrollment failed"))
                        "error") s1)
          | inl error =>
              addToast shown
                (mkToast "Error"
                   (Plain (or_else (UploadPage.error_message_of error)
                                   "Failed to process bulk enrollment")) "error") s1
          end in
        mkRun (setLoading false s2) (sent o)
  end.

End Handlers.

(** Every byte of the name is an ASCII character; on such names the
    lower-casing and the indices of the model are those of the engine. *)
Definition ascii_only (s : string) : bool :=
  forallb (fun c => (nat_of_ascii c <? 128)%nat) (list_ascii_of_string s).

(** [fileExtension] as [enrollBulk] computes it. *)
Definition fileExtension (f : File) : string :=
  substring_from (lastIndexOf "."%char (file_name f)) (toLowerCase (file_name f)).

End BulkUploadPage.

(** ** The complaints page: Accept and Reject *)
Module ComplaintsActions.
Import Js ComplaintsPage.

Record State : Type := mkState {
  activeTab : string;
  complaints : list Complaint;
  loading : bool;
  updating : option string
}.

Definition setUpdating (v : option string) (s : State) : State :=
  mkState (activeTab s) (complaints s) (loading s) v.

Definition setComplaints (v : list Complaint) (s : State) : State :=
  mkState (activeTab s) v (loading s) (updating s).

(** What [await supabase.from('complaints').update({ status }).eq('id', id)]
    came to: no [error], an [error] with its message, or an exception. *)
Inductive Outcome : Type :=
| Updated
| Refused (message : string)
| Threw (message : string).

(** [{ ...c, status }]. *)
Definition withStatus (status' : string) (c : Complaint) : Complaint :=
  mkComplaint (id c) (created_at c) (complaint_type c) status' (user_id c)
              (description c) (location c) (updated_at c).

(** One run of a handler: the state it leaves, the texts it [alert]ed, and
    the tab its 300 ms timer will switch to, if it set one. *)
Record Run : Type := mkRun {
  after : State;
  alerted : list string;
  switchTo : option string
}.

(** [handleAccept] and [handleReject] are one text with three words
    changed: the status written, the verb of the alert, the tab. *)
Definition review (status' verb tab : string) (outcome : Outcome) (complaintId : string)
           (s : State) : Run :=
  let s := setUpdating (Some complaintId) s in
  match outcome with
  | Refused message =>
      mkRun (setUpdating None s) [("Failed to " ++ verb ++ " complaint: " ++ message)%string]
            None
  | Updated =>
      mkRun (setComplaints
               (map (fun c => if String.eqb (id c) complaintId then withStatus status' c
                              else c)
                    (complaints s)) s)
            [] (Some tab)
  | Threw message =>
      mkRun (setUpdating None s) [("Error: " ++ or_else message "Unknown error")%string] None
  end.

Definition handleAccept : Outcome -> string -> State -> Run := review "Open" "accept" "open".
Definition handleReject : Outcome -> string -> State -> Run :=
  review "Closed" "reject" "closed".

(** The timer's callback: [setActiveTab(tab); setUpdating(null)]. *)
Definition timeout (tab : string) (s : State) : State :=
  mkState tab (complaints s) (loading s) None.

(** The condition under which a card carries the Accept and Reject
    buttons. *)
Definition actionsShown (c : Complaint) : bool :=
  String.eqb (status c) "Pending" || String.eqb (status c) "pending"
  || String.eqb (status c) "submitted" || String.eqb (status c) "Submitted".

(** A status that none of the three tabs lists. *)
Definition unlisted (c : Complaint) : bool :=
  negb (includes ["Pending"; "pending"; "submitted"; "Submitted"; "Open"; "open";
                  "Closed"; "Resolved"; "closed"; "resolved"] (status c)).

End ComplaintsActions.

(** ** [app/dashboard/page.tsx] *)
Module Dashboard.

Record ProfileData : Type := mkProfileData {
  name : string;
  address : string
}.

Record AuthData : Type := mkAuthData {
  mobile_number : string;
  aadhaar_number : string
}.

Record VerificationStatus : Type := mkVerificationStatus {
  is_mobile_verified : bool;
  is_aadhaar_verified : bool
}.

(** [verification_status] is read with [?.]: a row may lack it. *)
Record User : Type := mkUser {
  chat_id : Z;
  profile_data : ProfileData;
  auth_data : AuthData;
  verification_status : option VerificationStatus;
  created_at : string
}.

Record Stats : Type := mkStats {
  totalVerified : nat;
  totalMobileUpdates : nat
}.

Record State : Type := mkState {
  users : list User;
  loading : bool;
  stats : Stats
}.

Definition initial : State := mkState [] true (mkStats 0 0).

(** [u.verification_status?.is_mobile_verified]. *)
Definition mobile (u : User) : bool :=
  match verification_status u with
  | Some v => is_mobile_verified v
  | None => false
  end.

Definition aadhaar (u : User) : bool :=
  match verification_status u with
  | Some v => is_aadhaar_verified v
  | None => false
  end.

Definition calculateStats (data : list User) : Stats :=
  let verified := length (filter (fun u => mobile u && aadhaar u) data) in
  let mobileVerified := length (filter mobile data) in
  mkStats verified mobileVerified.

(** [{ data, error }] of the query on [users]. *)
Record Answer : Type := mkAnswer {
  data : option (list User);
  error : option string
}.

Definition or_empty (l : option (list User)) : list User :=
  match l with Some l => l | None => [] end.

Definition fetchUsers (answer : Answer) (s : State) : State :=
  match error answer with
  | Some _ => mkState (users s) false (stats s)
  | None => mkState (or_empty (data answer)) false (calculateStats (or_empty (data answer)))
  end.

(** The two counters never exceed one another nor the list on screen. *)
Definition consistent (s : State) : Prop :=
  totalVerified (stats s) <= totalMobileUpdates (stats s)
  /\ totalMobileUpdates (stats s) <= length (users s).

End Dashboard.

(** ** [components/UploadCard.tsx]: the card's events *)
Module UploadCardEvents.
Import Js UploadCard.

Record State : Type := mkState {
  isDragging : bool;
  error : option ErrorText
}.

(** One event: the state it leaves and the calls of [onFileSelect]. *)
Record Run : Type := mkRun {
  after : State;
  selected : list (option File)
}.

Definition fromHandleFile (disabled : bool) (maxSizeMB : number) (file : File)
           (dragging : bool) : Run :=
  match handleFile disabled maxSizeMB file with
  | (err, Some f) => mkRun (mkState dragging err) [Some f]
  | (err, None) => mkRun (mkState dragging err) []
  end.

(** [handleDrop], on [e.dataTransfer.files[0]]. *)
Definition handleDrop (disabled : bool) (maxSizeMB : number) (file : option File)
           (s : State) : Run :=
  if disabled then mkRun (mkState false (error s)) []
  else
    match file with
    | Some f => fromHandleFile disabled maxSizeMB f false
    | None => mkRun (mkState false (Some (Text "No file detected in drop"))) []
    end.

Definition handleDragOver (disabled : bool) (s : State) : State :=
  if negb disabled then mkState true (error s) else s.

Definition handleDragLeave (s : State) : State := mkState false (error s).

(** [handleFileInput], on [e.target.files?.[0]]. *)
Definition handleFileInput (disabled : bool) (maxSizeMB : number) (file : option File)
           (s : State) : Run :=
  match file with
  | Some f => fromHandleFile disabled maxSizeMB f (isDragging s)
  | None => mkRun s []
  end.

Definition handleRemove (s : State) : Run :=
  mkRun (mkState (isDragging s) None) [None].

End UploadCardEvents.

(** ** The admin session ([AuthProvider]) and the client's token *)
Module Auth.
Import Js.

(** A value kept in [localStorage]: a text, or the text
    [JSON.stringify({ email, timestamp })], kept as its two parts. *)
Inductive Stored : Type :=
| Text (s : string)
| AdminAuth (email : string) (timestamp : number).

Definition truthy_stored (v : Stored) : bool :=
  match v with
  | Text s => truthy s
  | AdminAuth _ _ => true
  end.

(** [localStorage]: its entries. *)
Definition Storage : Type := list (string * Stored).

Fixpoint getItem (k : string) (storage : Storage) : option Stored :=
  match storage with
  | [] => None
  | (k', v) :: rest => if String.eqb k k' then Some v else getItem k rest
  end.

Definition removeItem (k : string) (storage : Storage) : Storage :=
  filter (fun entry => negb (String.eqb k (fst entry))) storage.

Definition setItem (k : string) (v : Stored) (storage : Storage) : Storage :=
  (k, v) :: removeItem k storage.

Record State : Type := mkState {
  isAuthenticated : bool;
  isLoading : bool
}.

Definition initial : State := mkState false true.

(** The effect run on mount. *)
Definition checkAuth (storage : Storage) : State :=
  mkState (match getItem "admin_auth" storage with
           | Some storedAuth => truthy_stored storedAuth
           | None => false
           end)
          false.

(** The effect on [isAuthenticated], [isLoading] and [pathname]: where
    [router.push] sends the visitor, if anywhere. *)
Definition redirect (s : State) (pathname : string) : option string :=
  if negb (isLoading s) then
    if negb (isAuthenticated s) && negb (String.eqb pathname "/login") then Some "/login"
    else if isAuthenticated s && String.eqb pathname "/login" then Some "/dashboard"
    else None
  else None.

(** [login(email)] at time [now]: the storage, the state and the route. *)
Definition login (email : string) (now : number) (storage : Storage) (s : State)
  : Storage * State * string :=
  (setItem "admin_auth" (AdminAuth email now) storage, mkState true (isLoading s),
   "/dashboard").

Definition logout (storage : Storage) (s : State) : Storage * State * string :=
  (removeItem "admin_auth" storage, mkState false (isLoading s), "/login").

(** The request interceptor of the client: the token it puts after
    [Bearer] in the [Authorization] header, if any. *)
Definition bearer (storage : Storage) : option Stored :=
  match getItem "auth_token" storage with
  | Some token => if truthy_stored token then Some token else None
  | None => None
  end.

(** What the response interceptor does to the storage on a 401. *)
Definition onUnauthorized (storage : Storage) : Storage := removeItem "auth_token" storage.

End Auth.

(* ===================================================================== *)
(** * Part II: properties                                                 *)
(* ===================================================================== *)

(** ** Analytics: summary counts *)
Section SummaryCounts.
Import AnalyticsPage.

Lemma isOpen_negb_isClosed (c : ComplaintRow) : isOpen c = negb (isClosed c).
Proof.
  unfold isOpen, isClosed.
  now rewrite !negb_orb.
Qed.

Lemma filter_partition_length {A} (p q : A -> bool) (l : list A) :
  (forall x, p x = negb (q x)) ->
  length (filter p l) + length (filter q l) = length l.
Proof.
  intros Hpq.
  induction l as [| x l IH]; simpl; [reflexivity |].
  rewrite Hpq.
  destruct (q x); simpl; lia.
Qed.

(** C10.  For every fetched list of complaints (absent lists read as
    empty), the summary's open and closed counts add up to the total: the
    closed count is the number of complaints whose status is one of
    'Resolved', 'Closed', 'closed', 'resolved', the open count is the
    number of all the others, and the open filter is the negation of the
    closed one, so each complaint, whatever its status string, is counted
    by exactly one of the two. *)
Theorem summary_open_plus_closed_is_total :
  forall now complaints rtis userCount,
    let stats := fst (fetchAnalytics now complaints rtis userCount) in
    openComplaints stats + closedComplaints stats = totalComplaints stats
    /\ totalComplaints stats = length (or_empty complaints)
    /\ (forall c, isOpen c = negb (isClosed c))
    /\ (forall c, isClosed c = true <->
                  status c = "Resolved" \/ status c = "Closed"
                  \/ status c = "closed" \/ status c = "resolved")
    /\ closedComplaints stats
       = length (filter (fun c => Js.includes ["Resolved"; "Closed"; "closed"; "resolved"]
                                              (status c))
                        (or_empty complaints))
    /\ openComplaints stats
       = length (filter (fun c => negb (Js.includes
                                          ["Resolved"; "Closed"; "closed"; "resolved"]
                                          (status c)))
                        (or_empty complaints)).
Proof.
  intros now complaints rtis userCount; cbv zeta.
  unfold fetchAnalytics, summary; simpl.
  split; [apply filter_partition_length, isOpen_negb_isClosed |].
  split; [reflexivity |].
  split; [apply isOpen_negb_isClosed |].
  split; [intros c; unfold isClosed; rewrite !orb_true_iff, !String.eqb_eq; tauto |].
  split; f_equal; apply filter_ext; intros c; [| rewrite isOpen_negb_isClosed];
    unfold isClosed, Js.includes; cbn [existsb];
    destruct (String.eqb (status c) "Resolved"), (String.eqb (status c) "Closed"),
             (String.eqb (status c) "closed"), (String.eqb (status c) "resolved");
    reflexivity.
Qed.

End SummaryCounts.

(** ** Complaint triage: the three buckets *)
Section TriageBuckets.
Import ComplaintsPage Shapes.

Lemma in_pending (complaints : list Complaint) (c : Complaint) :
  In c (getFilteredComplaints complaints "pending")
  <-> In c complaints /\ pendingSpelling (status c).
Proof.
  unfold getFilteredComplaints, pendingSpelling; simpl.
  rewrite filter_In, !orb_true_iff, !String.eqb_eq. tauto.
Qed.

Lemma in_open (complaints : list Complaint) (c : Complaint) :
  In c (getFilteredComplaints complaints "open")
  <-> In c complaints /\ openSpelling (status c).
Proof.
  unfold getFilteredComplaints, openSpelling; simpl.
  rewrite filter_In, !orb_true_iff, !String.eqb_eq. tauto.
Qed.

Lemma in_closed (complaints : list Complaint) (c : Complaint) :
  In c (getFilteredComplaints complaints "closed")
  <-> In c complaints /\ closedSpelling (status c).
Proof.
  unfold getFilteredComplaints, closedSpelling; simpl.
  rewrite filter_In, !orb_true_iff, !String.eqb_eq. tauto.
Qed.

Lemma spellings_exclusive (s : string) :
  ~ (pendingSpelling s /\ openSpelling s)
  /\ ~ (pendingSpelling s /\ closedSpelling s)
  /\ ~ (openSpelling s /\ closedSpelling s).
Proof.
  unfold pendingSpelling, openSpelling, closedSpelling.
  repeat split; intros [H1 H2];
    repeat (destruct H1 as [H1 | H1]); repeat (destruct H2 as [H2 | H2]);
    rewrite H1 in H2; discriminate H2.
Qed.

(** C4.  For a complaint of the fetched list, the three tab filters are
    pairwise disjoint; with one of the accepted spellings of a status it
    is in the matching tab and in no other; with any other status string
    it is in none of the three. *)
Theorem triage_buckets_partition :
  forall (complaints : list Complaint) (c : Complaint),
    In c complaints ->
    let inTab tab := In c (getFilteredComplaints complaints tab) in
    (pendingSpelling (status c) ->
       inTab "pending" /\ ~ inTab "open" /\ ~ inTab "closed")
    /\ (openSpelling (status c) ->
       ~ inTab "pending" /\ inTab "open" /\ ~ inTab "closed")
    /\ (closedSpelling (status c) ->
       ~ inTab "pending" /\ ~ inTab "open" /\ inTab "closed")
    /\ (~ pendingSpelling (status c) -> ~ openSpelling (status c) ->
        ~ closedSpelling (status c) ->
       ~ inTab "pending" /\ ~ inTab "open" /\ ~ inTab "closed")
    /\ ~ (inTab "pending" /\ inTab "open")
    /\ ~ (inTab "pending" /\ inTab "closed")
    /\ ~ (inTab "open" /\ inTab "closed").
Proof.
  intros complaints c Hin; cbv zeta.
  rewrite in_pending, in_open, in_closed.
  destruct (spellings_exclusive (status c)) as (Hpo & Hpc & Hoc).
  repeat split; tauto.
Qed.

Lemma triage_buckets_partition_witness :
  let c := mkComplaint "1" "2025-01-02" "Theft" "submitted" None None None None in
  In c (getFilteredComplaints sampleComplaints "pending")
  /\ ~ In c (getFilteredComplaints sampleComplaints "open")
  /\ ~ In c (getFilteredComplaints sampleComplaints "closed").
Proof.
  cbv zeta.
  refine (proj1 (triage_buckets_partition sampleComplaints _ _) _).
  - simpl; auto.
  - unfold pendingSpelling; simpl; auto.
Defined.

End TriageBuckets.

(** ** Alert triage: which rows offer a status change *)
Section AlertButtons.
Import Types AlertsTable.

Lemma statusButtons_pending (s : State) (alert : AlertResponse) :
  status alert = "Pending" ->
  statusButtons s alert =
    [mkButton "Verify" (HandleStatusUpdate (alert_id alert) "Verified") (is_updating s alert);
     mkButton "Reject" (HandleStatusUpdate (alert_id alert) "Rejected") (is_updating s alert)].
Proof.
  intros H; unfold statusButtons; now rewrite H.
Qed.

Lemma statusButtons_other (s : State) (alert : AlertResponse) :
  status alert <> "Pending" -> statusButtons s alert = [].
Proof.
  intros H; unfold statusButtons.
  destruct (String.eqb_spec (status alert) "Pending") as [E | _]; [contradiction | reflexivity].
Qed.

Lemma row_transitions (p : Props) (s : State) (alert : AlertResponse)
      (from to : string) :
  In (from, to)
     (flat_map (fun b => match onClick b with
                         | HandleStatusUpdate _ target => [(status alert, target)]
                         | HandleView _ => []
                         end)
               (rowButtons p s alert)) <->
  from = "Pending" /\ status alert = "Pending" /\ (to = "Verified" \/ to = "Rejected").
Proof.
  unfold rowButtons, viewButtons, statusButtons.
  destruct (String.eqb_spec (status alert) "Pending") as [E | NE];
    destruct (onView p); simpl; split; intros H;
    try (repeat (destruct H as [H | H]); try contradiction;
         inversion H; subst; auto; fail);
    try (destruct H as (-> & Hs & [-> | ->]); rewrite E; auto; fail);
    try (destruct H as (_ & Hs & _); contradiction).
Qed.

(** The Actions cell is the View button, when the page asked for one,
    followed by the status buttons. *)
Lemma rowButtons_split (p : Props) (s : State) (alert : AlertResponse) :
  filter changesStatus (rowButtons p s alert) = statusButtons s alert
  /\ filter (fun b => negb (changesStatus b)) (rowButtons p s alert) = viewButtons p s alert.
Proof.
  unfold rowButtons, viewButtons, statusButtons.
  destruct (onView p), (String.eqb (status alert) "Pending"); split; reflexivity.
Qed.

Lemma getStatusBadge_known (st : string) :
  getStatusBadge st <> None <-> In st ["Pending"; "Verified"; "Rejected"].
Proof.
  unfold getStatusBadge, STATUS_CONFIG; cbn [config_of].
  destruct (String.eqb_spec st "Pending") as [-> | H1]; [split; [simpl; auto | discriminate] |].
  destruct (String.eqb_spec st "Verified") as [-> | H2]; [split; [simpl; auto | discriminate] |].
  destruct (String.eqb_spec st "Rejected") as [-> | H3]; [split; [simpl; auto | discriminate] |].
  split; [intros H; now contradiction H |].
  simpl; intros [H | [H | [H | []]]]; congruence.
Qed.

(** The rows are built exactly when every status has a badge; they are
    then the alerts, in order, each with its own Actions cell. *)
Lemma rows_spec (p : Props) (s : State) (l : list AlertResponse) :
  (rows p s l <> None <->
   forall alert, In alert l -> In (status alert) ["Pending"; "Verified"; "Rejected"])
  /\ (forall rs, rows p s l = Some rs ->
        map row_alert rs = l
        /\ forall row, In row rs ->
             row_buttons row = rowButtons p s (row_alert row)
             /\ getStatusBadge (status (row_alert row)) = Some (row_badge row)).
Proof.
  induction l as [| alert l [IHk IHr]].
  - split; [split; [intros _ a [] | discriminate] |].
    intros rs H; inversion H; subst rs; split; [reflexivity | intros row []].
  - cbn [rows].
    destruct (getStatusBadge (status alert)) as [badge |] eqn:Hb.
    + assert (Hk : In (status alert) ["Pending"; "Verified"; "Rejected"])
        by (apply getStatusBadge_known; rewrite Hb; discriminate).
      destruct (rows p s l) as [rs |] eqn:Hr.
      * split.
        -- split; [| discriminate].
           intros _ a [<- | Ha]; [exact Hk |].
           apply (proj1 IHk); [discriminate | exact Ha].
        -- intros rs' H; inversion H; subst rs'; clear H.
           destruct (IHr rs eq_refl) as [Hmap Hrows].
           split; [cbn [map row_alert]; now rewrite Hmap |].
           intros row [<- | Hin]; [split; [reflexivity | exact Hb] | apply Hrows, Hin].
      * split; [| intros rs H; discriminate H].
        split; [intros H; now contradiction H |].
        intros Hall; exfalso.
        apply (proj2 IHk); [| reflexivity].
        intros a Ha; apply Hall; right; exact Ha.
    + split; [| intros rs H; discriminate H].
      split; [intros H; now contradiction H |].
      intros Hall; exfalso.
      apply (proj2 (getStatusBadge_known (status alert))); [| exact Hb].
      apply Hall; left; reflexivity.
Qed.

(** The transitions the rendered table offers. *)
Lemma offered_spec (p : Props) (s : State) (from to : string) :
  In (from, to) (offeredTransitions p s) <->
  render p s <> None
  /\ from = "Pending" /\ (to = "Verified" \/ to = "Rejected")
  /\ exists alert, In alert (alerts p) /\ status alert = "Pending".
Proof.
  unfold offeredTransitions, render.
  destruct (rows p s (alerts p)) as [rs |] eqn:Hr.
  - destruct (proj2 (rows_spec p s (alerts p)) rs Hr) as [Hmap Hrows].
    rewrite in_flat_map; split.
    + intros (row & Hin & Ht); unfold transitionsOf in Ht.
      rewrite (proj1 (Hrows row Hin)) in Ht.
      apply row_transitions in Ht as (-> & Hs & Hto).
      split; [discriminate |]. split; [reflexivity |]. split; [exact Hto |].
      exists (row_alert row); split; [rewrite <- Hmap; apply in_map, Hin | exact Hs].
    + intros (_ & -> & Hto & alert & Hin & Hs).
      rewrite <- Hmap in Hin; apply in_map_iff in Hin as (row & <- & Hin).
      exists row; split; [exact Hin |].
      unfold transitionsOf; rewrite (proj1 (Hrows row Hin)).
      apply row_transitions; auto.
  - split; [intros [] | intros (H & _); now contradiction H].
Qed.

(** The table shows no status button for an alert exactly when no alert
    of that id in the list is pending. *)
Lemma statusButtonsFor_nil (p : Props) (s : State) (id : string) (l : list AlertResponse) :
  forall rs, rows p s l = Some rs ->
    (statusButtonsFor id rs = [] <->
     forall a, In a l -> alert_id a = id -> status a <> "Pending").
Proof.
  induction l as [| alert l IH]; intros rs H; cbn [rows] in H.
  - injection H as <-; split; [intros _ a [] | reflexivity].
  - destruct (getStatusBadge (status alert)) as [badge |]; [| discriminate].
    destruct (rows p s l) as [rs' |] eqn:Hr; [| discriminate].
    injection H as <-; specialize (IH rs' eq_refl).
    unfold statusButtonsFor; cbn [flat_map row_alert row_buttons].
    fold (statusButtonsFor id rs').
    rewrite (proj1 (rowButtons_split p s alert)).
    split.
    + intros Happ; apply app_eq_nil in Happ as [Hhead Htail].
      intros a [<- | Ha] Hid.
      * rewrite Hid, String.eqb_refl in Hhead.
        unfold statusButtons in Hhead.
        destruct (String.eqb_spec (status alert) "Pending"); [discriminate | assumption].
      * apply (proj1 IH Htail a Ha Hid).
    + intros Hall.
      rewrite (proj2 IH) by (intros a Ha; apply Hall; right; exact Ha).
      rewrite app_nil_r.
      destruct (String.eqb_spec (alert_id alert) id) as [E |]; [| reflexivity].
      apply statusButtons_other, (Hall alert (or_introl eq_refl) E).
Qed.

End AlertButtons.

(** ** [matchFace]: the bounds on [maxResults] *)
Section MatchBounds.
Import Js Client Api.

(** The request [matchFace] sends once its arguments are accepted. *)
Lemma matchFace_sends (img : File) (n t : number) (createAlert : bool) (b : Backend) :
  lt n 1 || gt n 100 = false ->
  lt t 0 || gt t 100 = false ->
  sent (matchFace (Some img) (Some n) (Some t) (Some createAlert) None b) =
    [mkRequest POST "/api/v1/match" []
       (FormData [("image", FFile img); ("max_results", FNum n);
                  ("similarity_threshold", FNum t); ("create_alert", FBool createAlert)])].
Proof.
  intros Hn Ht; unfold matchFace; simpl.
  rewrite Hn, Ht.
  unfold try_catch, bind, send; simpl.
  destruct (transport b _) as [err | resp]; [simpl | reflexivity].
  destruct (onResponseError (API_BASE_URL b) err); reflexivity.
Qed.

(** C8.  [matchFace] on an image with [maxResults] 0 or 101 throws the
    client-side [ApiError] "maxResults must be between 1 and 100" with
    status 400 and sends nothing, whatever the other arguments; with
    [maxResults] 1 or 100 that check passes: the call never ends in that
    validation error, and with a threshold in range the request goes out
    carrying the value. *)
Theorem matchFace_maxResults_bounds :
  forall (img : File) (threshold : option number) (createAlert : option bool)
         (senderId : option string) (b : Backend),
    let rejected := mkOutcome (inl (new_ApiError "maxResults must be between 1 and 100" 400)) [] in
    matchFace (Some img) (Some 0%float) threshold createAlert senderId b = rejected
    /\ matchFace (Some img) (Some 101%float) threshold createAlert senderId b = rejected
    /\ matchFace (Some img) (Some 1%float) threshold createAlert senderId b <> rejected
    /\ matchFace (Some img) (Some 100%float) threshold createAlert senderId b <> rejected
    /\ (forall n, n = 1%float \/ n = 100%float ->
        sent (matchFace (Some img) (Some n) (Some 80.0%float) (Some false) None b) =
          [mkRequest POST "/api/v1/match" []
             (FormData [("image", FFile img); ("max_results", FNum n);
                        ("similarity_threshold", FNum 80.0%float);
                        ("create_alert", FBool false)])]).
Proof.
  intros img threshold createAlert senderId b; cbv zeta.
  assert (Hpass : forall n, lt n 1 || gt n 100 = false ->
            matchFace (Some img) (Some n) threshold createAlert senderId b <>
            mkOutcome (inl (new_ApiError "maxResults must be between 1 and 100" 400)) []).
  { intros n Hn; unfold matchFace; simpl; rewrite Hn.
    destruct (lt (nullish threshold 80.0%float) 0 || gt (nullish threshold 80.0%float) 100).
    - unfold throw; intros H; inversion H.
    - unfold try_catch, bind, send; simpl.
      destruct (transport b _) as [err | resp]; simpl;
        [destruct (onResponseError (API_BASE_URL b) err); simpl |];
        intros H; inversion H. }
  repeat split.
  - apply Hpass; reflexivity.
  - apply Hpass; reflexivity.
  - intros n [-> | ->]; apply matchFace_sends; reflexivity.
Qed.

End MatchBounds.

(** ** The enrollment page: the duplicate guard *)
Section DuplicateGuard.
Import Js Client Types UploadPage.

Variable as_MatchResponse : json -> MatchResponse.
Variable backend : Backend.

Lemma setCheckingMatch_modal (v : bool) (s : State) :
  modalShown (setCheckingMatch v s) = modalShown s.
Proof. reflexivity. Qed.

(** The modal after the statements that follow the [await]. *)
Lemma showIfDuplicate_modal (r : MatchResponse) (s : State) :
  existingMatch s = None ->
  (modalShown (showIfDuplicate r s) = true <->
   exists topMatch rest,
     matches r = Some (topMatch :: rest) /\ ge (confidence topMatch) 80.0 = true).
Proof.
  intros Hnone; unfold showIfDuplicate.
  destruct (matches r) as [[| topMatch rest] |].
  - unfold modalShown, modals; rewrite Hnone; split; [discriminate |].
    intros (t & l & H & _); discriminate H.
  - destruct (ge (confidence topMatch) 80.0) eqn:Hge.
    + split; [| reflexivity]. intros _; exists topMatch, rest; auto.
    + unfold modalShown, modals; rewrite Hnone; split; [discriminate |].
      intros (t & l & H & Ht); inversion H; subst; congruence.
  - unfold modalShown, modals; rewrite Hnone; split; [discriminate |].
    intros (t & l & H & _); discriminate H.
Qed.

(** The request of the probe. *)
Lemma probe_request (f : File) :
  sent (probe f backend) =
    [mkRequest POST "/api/v1/match" []
       (FormData [("image", FFile f); ("max_results", FNum 1%float);
                  ("similarity_threshold", FNum 80.0%float);
                  ("create_alert", FBool false)])].
Proof.
  unfold probe; apply matchFace_sends; reflexivity.
Qed.

(** C1.  When a file is selected, the "Person Already Exists" modal is shown
    after the probe if and only if the probe answered, its match list is
    non-empty and the top match's confidence is at least 80.0; the modal
    then shows that top match.  A top match at exactly 80.0 shows the modal,
    one at 79.9 does not. *)
Theorem duplicate_modal_iff_top_match_reaches_threshold :
  forall (f : File) (s : State),
    let run := onFileSelect as_MatchResponse backend (Some f) s in
    (modalShown (after run) = true <->
     exists payload topMatch rest,
       result (probe f backend) = inr payload
       /\ matches (as_MatchResponse payload) = Some (topMatch :: rest)
       /\ ge (confidence topMatch) 80.0 = true)
    /\ (forall payload topMatch rest,
          result (probe f backend) = inr payload ->
          matches (as_MatchResponse payload) = Some (topMatch :: rest) ->
          (ge (confidence topMatch) 80.0 = true ->
           existingMatch (after run) = Some topMatch)
          /\ (confidence topMatch = 80.0%float -> modalShown (after run) = true)
          /\ (confidence topMatch = 79.9%float -> modalShown (after run) = false)).
Proof.
  intros f s; cbv zeta.
  unfold onFileSelect, fileEffect; simpl file.
  unfold checkExistingPerson.
  set (s1 := setExistingMatch None (setCheckingMatch true (setFile (Some f) s))).
  assert (Hnone : existingMatch s1 = None) by reflexivity.
  split.
  - destruct (result (probe f backend)) as [error | payload]; simpl after.
    + rewrite setCheckingMatch_modal.
      unfold modalShown, modals; rewrite Hnone.
      split; [discriminate |].
      intros (p & t & l & H & _); discriminate H.
    + rewrite setCheckingMatch_modal, (showIfDuplicate_modal _ s1 Hnone).
      split.
      * intros (t & l & H1 & H2); exists payload, t, l; auto.
      * intros (p & t & l & Hp & H1 & H2); inversion Hp; subst p; eauto.
  - intros payload topMatch rest Hres Hm.
    rewrite Hres; simpl after.
    unfold showIfDuplicate; rewrite Hm.
    repeat split.
    + intros Hge; rewrite Hge; reflexivity.
    + intros Hc; rewrite Hc; reflexivity.
    + intros Hc; rewrite Hc; reflexivity.
Qed.

(** C2.  When a file is selected, the probe is the call
    [matchFace(file, 1, 80.0, false)]: the one request it makes carries
    [max_results] 1, [similarity_threshold] 80.0 and [create_alert] false.
    If the call throws, whatever the error, the error is only logged: the
    selected file is kept, no modal and no toast appear, the card is enabled
    again and the submit button is as it would be without the probe. *)
Theorem probe_arguments_and_fail_open :
  forall (f : File) (s : State),
    let run := onFileSelect as_MatchResponse backend (Some f) s in
    requests run =
      sent (Api.matchFace (Some f) (Some 1%float) (Some 80.0%float) (Some false) None backend)
    /\ requests run =
         [mkRequest POST "/api/v1/match" []
            (FormData [("image", FFile f); ("max_results", FNum 1%float);
                       ("similarity_threshold", FNum 80.0%float);
                       ("create_alert", FBool false)])]
    /\ (forall error,
          result (probe f backend) = inl error ->
          after run = setExistingMatch None (setCheckingMatch false (setFile (Some f) s))
          /\ file (after run) = Some f
          /\ modalShown (after run) = false
          /\ toasts (after run) = toasts s
          /\ checkingMatch (after run) = false
          /\ submitDisabled (after run) = submitDisabled (setFile (Some f) s)
          /\ console run = [Warn "Failed to check for existing person:" error]).
Proof.
  intros f s; cbv zeta.
  assert (Hreq : requests (onFileSelect as_MatchResponse backend (Some f) s)
                 = sent (probe f backend)).
  { unfold onFileSelect, fileEffect; simpl file; unfold checkExistingPerson.
    destruct (result (probe f backend)); reflexivity. }
  split; [exact Hreq |].
  split; [rewrite Hreq; apply probe_request |].
  intros error Herr.
  unfold onFileSelect, fileEffect; simpl file; unfold checkExistingPerson.
  rewrite Herr.
  repeat split.
Qed.

End DuplicateGuard.

(** A probe that fails on the network: the guard fails open. *)
Example probe_network_failure_keeps_file :
  let f := Js.mkFile "face.png" "image/png" 2048%float in
  let s := UploadPage.mkState None "A" "" "Theft" "" "S" "D" "20-30" false false [] None false in
  let run := UploadPage.onFileSelect (fun _ => Types.mkMatchResponse "" None 0%float None)
               (Shapes.failing (Client.mkAxiosError None true "Network Error")) (Some f) s in
  UploadPage.file (UploadPage.after run) = Some f
  /\ UploadPage.modalShown (UploadPage.after run) = false
  /\ UploadPage.submitDisabled (UploadPage.after run) = false
  /\ UploadPage.toasts (UploadPage.after run) = [].
Proof. repeat split. Qed.

(** ** The common tail of the accessors: one request inside [try]/[catch] *)
Section AccessorTail.
Import Js Client Shapes.
Local Open Scope api_scope.

Variable r : Request.
Variable k : AxiosResponse -> M json.
Variable msg : string.
Variable b : Backend.

Hypothesis k_silent : forall resp, sent (k resp b) = [].

Lemma rethrow_or_sent (e : exn) : sent (rethrow_or (A := json) msg e b) = [].
Proof. destruct e; reflexivity. Qed.

Lemma rethrow_or_result (e : exn) :
  result (rethrow_or (A := json) msg e b) = inl (rethrown msg e).
Proof. destruct e; reflexivity. Qed.

Lemma guarded_sent :
  sent (try_catch (response <- send r ;; k response) (rethrow_or msg) b) = [r].
Proof.
  unfold try_catch, bind, send.
  destruct (transport b r) as [err | resp]; simpl.
  - now rewrite rethrow_or_sent.
  - destruct (result (k resp b)) as [e | v] eqn:Hk; simpl.
    + rewrite k_silent, rethrow_or_sent; reflexivity.
    + rewrite k_silent; reflexivity.
Qed.

Lemma guarded_failure (err : AxiosError) :
  transport b r = inl err ->
  result (try_catch (response <- send r ;; k response) (rethrow_or msg) b)
  = inl (rethrown msg (onResponseError (API_BASE_URL b) err)).
Proof.
  intros H; unfold try_catch, bind, send; rewrite H; simpl.
  apply rethrow_or_result.
Qed.

Lemma guarded_success (resp : AxiosResponse) :
  transport b r = inr resp ->
  result (try_catch (response <- send r ;; k response) (rethrow_or msg) b)
  = match result (k resp b) with
    | inr v => inr v
    | inl e => inl (rethrown msg e)
    end.
Proof.
  intros H; unfold try_catch, bind, send; rewrite H; simpl.
  destruct (result (k resp b)) as [[e | n m] | v] eqn:Hk; simpl; reflexivity.
Qed.

End AccessorTail.

(** The three together. *)
Lemma guarded_tail (r : Client.Request) (k : Client.AxiosResponse -> Client.M Js.json)
      (msg : string) :
  (forall b resp, Client.sent (k resp b) = []) ->
  Shapes.guarded
    (Client.try_catch (Client.bind (Client.send r) k) (Client.rethrow_or msg)) r k msg.
Proof.
  intros Hk b.
  split; [apply guarded_sent, Hk |].
  split; [intros err H; apply guarded_failure, H | intros resp H; apply guarded_success, H].
Qed.

Section Unwrapping.
Import Js Client Shapes.
Local Open Scope api_scope.

Lemma unwrap_sent (resp : AxiosResponse) (b : Backend) : sent (unwrap resp b) = [].
Proof.
  unfold unwrap.
  destruct (truthy_value (data resp)); [| reflexivity].
  unfold bind, data_in.
  destruct (data resp) as [| ? | ? | ? | ? | fields]; try reflexivity.
  simpl; destruct (assoc "data" fields); reflexivity.
Qed.

Lemma data_sent (resp : AxiosResponse) (b : Backend) :
  sent ((fun response => ret (data response)) resp b) = [].
Proof. reflexivity. Qed.

(** What [unwrap] makes of a bare payload and of an envelope. *)
Lemma unwrap_bare (st : Z) (payload : json) (b : Backend) :
  is_bare payload = true ->
  result (unwrap (mkAxiosResponse st payload) b) = inr payload.
Proof.
  intros H; unfold unwrap; simpl data.
  destruct payload as [| v | n | s | items | fields]; simpl in *.
  - reflexivity.
  - apply negb_true_iff in H; rewrite H; reflexivity.
  - apply negb_true_iff in H; rewrite H; reflexivity.
  - apply negb_true_iff in H; rewrite H; reflexivity.
  - reflexivity.
  - unfold bind; simpl. destruct (assoc "data" fields); [discriminate | reflexivity].
Qed.

Lemma unwrap_envelope (st : Z) (payload d : json) (b : Backend) :
  envelope_of payload d ->
  result (unwrap (mkAxiosResponse st d) b) = inr payload.
Proof.
  intros (fields & -> & Hdata); unfold unwrap, bind; simpl.
  rewrite Hdata; reflexivity.
Qed.

(** A truthy body that is neither an object nor an array makes the ['data' in]
    test throw; the accessor's [catch] turns that into its own error. *)
Lemma unwrap_primitive (st : Z) (d : json) (b : Backend) :
  truthy_value d = true ->
  (forall items, d <> JArr items) -> (forall fields, d <> JObj fields) ->
  exists name m, result (unwrap (mkAxiosResponse st d) b) = inl (OtherError name m).
Proof.
  intros Ht Ha Ho; unfold unwrap; cbn [data]; rewrite Ht; unfold bind.
  destruct d; simpl; eauto.
  - exfalso; eapply Ha; reflexivity.
  - exfalso; eapply Ho; reflexivity.
Qed.

(** The two shapes an unwrapping accessor accepts, and what it returns. *)
Lemma unwrapping_tail (r : Request) (msg : string) (b : Backend) (d payload : json) :
  answers b d ->
  (d = payload /\ is_bare payload = true) \/ envelope_of payload d ->
  yields (try_catch (response <- send r ;; unwrap response) (rethrow_or msg)) b payload.
Proof.
  intros Hb Hshape; right.
  destruct (Hb r) as [st Hst].
  rewrite (guarded_success r unwrap msg b _ Hst).
  destruct Hshape as [[-> Hbare] | Henv].
  - now rewrite unwrap_bare.
  - now rewrite (unwrap_envelope st payload d).
Qed.

(** An accessor that returns [response.data] returns the body as it came. *)
Lemma passing_tail (r : Request) (msg : string) (b : Backend) (d : json) :
  answers b d ->
  yields (try_catch (response <- send r ;; ret (data response)) (rethrow_or msg)) b d.
Proof.
  intros Hb; right.
  destruct (Hb r) as [st Hst].
  now rewrite (guarded_success r (fun response => ret (data response)) msg b _ Hst).
Qed.

Lemma yields_throw (e : exn) (b : Backend) (payload : json) :
  yields (throw e) b payload.
Proof. left; reflexivity. Qed.

End Unwrapping.

(** ** Response shapes: which accessors unwrap an envelope *)
Section ResponseShapes.
Import Js Client Api Shapes.
Local Open Scope api_scope.

Ltac through_validation :=
  cbv zeta;
  repeat match goal with
         | |- yields (throw _) _ _ => apply yields_throw
         | |- yields (if ?c then _ else _) _ _ => destruct c
         | |- yields (match ?x with _ => _ end) _ _ => destruct x
         end.

Ltac unwrapping acc :=
  unfold acc; through_validation; eapply unwrapping_tail; eassumption.

Ltac passing acc :=
  unfold acc; through_validation; eapply passing_tail; eassumption.

(** C6, as the code has it.  Against a backend that answers with a body [d]:
    the accessors of the criminals and alerts modules return [payload] both
    when [d] is [payload] sent bare (an array, an object without a [data]
    property, or a falsy value) and when [d] is an envelope whose [data] is
    [payload]; the match, enroll and image accessors return [d] as it came. *)
Theorem criminals_and_alerts_unwrap_others_pass_through :
  forall (b : Backend) (d payload : json),
    answers b d ->
    (d = payload /\ is_bare payload = true) \/ envelope_of payload d ->
    (forall params, yields (getCriminals params) b payload)
    /\ (forall personId, yields (getCriminal personId) b payload)
    /\ (forall personId updateData, yields (updateCriminal personId updateData) b payload)
    /\ (forall params, yields (getAlerts params) b payload)
    /\ (forall alertId, yields (getAlert alertId) b payload)
    /\ (forall alertId status, yields (updateAlertStatus alertId status) b payload)
    /\ (forall image maxResults threshold createAlert senderId,
          yields (matchFace image maxResults threshold createAlert senderId) b d)
    /\ (forall request, yields (matchFaceFromUrl request) b d)
    /\ (forall image name personId crimeType gender state district ageRange augment,
          yields (uploadSingleImage image name personId crimeType gender state district
                                    ageRange augment) b d)
    /\ (forall images name personId crimeType augment,
          yields (uploadMultipleImages images name personId crimeType augment) b d)
    /\ (forall excelFile imagesFolderPath, yields (enrollBulk excelFile imagesFolderPath) b d)
    /\ (forall request, yields (getPresignedUrl request) b d).
Proof.
  intros b d payload Hb Hshape.
  repeat split; intros.
  - unwrapping getCriminals.
  - unwrapping getCriminal.
  - unwrapping updateCriminal.
  - unwrapping getAlerts.
  - unwrapping getAlert.
  - unwrapping updateAlertStatus.
  - passing matchFace.
  - passing matchFaceFromUrl.
  - passing uploadSingleImage.
  - passing uploadMultipleImages.
  - passing enrollBulk.
  - passing getPresignedUrl.
Qed.

Lemma answering_answers (d : json) : answers (answering d) d.
Proof. intros r; exists 200%Z; reflexivity. Qed.

Lemma criminals_and_alerts_unwrap_others_pass_through_witness :
  yields (getCriminals None)
         (answering (JObj [("data", JArr [JStr "row"]); ("count", JNum 1%float)]))
         (JArr [JStr "row"]).
Proof.
  refine (proj1 (criminals_and_alerts_unwrap_others_pass_through
                   (answering (JObj [("data", JArr [JStr "row"]); ("count", JNum 1%float)]))
                   (JObj [("data", JArr [JStr "row"]); ("count", JNum 1%float)])
                   (JArr [JStr "row"]) (answering_answers _) _) None).
  right. exists [("data", JArr [JStr "row"]); ("count", JNum 1%float)].
  split; reflexivity.
Defined.

(** C6 as stated fails for [matchFace] and [uploadSingleImage]: handed an
    envelope, each returns the envelope itself, not the payload inside it,
    where [getCriminals] returns the payload. *)
Lemma matchFace_and_uploadSingleImage_keep_the_envelope :
  let img := mkFile "face.png" "image/png" 2048%float in
  let payload := JObj [("success", JBool true); ("matches", JArr [])] in
  let envelope := JObj [("data", payload)] in
  result (matchFace (Some img) (Some 1%float) (Some 80.0%float) (Some false) None
                    (answering envelope)) = inr envelope
  /\ result (matchFace (Some img) (Some 1%float) (Some 80.0%float) (Some false) None
                       (answering payload)) = inr payload
  /\ result (uploadSingleImage (Some img) "A" None "Theft" None "S" "D" "20-30" false
                               (answering envelope)) = inr envelope
  /\ result (uploadSingleImage (Some img) "A" None "Theft" None "S" "D" "20-30" false
                               (answering payload)) = inr payload
  /\ result (getCriminals None (answering envelope)) = inr payload
  /\ envelope <> payload.
Proof.
  cbv zeta; repeat split; try reflexivity.
  intros H; inversion H.
Qed.

End ResponseShapes.

(** ** Trimming: what a trimmed, non-empty string keeps *)
Section Trimming.
Import Js.

Lemma trimStart_length (n : nat) :
  forall s, String.length s <= n -> String.length (trimStart s) <= String.length s.
Proof.
  induction n as [| n IH]; intros s Hn.
  - destruct s; [reflexivity | simpl in Hn; lia].
  - destruct s as [| c1 s1]; [reflexivity |].
    simpl in Hn; cbn [trimStart].
    destruct (is_space c1).
    + specialize (IH s1 ltac:(lia)); simpl; lia.
    + destruct s1 as [| c2 s2]; [reflexivity |].
      simpl in Hn.
      destruct (is_space2 c1 c2).
      * specialize (IH s2 ltac:(lia)); simpl; lia.
      * destruct s2 as [| c3 s3]; [reflexivity |].
        simpl in Hn.
        destruct (is_space3 c1 c2 c3); [| reflexivity].
        specialize (IH s3 ltac:(lia)); simpl; lia.
Qed.

Lemma trimStart_shorter (s : string) : String.length (trimStart s) <= String.length s.
Proof. apply (trimStart_length (String.length s)); reflexivity. Qed.

Lemma trimStart_idempotent_upto (n : nat) :
  forall s, String.length s <= n -> trimStart (trimStart s) = trimStart s.
Proof.
  induction n as [| n IH]; intros s Hn.
  - destruct s; [reflexivity | simpl in Hn; lia].
  - destruct s as [| c1 s1]; [reflexivity |].
    simpl in Hn; cbn [trimStart].
    destruct (is_space c1) eqn:E1; [apply IH; lia |].
    destruct s1 as [| c2 s2]; [cbn [trimStart]; now rewrite E1 |].
    simpl in Hn.
    destruct (is_space2 c1 c2) eqn:E2; [apply IH; lia |].
    destruct s2 as [| c3 s3]; [cbn [trimStart]; now rewrite E1, E2 |].
    simpl in Hn.
    destruct (is_space3 c1 c2 c3) eqn:E3; [apply IH; lia |].
    cbn [trimStart]; now rewrite E1, E2, E3.
Qed.

Lemma trimStart_idempotent (s : string) : trimStart (trimStart s) = trimStart s.
Proof. apply (trimStart_idempotent_upto (String.length s)); reflexivity. Qed.

Lemma trimEnd_truthy (s : string) : truthy (trimEnd s) = truthy (trimStart s).
Proof.
  destruct s as [| c s]; [reflexivity |].
  cbn [trimEnd]; destruct (trimStart (String c s)); reflexivity.
Qed.

Lemma trimEnd_cons (s : string) (c : ascii) (t : string) :
  trimEnd s = String c t -> exists s', s = String c s' /\ t = trimEnd s'.
Proof.
  destruct s as [| c' s']; [discriminate |].
  cbn [trimEnd]; destruct (trimStart (String c' s')); [discriminate |].
  intros H; inversion H; eauto.
Qed.

(** A string that [trimStart] leaves alone starts with no white space. *)
Lemma clean_start (c1 : ascii) (u1 : string) :
  trimStart (String c1 u1) = String c1 u1 ->
  is_space c1 = false
  /\ forall c2 u2, u1 = String c2 u2 ->
       is_space2 c1 c2 = false
       /\ forall c3 u3, u2 = String c3 u3 -> is_space3 c1 c2 c3 = false.
Proof.
  cbn [trimStart].
  destruct (is_space c1) eqn:E1.
  - intros H; apply (f_equal String.length) in H.
    pose proof (trimStart_shorter u1); simpl in H; lia.
  - intros H; split; [reflexivity |].
    intros c2 u2 ->.
    destruct (is_space2 c1 c2) eqn:E2.
    + apply (f_equal String.length) in H.
      pose proof (trimStart_shorter u2); simpl in H; lia.
    + split; [reflexivity |].
      intros c3 u3 ->.
      destruct (is_space3 c1 c2 c3) eqn:E3; [| reflexivity].
      apply (f_equal String.length) in H.
      pose proof (trimStart_shorter u3); simpl in H; lia.
Qed.

Lemma trimStart_trimEnd (u : string) :
  trimStart u = u -> trimStart (trimEnd u) = trimEnd u.
Proof.
  destruct u as [| c1 u1]; [reflexivity |].
  intros H; destruct (clean_start c1 u1 H) as [E1 H2].
  cbn [trimEnd]; rewrite H.
  cbn [trimStart]; rewrite E1.
  destruct (trimEnd u1) as [| c2 t2] eqn:Et; [reflexivity |].
  destruct (trimEnd_cons _ _ _ Et) as (u2 & -> & ->).
  destruct (H2 c2 u2 eq_refl) as [E2 H3]; rewrite E2.
  destruct (trimEnd u2) as [| c3 t3] eqn:Et2; [reflexivity |].
  destruct (trimEnd_cons _ _ _ Et2) as (u3 & -> & ->).
  now rewrite (H3 c3 u3 eq_refl).
Qed.

(** What [trim] leaves, when it leaves anything, is not blank. *)
Lemma trim_trim_truthy (s : string) :
  truthy (trim s) = true -> truthy (trim (trim s)) = true.
Proof.
  unfold trim; intros H.
  rewrite trimEnd_truthy, trimStart_idempotent.
  rewrite (trimStart_trimEnd (trimStart s) (trimStart_idempotent s)).
  exact H.
Qed.

Lemma not_blank (s : string) :
  blank s = false -> truthy s = true /\ truthy (trim s) = true.
Proof.
  unfold blank; destruct (truthy s), (truthy (trim s)); simpl; auto; discriminate.
Qed.

End Trimming.

(** ** Failures: validation on the client, failures of the request *)
Section Failures.
Import Js Client Api JsMore Options Shapes.
Local Open Scope api_scope.

Lemma silent_unwrap (b : Backend) : forall resp, sent (unwrap resp b) = [].
Proof. intros resp; apply unwrap_sent. Qed.

Lemma silent_data (b : Backend) :
  forall resp, sent ((fun response : AxiosResponse => ret (data response)) resp b) = [].
Proof. reflexivity. Qed.

Lemma unwrapping (r : Request) (msg : string) :
  guarded (try_catch (response <- send r ;; unwrap response) (rethrow_or msg)) r unwrap msg.
Proof. apply guarded_tail; intros b resp; apply unwrap_sent. Qed.

Lemma passing (r : Request) (msg : string) :
  guarded (try_catch (response <- send r ;; ret (data response)) (rethrow_or msg)) r
          (fun response => ret (data response)) msg.
Proof. apply (guarded_tail r (fun response => ret (data response))); reflexivity. Qed.

Lemma or_value_truthy (a b : json) : truthy_value a = true -> or_value a b = a.
Proof. unfold or_value; now intros ->. Qed.

Lemma or_value_falsy (a b : json) : truthy_value a = false -> or_value a b = b.
Proof. unfold or_value; now intros ->. Qed.




(** *** The accessors of [criminals.ts] *)









(** *** The accessors of [alerts.ts] *)




(** *** The accessors of [enroll.ts] *)




(** *** The accessors of [match.ts] *)



(** *** The accessors of [images.ts] *)

Lemma getPresignedUrl_checks (request : ImageUrlRequest) :
  let key := truthy_opt (iu_s3_key request) in
  let link := truthy_opt (iu_image_url request) in
  let trimmedKey := trim (nullish (iu_s3_key request) "") in
  let trimmedUrl := trim (nullish (iu_image_url request) "") in
  checked (getPresignedUrl request)
          [(negb key && negb link, "Either s3_key or image_url must be provided");
           (key && negb (truthy trimmedKey), "s3_key cannot be empty");
           (link && negb (truthy trimmedUrl), "image_url cannot be empty");
           (link && negb (startsWith trimmedUrl "http://")
            && negb (startsWith trimmedUrl "https://"),
            "image_url must be a valid HTTP/HTTPS URL")]
          (guarded (getPresignedUrl request)
                   (mkRequest POST "/api/v1/images/presigned-url" []
                      (JsonBody
                         (optional_entry "s3_key"
                            (option_map (fun s => FStr (trim s)) (iu_s3_key request))
                          ++ optional_entry "image_url"
                               (option_map (fun s => FStr (trim s)) (iu_image_url request)))))
                   (fun response => ret (data response)) "Failed to generate presigned URL").
Proof.
  cbv zeta; cbn [checked]; unfold getPresignedUrl; cbv zeta.
  destruct (negb (truthy_opt (iu_s3_key request)) && negb (truthy_opt (iu_image_url request)));
    [intros b; reflexivity |].
  destruct (truthy_opt (iu_s3_key request) && negb (truthy _)); [intros b; reflexivity |].
  destruct (truthy_opt (iu_image_url request) && negb (truthy _)); [intros b; reflexivity |].
  destruct (truthy_opt (iu_image_url request) && negb (startsWith _ "http://")
            && negb (startsWith _ "https://")); [intros b; reflexivity |].
  apply passing.
Qed.

Lemma presigned_url_of_sent (v : json) (b : Backend) : sent (presigned_url_of v b) = [].
Proof. destruct v; reflexivity. Qed.

(** A call followed by the read of [presigned_url], outside any [catch]. *)
Lemma then_presigned_url (call : M json) (r : Request) (own : string) :
  guarded call r (fun response => ret (data response)) own ->
  unguarded (response <- call ;; presigned_url_of response) r
            (fun response => presigned_url_of (data response)) own.
Proof.
  intros Hcall b; destruct (Hcall b) as (Hsent & Hfail & Hok).
  unfold bind.
  destruct (result (call b)) as [e | v] eqn:Hres; cbn [result sent].
  - split; [exact Hsent |].
    split; [intros err Herr; exact (Hfail err Herr) |].
    intros resp Hresp; discriminate (Hok resp Hresp).
  - split; [rewrite Hsent, presigned_url_of_sent; reflexivity |].
    split; [intros err Herr; discriminate (Hfail err Herr) |].
    intros resp Hresp; pose proof (Hok resp Hresp) as Hv.
    cbn in Hv; injection Hv as ->; reflexivity.
Qed.

Lemma getPresignedUrlFromS3Key_checks (s3Key : string) :
  checked (getPresignedUrlFromS3Key s3Key)
          [(blank s3Key, "s3Key is required")]
          (unguarded (getPresignedUrlFromS3Key s3Key)
                     (mkRequest POST "/api/v1/images/presigned-url" []
                                (JsonBody [("s3_key", FStr (trim (trim s3Key)))]))
                     (fun response => presigned_url_of (data response))
                     "Failed to generate presigned URL").
Proof.
  cbn [checked]; destruct (blank s3Key) eqn:H;
    [intros b; unfold getPresignedUrlFromS3Key; now rewrite H |].
  destruct (not_blank _ H) as [_ Ht].
  pose proof (trim_trim_truthy _ Ht) as Htt.
  unfold getPresignedUrlFromS3Key; rewrite H.
  apply (then_presigned_url _ _ "Failed to generate presigned URL").
  pose proof (getPresignedUrl_checks (mkImageUrlRequest (Some (trim s3Key)) None)) as Hc.
  cbv zeta in Hc.
  cbn [checked iu_s3_key iu_image_url truthy_opt nullish negb andb] in Hc.
  rewrite Ht, Htt in Hc; exact Hc.
Qed.

Lemma getPresignedUrlFromImageUrl_checks (imageUrl : string) :
  let link := trim (trim imageUrl) in
  checked (getPresignedUrlFromImageUrl imageUrl)
          [(blank imageUrl, "imageUrl is required");
           (negb (startsWith link "http://") && negb (startsWith link "https://"),
            "image_url must be a valid HTTP/HTTPS URL")]
          (unguarded (getPresignedUrlFromImageUrl imageUrl)
                     (mkRequest POST "/api/v1/images/presigned-url" []
                                (JsonBody [("image_url", FStr link)]))
                     (fun response => presigned_url_of (data response))
                     "Failed to generate presigned URL").
Proof.
  cbv zeta; cbn [checked]; destruct (blank imageUrl) eqn:H;
    [intros b; unfold getPresignedUrlFromImageUrl; now rewrite H |].
  destruct (not_blank _ H) as [_ Ht].
  pose proof (trim_trim_truthy _ Ht) as Htt.
  pose proof (getPresignedUrl_checks (mkImageUrlRequest None (Some (trim imageUrl)))) as Hc.
  cbv zeta in Hc.
  cbn [checked iu_s3_key iu_image_url truthy_opt nullish negb andb] in Hc.
  rewrite Ht, Htt in Hc; cbn [negb andb] in Hc.
  destruct (negb (startsWith (trim (trim imageUrl)) "http://")
            && negb (startsWith (trim (trim imageUrl)) "https://")).
  - intros b; unfold getPresignedUrlFromImageUrl; rewrite H.
    unfold bind; rewrite (Hc b); reflexivity.
  - unfold getPresignedUrlFromImageUrl; rewrite H.
    apply (then_presigned_url _ _ "Failed to generate presigned URL"); exact Hc.
Qed.



(** The bounds of [getCriminals]: [limit] 0 and 1001 and [offset] -1 are
    refused on the client with status 400 and nothing sent; [limit] 1 with
    [offset] 0 goes out as a request. *)
Theorem getCriminals_limit_offset_bounds :
  forall (b : Backend),
    let query l o := Some (mkCriminalsQueryParams (Some l) (Some o) None None None None None) in
    getCriminals (query 0%float 0%float) b
    = mkOutcome (inl (new_ApiError "limit must be between 1 and 1000" 400)) []
    /\ getCriminals (query 1001%float 0%float) b
       = mkOutcome (inl (new_ApiError "limit must be between 1 and 1000" 400)) []
    /\ getCriminals (query 100%float (-1)%float) b
       = mkOutcome (inl (new_ApiError "offset must be non-negative" 400)) []
    /\ sent (getCriminals (query 1%float 0%float) b)
       = [mkRequest GET "/api/v1/criminals"
            [("limit", FNum 1%float); ("offset", FNum 0%float)] NoBody].
Proof.
  intros b; cbv zeta.
  split; [reflexivity | split; [reflexivity | split; [reflexivity |]]].
  apply (guarded_sent _ unwrap); apply silent_unwrap.
Qed.

(** A server failure seen through [getCriminals]: the status and the body
    of the response reach the caller, with the server's message. *)
Example getCriminals_server_failure :
  let body := JObj [("detail", JStr "database is down")] in
  getCriminals None (failing (mkAxiosError (Some (503%Z, body)) true "Request failed"))
  = mkOutcome (inl (IsApiError (mkApiError "database is down" (Some 503%Z) (Some body))))
              [mkRequest GET "/api/v1/criminals"
                 [("limit", FNum 100%float); ("offset", FNum 0%float)] NoBody].
Proof. reflexivity. Qed.

(** A failure whose body carries a message that is no string: the text is
    what [String] makes of it, and a value that cannot be converted leaves
    the accessor's own error. *)
Example getCriminals_odd_messages :
  let failed body := result (getCriminals None
                               (failing (mkAxiosError (Some (500%Z, body)) true "Request failed"))) in
  failed (JObj [("error", JArr [])])
  = inl (IsApiError (mkApiError "" (Some 500%Z) (Some (JObj [("error", JArr [])]))))
  /\ failed (JObj [("error", JArr [JObj [("loc", JStr "body")]])])
     = inl (IsApiError (mkApiError "[object Object]" (Some 500%Z)
                          (Some (JObj [("error", JArr [JObj [("loc", JStr "body")]])]))))
  /\ failed (JObj [("detail", JObj [("toString", JStr "x")])])
     = inl (new_ApiError "Failed to retrieve criminals" 500).
Proof. repeat split. Qed.

(** A truthy body that is neither an object nor an array: the ['data' in]
    test throws, and [getCriminals] answers with its own error. *)
Example getCriminals_text_body :
  result (getCriminals None (answering (JStr "ok")))
  = inl (new_ApiError "Failed to retrieve criminals" 500).
Proof. reflexivity. Qed.

(** An answer with the body [null]: the helper reads [presigned_url] of it
    outside any [catch], and the [TypeError] reaches the caller. *)
Example getPresignedUrlFromS3Key_null_body :
  result (getPresignedUrlFromS3Key "faces/1.jpg" (answering JNull))
  = inl (OtherError "TypeError" "Cannot read properties of null").
Proof. reflexivity. Qed.

End Failures.

(** ** The enrollment flow: which image types get through *)
Section EnrollmentTypes.
Import Js Client Types UploadPage.

Variable as_MatchResponse : json -> MatchResponse.
Variable as_EnrollmentResponse : json -> EnrollmentResponse.
Variable backend : Backend.

(** A file of a type outside [VALID_IMAGE_TYPES] never leaves the card: the
    card shows its message, the page state is untouched, nothing is sent. *)
Lemma other_types_stop_at_the_card (f : File) (s : State) :
  UploadCard.isValidImageType f = false ->
  checkingMatch s = false ->
  chooseFile as_MatchResponse backend f s
  = (Some (UploadCard.Text
       "Invalid file type. Please select a JPEG, PNG, BMP, GIF, or WebP image."),
     mkRun s [] []).
Proof.
  intros Htype Hidle; unfold chooseFile, UploadCard.handleFile, UploadCard.validateFile.
  rewrite Hidle, Htype; reflexivity.
Qed.

(** A file whose type [uploadSingleImage] lists passes its type check: with
    a name, the request is sent. *)
Lemma listed_types_are_sent (f : File) (name : string) (personId : option string)
      (crimeType : string) (gender : option string) (state district ageRange : string)
      (augment : bool) :
  includes Api.validTypes (toLowerCase (file_type f)) = true ->
  blank name = false ->
  exists entries,
    sent (Api.uploadSingleImage (Some f) name personId crimeType gender state district
                                ageRange augment backend)
    = [mkRequest POST "/api/v1/enroll/image" [] (FormData entries)].
Proof.
  intros Htype Hname; unfold Api.uploadSingleImage.
  rewrite Hname, Htype; simpl negb; cbv iota.
  eexists.
  apply (guarded_sent _ (fun response => ret (data response))); reflexivity.
Qed.

(** C5 at its failing input.  A WebP file within the size limit is accepted
    by the card, which names WebP among the supported types, and becomes the
    selected file; [uploadSingleImage] then refuses it on the client with
    "Invalid image type. Supported: JPEG, PNG, BMP, GIF", status 400, and
    the page shows that message as an error toast without any request. *)
Theorem webp_passes_the_card_and_is_refused_on_submit :
  let f := mkFile "face.webp" "image/webp" 2048%float in
  let s := mkState (Some f) "A" "" "Theft" "" "S" "D" "20-30" false false [] None false in
  UploadCard.isValidImageType f = true
  /\ UploadCard.handleFile false 10%float f = (None, Some f)
  /\ Api.uploadSingleImage (Some f) "A" None "Theft" None "S" "D" "20-30" false backend
     = mkOutcome (inl (new_ApiError "Invalid image type. Supported: JPEG, PNG, BMP, GIF" 400))
                 []
  /\ handleSubmit as_EnrollmentResponse backend s
     = mkRun (addToast (mkToast "Error"
                          (Plain "Invalid image type. Supported: JPEG, PNG, BMP, GIF")
                          "error") s) [] [].
Proof.
  cbv zeta; repeat split.
Qed.

End EnrollmentTypes.

Lemma other_types_stop_at_the_card_witness :
  UploadPage.chooseFile (fun _ => Types.mkMatchResponse "" None 0%float None)
    (Shapes.answering Js.JNull) (Js.mkFile "notes.txt" "text/plain" 120%float)
    (UploadPage.mkState None "A" "" "Theft" "" "S" "D" "20-30" false false [] None false)
  = (Some (UploadCard.Text
       "Invalid file type. Please select a JPEG, PNG, BMP, GIF, or WebP image."),
     UploadPage.mkRun
       (UploadPage.mkState None "A" "" "Theft" "" "S" "D" "20-30" false false [] None false)
       [] []).
Proof.
  apply other_types_stop_at_the_card; reflexivity.
Defined.

(** ** Analytics: the monthly trend *)
Section MonthlyTrend.
Import AnalyticsPage.

Lemma getMonth_range (d : Date) : (0 <= getMonth d < 12)%Z.
Proof. unfold getMonth; apply Z.mod_pos_bound; lia. Qed.

Lemma month_cases (m : Z) :
  (0 <= m < 12)%Z ->
  m = 0%Z \/ m = 1%Z \/ m = 2%Z \/ m = 3%Z \/ m = 4%Z \/ m = 5%Z \/ m = 6%Z
  \/ m = 7%Z \/ m = 8%Z \/ m = 9%Z \/ m = 10%Z \/ m = 11%Z.
Proof. lia. Qed.

(** The six keys of the window are six different names. *)
Lemma windowKeys_NoDup (now : Date) : NoDup (windowKeys now).
Proof.
  unfold windowKeys.
  destruct (month_cases _ (getMonth_range now)) as
      [E|[E|[E|[E|[E|[E|[E|[E|[E|[E|[E|E]]]]]]]]]]];
    rewrite E; vm_compute;
    repeat (constructor; [simpl; intuition discriminate |]);
    constructor.
Qed.

(** The loop leaves one zeroed bucket per key, oldest month first. *)
Lemma initMonths_buckets (now : Date) :
  initMonths now = map (fun key => (key, mkMonthlyData key 0 0)) (windowKeys now).
Proof.
  unfold initMonths, windowKeys.
  generalize (getMonth_range now).
  generalize (getMonth now) as m; generalize (getFullYear now) as y.
  intros y m Hm.
  destruct (month_cases m Hm) as
      [E|[E|[E|[E|[E|[E|[E|[E|[E|[E|[E|E]]]]]]]]]]];
    rewrite E; reflexivity.
Qed.

(** With distinct keys, an update touches exactly the bucket of its key. *)
Lemma update_buckets (key : string) (f : MonthlyData -> MonthlyData)
      (v : string -> MonthlyData) (keys : list string) :
  NoDup keys ->
  update key f (map (fun k => (k, v k)) keys)
  = map (fun k => (k, if String.eqb key k then f (v k) else v k)) keys.
Proof.
  induction keys as [| k ks IH]; intros Hnd; [reflexivity |].
  inversion Hnd as [| ? ? Hnotin Hnd']; subst.
  simpl.
  destruct (String.eqb_spec key k) as [E | NE].
  - subst key; f_equal.
    apply map_ext_in; intros k' Hk'.
    destruct (String.eqb_spec k k') as [E' | _]; [| reflexivity].
    subst k'; contradiction.
  - f_equal; apply IH, Hnd'.
Qed.

Lemma countKey_cons {A} (key_of : A -> string) (key : string) (x : A) (rows : list A) :
  countKey key_of key (x :: rows)
  = (if String.eqb (key_of x) key then 1 else 0) + countKey key_of key rows.
Proof.
  unfold countKey; simpl.
  destruct (String.eqb (key_of x) key); reflexivity.
Qed.

Lemma fold_countComplaint (rows : list ComplaintRow) :
  forall (keys : list string) (c r : string -> nat),
    NoDup keys ->
    fold_left countComplaint rows (map (fun k => (k, mkMonthlyData k (c k) (r k))) keys)
    = map (fun k => (k, mkMonthlyData k (c k + countKey complaintKey k rows) (r k))) keys.
Proof.
  induction rows as [| row rows IH]; intros keys c r Hnd.
  - simpl; apply map_ext; intros k.
    unfold countKey; simpl; now rewrite Nat.add_0_r.
  - simpl fold_left; unfold countComplaint at 2.
    rewrite (update_buckets _ _ (fun k => mkMonthlyData k (c k) (r k)) keys Hnd).
    rewrite (map_ext _
               (fun k => (k, mkMonthlyData k
                               (c k + if String.eqb (complaintKey row) k then 1 else 0)
                               (r k)))).
    + rewrite (IH keys _ r Hnd).
      apply map_ext; intros k.
      rewrite countKey_cons; do 2 f_equal; lia.
    + intros k; unfold complaintKey; simpl.
      destruct (String.eqb (toLocaleMonth (created_at row)) k); simpl;
        do 2 f_equal; lia.
Qed.

Lemma fold_countRTI (rows : list RTIRow) :
  forall (keys : list string) (c r : string -> nat),
    NoDup keys ->
    fold_left countRTI rows (map (fun k => (k, mkMonthlyData k (c k) (r k))) keys)
    = map (fun k => (k, mkMonthlyData k (c k) (r k + countKey rtiKey k rows))) keys.
Proof.
  induction rows as [| row rows IH]; intros keys c r Hnd.
  - simpl; apply map_ext; intros k.
    unfold countKey; simpl; now rewrite Nat.add_0_r.
  - simpl fold_left; unfold countRTI at 2.
    rewrite (update_buckets _ _ (fun k => mkMonthlyData k (c k) (r k)) keys Hnd).
    rewrite (map_ext _
               (fun k => (k, mkMonthlyData k (c k)
                               (r k + if String.eqb (rtiKey row) k then 1 else 0)))).
    + rewrite (IH keys c _ Hnd).
      apply map_ext; intros k.
      rewrite countKey_cons; do 2 f_equal; lia.
    + intros k; unfold rtiKey; simpl.
      destruct (String.eqb (toLocaleMonth (rti_created_at row)) k); simpl;
        do 2 f_equal; lia.
Qed.

(** The trend, bucket by bucket. *)
Lemma monthlyTrend_buckets (now : Date) (cs : list ComplaintRow) (rs : list RTIRow) :
  monthlyTrend now cs rs
  = map (fun key => mkMonthlyData key (countKey complaintKey key cs)
                                  (countKey rtiKey key rs))
        (windowKeys now).
Proof.
  unfold monthlyTrend.
  rewrite initMonths_buckets.
  rewrite (fold_countComplaint cs (windowKeys now) (fun _ => 0) (fun _ => 0)
                               (windowKeys_NoDup now)).
  rewrite (fold_countRTI rs (windowKeys now) _ (fun _ => 0) (windowKeys_NoDup now)).
  rewrite map_map; reflexivity.
Qed.

Lemma inYear_key (y : Z) (c : ComplaintRow) : complaintKey (inYear y c) = complaintKey c.
Proof.
  unfold complaintKey, inYear; simpl.
  destruct (created_at c) as [| d]; [reflexivity |].
  unfold toLocaleMonth, getMonth; simpl.
  now rewrite Z.mod_mod by lia.
Qed.

Lemma countKey_inYear (y : Z) (key : string) (cs : list ComplaintRow) :
  countKey complaintKey key (map (inYear y) cs) = countKey complaintKey key cs.
Proof.
  induction cs as [| c cs IH]; [reflexivity |].
  simpl map; rewrite !countKey_cons, IH, inYear_key; reflexivity.
Qed.

(** C9.  The monthly trend has exactly six buckets, named by the short
    month names of the six calendar months that end with the current one,
    oldest first, all different.  Each bucket counts the complaints, and the
    RTI requests, whose [created_at] has that short month name; the year of
    a record plays no part, so redating every complaint to any other year
    leaves the trend unchanged. *)
Theorem monthly_trend_six_buckets_keyed_by_month_name :
  forall (now : Date) (cs : list ComplaintRow) (rs : list RTIRow),
    let trend := monthlyTrend now cs rs in
    length trend = 6
    /\ map name trend
       = map (fun i => monthShort ((getMonth now - i) mod 12)%Z) [5; 4; 3; 2; 1; 0]%Z
    /\ NoDup (map name trend)
    /\ (forall bucket, In bucket trend ->
          complaints bucket
          = length (filter (fun c => String.eqb (toLocaleMonth (created_at c)) (name bucket)) cs)
          /\ rti bucket
             = length (filter (fun r => String.eqb (toLocaleMonth (rti_created_at r))
                                                   (name bucket)) rs))
    /\ (forall y, monthlyTrend now (map (inYear y) cs) rs = trend).
Proof.
  intros now cs rs; cbv zeta.
  assert (Hnames : map name (monthlyTrend now cs rs) = windowKeys now).
  { rewrite monthlyTrend_buckets, map_map; reflexivity. }
  split; [| split; [| split; [| split]]].
  - rewrite monthlyTrend_buckets, length_map; reflexivity.
  - exact Hnames.
  - rewrite Hnames; apply windowKeys_NoDup.
  - intros bucket Hin.
    rewrite monthlyTrend_buckets in Hin.
    apply in_map_iff in Hin as (key & <- & _); split; reflexivity.
  - intros y; rewrite !monthlyTrend_buckets.
    apply map_ext; intros key; now rewrite countKey_inYear.
Qed.

(** Two complaints filed in March of different years land in one bucket. *)
Example march_of_two_years_in_one_bucket :
  monthlyTrend (mkDate 2025 4)
    [mkComplaintRow "1" (Valid (mkDate 2025 2)) None "Open";
     mkComplaintRow "2" (Valid (mkDate 2019 2)) None "Open";
     mkComplaintRow "3" InvalidDate None "Open"]
    [mkRTIRow "9" (Valid (mkDate 2025 4)) "Open"]
  = [mkMonthlyData "Dec" 0 0; mkMonthlyData "Jan" 0 0; mkMonthlyData "Feb" 0 0;
     mkMonthlyData "Mar" 2 0; mkMonthlyData "Apr" 0 0; mkMonthlyData "May" 0 1].
Proof. reflexivity. Qed.

End MonthlyTrend.

(** ** The option lists: states and districts *)
Section OptionLists.
Import Js Client Api JsMore Options Shapes.
Local Open Scope api_scope.

Lemma includes_In (l : list string) (x : string) : includes l x = true <-> In x l.
Proof.
  unfold includes; rewrite existsb_exists; split.
  - intros (y & Hin & Heq); apply String.eqb_eq in Heq; now subst.
  - intros Hin; exists x; split; [exact Hin | apply String.eqb_refl].
Qed.

Lemma set_add_In (x s : string) (set : list string) :
  In s (set_add x set) <-> s = x \/ In s set.
Proof.
  unfold set_add; destruct (includes set x) eqn:E.
  - apply includes_In in E; split; [auto | intros [-> | H]; auto].
  - rewrite in_app_iff; simpl; intuition.
Qed.

Lemma set_add_NoDup (x : string) (set : list string) :
  NoDup set -> NoDup (set_add x set).
Proof.
  intros Hnd; unfold set_add; destruct (includes set x) eqn:E; [exact Hnd |].
  assert (Hnotin : ~ In x set) by (rewrite <- includes_In, E; discriminate).
  clear E; induction set as [| y set IH]; simpl.
  - constructor; [intros [] | constructor].
  - inversion Hnd as [| ? ? Hy Hnd']; subst.
    constructor.
    + rewrite in_app_iff; simpl; intros [H | [H | []]]; [contradiction |].
      subst; apply Hnotin; now left.
    + apply IH; [exact Hnd' | intros H; apply Hnotin; now right].
Qed.

Lemma forEach_add_spec (pick : json -> exn + option string) (rows : list json) :
  (forall row, In row rows -> exists o, pick row = inr o) ->
  forall set,
  exists set',
    forEach_add pick rows set = inr set'
    /\ (NoDup set -> NoDup set')
    /\ (forall s, In s set' <-> In s set \/ exists row, In row rows /\ pick row = inr (Some s)).
Proof.
  induction rows as [| row rows IH]; intros Hok set.
  - exists set; split; [reflexivity | split; [auto |]].
    intros s; split; [auto | intros [H | (r & [] & _)]; exact H].
  - assert (Hok' : forall r, In r rows -> exists o, pick r = inr o)
      by (intros r Hr; apply Hok; now right).
    destruct (Hok row (or_introl eq_refl)) as [o Ho].
    simpl; rewrite Ho.
    destruct o as [x |].
    + destruct (IH Hok' (set_add x set)) as (set' & Hrun & Hnd & Hin).
      exists set'; split; [exact Hrun | split].
      * intros H; apply Hnd, set_add_NoDup, H.
      * intros s; rewrite Hin, set_add_In; split.
        -- intros [[-> | H] | (r & Hr & Hp)];
             [right; exists row; auto | now left | right; exists r; auto].
        -- intros [H | (r & [<- | Hr] & Hp)]; eauto.
           rewrite Ho in Hp; inversion Hp; auto.
    + destruct (IH Hok' set) as (set' & Hrun & Hnd & Hin).
      exists set'; split; [exact Hrun | split; [exact Hnd |]].
      intros s; rewrite Hin; split.
      * intros [H | (r & Hr & Hp)]; eauto.
      * intros [H | (r & [<- | Hr] & Hp)]; eauto.
        rewrite Ho in Hp; discriminate Hp.
Qed.

(** [trim] drops the white space of Unicode, not only that of ASCII: here
    a no-break space (U+00A0) before the name and an ideographic space
    (U+3000) after it.  A no-break space and an em space (U+2003) make a
    blank string; a zero width space (U+200B), which is no white space,
    does not. *)
Example trim_unicode_space :
  trim " Ravi　" = "Ravi" /\ blank "  " = true /\ blank "​" = false.
Proof. repeat split. Qed.

(** The sort compares UTF-16 code units: U+1F600, a surrogate pair that
    starts with D83D, comes before U+FF5E, though its UTF-8 bytes and its
    code point come after. *)
Example sort_by_code_unit :
  sort ["～"; "😀"; "z"; "Z"] = ["Z"; "z"; "😀"; "～"]
  /\ code_units "😀" = [55357%N; 56832%N]
  /\ code_units "～" = [65374%N].
Proof. repeat split. Qed.

Lemma units_leb_total (a b : list N) : units_leb a b = false -> units_leb b a = true.
Proof.
  revert b; induction a as [| x a IH]; intros [| y b]; cbn [units_leb];
    try discriminate; try reflexivity.
  destruct (N.ltb_spec x y); [discriminate |].
  destruct (N.ltb_spec y x); [reflexivity |].
  apply IH.
Qed.

Lemma code_unit_leb_total (x y : string) :
  code_unit_leb x y = false -> code_unit_leb y x = true.
Proof. apply units_leb_total. Qed.

Lemma insert_sorted_perm (x : string) (l : list string) :
  Permutation (insert_sorted x l) (x :: l).
Proof.
  induction l as [| y l IH]; cbn [insert_sorted]; [reflexivity |].
  destruct (code_unit_leb x y); [reflexivity |].
  rewrite IH; apply perm_swap.
Qed.

Lemma sort_perm (l : list string) : Permutation (sort l) l.
Proof.
  induction l as [| x l IH]; simpl; [reflexivity |].
  rewrite insert_sorted_perm; now constructor.
Qed.

Lemma insert_sorted_Sorted (x : string) (l : list string) :
  Sorted string_le l -> Sorted string_le (insert_sorted x l).
Proof.
  induction l as [| y l IH]; intros Hs; cbn [insert_sorted].
  - repeat constructor.
  - destruct (code_unit_leb x y) eqn:E.
    + constructor; [exact Hs | constructor; exact E].
    + inversion Hs as [| ? ? Hs' Hhd]; subst.
      constructor; [apply IH, Hs' |].
      assert (Hyx : string_le y x) by (apply code_unit_leb_total, E).
      destruct l as [| z l]; cbn [insert_sorted].
      * constructor; exact Hyx.
      * destruct (code_unit_leb x z); constructor; [exact Hyx |].
        inversion Hhd; assumption.
Qed.

Lemma sort_Sorted (l : list string) : Sorted string_le (sort l).
Proof.
  induction l as [| x l IH]; simpl; [constructor | apply insert_sorted_Sorted, IH].
Qed.

(** The one request behind both lists, and what it yields on a list of rows. *)
Lemma allCriminals_rows (b : Backend) (d : json) (rows : list json) :
  answers b d ->
  d = JArr rows \/ envelope_of (JArr rows) d ->
  result (allCriminals b) = inr (JArr rows)
  /\ sent (allCriminals b)
     = [mkRequest GET "/api/v1/criminals"
          [("limit", FNum 1000%float); ("offset", FNum 0%float)] NoBody].
Proof.
  intros Hb Hshape.
  unfold allCriminals, getCriminals; simpl.
  split.
  - destruct (Hb (mkRequest GET "/api/v1/criminals"
                    [("limit", FNum 1000%float); ("offset", FNum 0%float)] NoBody))
      as [st Hst].
    rewrite (guarded_success _ unwrap _ b _ Hst).
    destruct Hshape as [-> | Henv].
    + now rewrite unwrap_bare.
    + now rewrite (unwrap_envelope st (JArr rows) d).
  - apply (guarded_sent _ unwrap); intros resp; apply unwrap_sent.
Qed.

Lemma lift_sent {A} (x : exn + A) (b : Backend) : sent (lift x b) = [].
Proof. destruct x; reflexivity. Qed.

(** What either list function makes of a list of rows without [null]. *)
Lemma listing_rows (pick : json -> exn + option string) (msg : string)
      (b : Backend) (d : json) (rows : list json) :
  answers b d ->
  d = JArr rows \/ envelope_of (JArr rows) d ->
  (forall row, In row rows -> exists o, pick row = inr o) ->
  exists values,
    try_catch (criminals <- allCriminals ;;
               found <- collect pick criminals ;;
               ret (sort found)) (rethrow_or msg) b
    = mkOutcome (inr values)
        [mkRequest GET "/api/v1/criminals"
           [("limit", FNum 1000%float); ("offset", FNum 0%float)] NoBody]
    /\ Sorted string_le values
    /\ NoDup values
    /\ (forall s, In s values <-> exists row, In row rows /\ pick row = inr (Some s)).
Proof.
  intros Hb Hshape Hok.
  destruct (allCriminals_rows b d rows Hb Hshape) as [Hres Hsent].
  destruct (forEach_add_spec pick rows Hok []) as (found & Hrun & Hnd & Hin).
  exists (sort found); split; [| split; [| split]].
  - unfold try_catch, bind.
    rewrite Hres; cbn -[sort allCriminals].
    unfold lift; rewrite Hrun; cbn -[sort allCriminals].
    rewrite Hsent; reflexivity.
  - apply sort_Sorted.
  - apply (Permutation_NoDup (l := found)); [symmetry; apply sort_perm |].
    apply Hnd; constructor.
  - intros s; split.
    + intros H; apply (Permutation_in _ (sort_perm found)) in H.
      apply Hin in H as [[] | H]; exact H.
    + intros H; apply (Permutation_in _ (Permutation_sym (sort_perm found))).
      apply Hin; now right.
Qed.

Lemma string_prop_total (k : string) (row : json) :
  row <> JNull -> exists o, string_prop k row = inr o.
Proof. destruct row; simpl; eauto; intros H; now contradiction H. Qed.

Lemma district_in_total (state : string) (row : json) :
  row <> JNull -> exists o, district_in state row = inr o.
Proof. destruct row; simpl; eauto; intros H; now contradiction H. Qed.

(** [getUniqueStates], on a payload of rows: one request for up to 1000
    criminals; the answer lists, in ascending order and without repeats,
    exactly the non-empty string [state]s of the rows. *)
Theorem getUniqueStates_sorted_distinct_states :
  forall (b : Backend) (d : json) (rows : list json),
    answers b d ->
    d = JArr rows \/ envelope_of (JArr rows) d ->
    no_null_row rows ->
    exists states,
      getUniqueStates b
      = mkOutcome (inr states)
          [mkRequest GET "/api/v1/criminals"
             [("limit", FNum 1000%float); ("offset", FNum 0%float)] NoBody]
      /\ Sorted string_le states
      /\ NoDup states
      /\ (forall s, In s states <->
                    s <> "" /\ exists fields, In (JObj fields) rows
                                              /\ assoc "state" fields = Some (JStr s)).
Proof.
  intros b d rows Hb Hshape Hrows.
  assert (Hok : forall row, In row rows -> exists o, string_prop "state" row = inr o).
  { intros row Hin; apply string_prop_total.
    exact (proj1 (Forall_forall _ rows) Hrows row Hin). }
  destruct (listing_rows (string_prop "state") "Failed to retrieve states" b d rows
                         Hb Hshape Hok) as (states & Hrun & Hs & Hnd & Hin).
  exists states; split; [exact Hrun | split; [exact Hs | split; [exact Hnd |]]].
  intros s; rewrite Hin; split.
  - intros (row & Hrow & Hp).
    destruct row as [| ? | ? | ? | ? | fields]; simpl in Hp; try discriminate Hp.
    destruct (assoc "state" fields) as [[| ? | ? | v | ? | ?] |] eqn:E; try discriminate Hp.
    destruct v as [| c v]; simpl in Hp; [discriminate Hp |].
    inversion Hp; subst s; split; [discriminate | eauto].
  - intros (Hne & fields & Hrow & E).
    exists (JObj fields); split; [exact Hrow |].
    simpl; rewrite E.
    destruct s; [now contradiction Hne | reflexivity].
Qed.

End OptionLists.

Lemma getUniqueStates_sorted_distinct_states_witness :
  exists states,
    Options.getUniqueStates
      (Shapes.answering
         (Js.JObj [("data", Js.JArr [Js.JObj [("state", Js.JStr "Kerala")];
                                      Js.JObj [("state", Js.JStr "Goa")];
                                      Js.JObj [("state", Js.JStr "Kerala")];
                                      Js.JObj [("name", Js.JStr "no state")]])]))
    = Client.mkOutcome (inr states)
        [Client.mkRequest Client.GET "/api/v1/criminals"
           [("limit", Client.FNum 1000%float); ("offset", Client.FNum 0%float)]
           Client.NoBody]
    /\ Sorted Options.string_le states
    /\ NoDup states
    /\ (forall s, In s states <->
          s <> "" /\ exists fields,
            In (Js.JObj fields)
               [Js.JObj [("state", Js.JStr "Kerala")]; Js.JObj [("state", Js.JStr "Goa")];
                Js.JObj [("state", Js.JStr "Kerala")]; Js.JObj [("name", Js.JStr "no state")]]
            /\ Js.assoc "state" fields = Some (Js.JStr s)).
Proof.
  apply (getUniqueStates_sorted_distinct_states
           (Shapes.answering
              (Js.JObj [("data", Js.JArr [Js.JObj [("state", Js.JStr "Kerala")];
                                           Js.JObj [("state", Js.JStr "Goa")];
                                           Js.JObj [("state", Js.JStr "Kerala")];
                                           Js.JObj [("name", Js.JStr "no state")]])]))
           (Js.JObj [("data", Js.JArr [Js.JObj [("state", Js.JStr "Kerala")];
                                        Js.JObj [("state", Js.JStr "Goa")];
                                        Js.JObj [("state", Js.JStr "Kerala")];
                                        Js.JObj [("name", Js.JStr "no state")]])])).
  - intros r; exists 200%Z; reflexivity.
  - right; eexists; split; reflexivity.
  - repeat constructor; discriminate.
Defined.

Section DistrictLists.
Import Js Client Api JsMore Options Shapes.
Local Open Scope api_scope.

(** [getDistrictsByState]: a blank state is answered with the empty list
    and no request; otherwise, on a payload of rows, the answer lists in
    ascending order and without repeats exactly the non-empty string
    [district]s of the rows whose [state] is the given string. *)
Theorem getDistrictsByState_blank_or_sorted_districts :
  forall (b : Backend) (d : json) (rows : list json) (state : string),
    answers b d ->
    d = JArr rows \/ envelope_of (JArr rows) d ->
    no_null_row rows ->
    if blank state then getDistrictsByState state b = mkOutcome (inr []) []
    else
      exists districts,
        getDistrictsByState state b
        = mkOutcome (inr districts)
            [mkRequest GET "/api/v1/criminals"
               [("limit", FNum 1000%float); ("offset", FNum 0%float)] NoBody]
        /\ Sorted string_le districts
        /\ NoDup districts
        /\ (forall x, In x districts <->
              x <> "" /\ exists fields,
                In (JObj fields) rows
                /\ assoc "state" fields = Some (JStr state)
                /\ assoc "district" fields = Some (JStr x)).
Proof.
  intros b d rows state Hb Hshape Hrows.
  unfold getDistrictsByState.
  destruct (blank state); [reflexivity |].
  assert (Hok : forall row, In row rows -> exists o, district_in state row = inr o).
  { intros row Hin; apply district_in_total.
    exact (proj1 (Forall_forall _ rows) Hrows row Hin). }
  destruct (listing_rows (district_in state) "Failed to retrieve districts" b d rows
                         Hb Hshape Hok) as (districts & Hrun & Hs & Hnd & Hin).
  exists districts; split; [exact Hrun | split; [exact Hs | split; [exact Hnd |]]].
  intros x; rewrite Hin; split.
  - intros (row & Hrow & Hp).
    destruct row as [| ? | ? | ? | ? | fields]; simpl in Hp; try discriminate Hp.
    destruct (assoc "state" fields) as [[| ? | ? | s | ? | ?] |] eqn:Es; try discriminate Hp.
    destruct (String.eqb_spec s state) as [-> | _]; [| discriminate Hp].
    destruct (assoc "district" fields) as [[| ? | ? | v | ? | ?] |] eqn:Ed;
      try discriminate Hp.
    destruct v as [| c v]; simpl in Hp; [discriminate Hp |].
    inversion Hp; subst x; split; [discriminate | eauto].
  - intros (Hne & fields & Hrow & Es & Ed).
    exists (JObj fields); split; [exact Hrow |].
    simpl; rewrite Es, String.eqb_refl, Ed.
    destruct x; [now contradiction Hne | reflexivity].
Qed.

Lemma forEach_add_null (k : string) (rows : list json) :
  In JNull rows ->
  forall set, forEach_add (string_prop k) rows set = inl null_read.
Proof.
  induction rows as [| row rows IH]; intros Hin set; [destruct Hin |].
  destruct row as [| v | n | s | items | fields];
    try reflexivity;
    (destruct Hin as [Hin | Hin]; [discriminate Hin |]); simpl.
  - apply IH, Hin.
  - apply IH, Hin.
  - apply IH, Hin.
  - apply IH, Hin.
  - destruct (assoc k fields) as [[| ? | ? | v | ? | ?] |]; try (apply IH, Hin).
    destruct (truthy v); apply IH, Hin.
Qed.

(** One [null] among the rows, or a payload that is no list at all, and
    [getUniqueStates] gives no list: it throws its own [ApiError], "Failed
    to retrieve states" with status 500, after the one request. *)
Theorem getUniqueStates_fails_on_null_row_or_non_list :
  forall (b : Backend) (d payload : json),
    answers b d ->
    (d = payload /\ is_bare payload = true) \/ envelope_of payload d ->
    (exists rows, payload = JArr rows /\ In JNull rows)
    \/ (forall rows, payload <> JArr rows) ->
    getUniqueStates b
    = mkOutcome (inl (new_ApiError "Failed to retrieve states" 500))
        [mkRequest GET "/api/v1/criminals"
           [("limit", FNum 1000%float); ("offset", FNum 0%float)] NoBody].
Proof.
  intros b d payload Hb Hshape Hbad.
  assert (Hres : result (allCriminals b) = inr payload).
  { unfold allCriminals, getCriminals; simpl.
    destruct (Hb (mkRequest GET "/api/v1/criminals"
                    [("limit", FNum 1000%float); ("offset", FNum 0%float)] NoBody))
      as [st Hst].
    rewrite (guarded_success _ unwrap _ b _ Hst).
    destruct Hshape as [[-> Hbare] | Henv].
    - now rewrite unwrap_bare.
    - now rewrite (unwrap_envelope st payload d). }
  assert (Hsent : sent (allCriminals b)
                  = [mkRequest GET "/api/v1/criminals"
                       [("limit", FNum 1000%float); ("offset", FNum 0%float)] NoBody]).
  { unfold allCriminals, getCriminals; simpl.
    apply (guarded_sent _ unwrap); intros resp; apply unwrap_sent. }
  unfold getUniqueStates, try_catch, bind.
  rewrite Hres; cbn -[sort allCriminals].
  destruct Hbad as [(rows & -> & Hnull) | Hnot].
  - unfold collect, lift; rewrite (forEach_add_null "state" rows Hnull).
    cbn -[sort allCriminals]; rewrite Hsent; reflexivity.
  - destruct payload as [| v | n | s | items | fields];
      try (cbn -[sort allCriminals]; rewrite Hsent; reflexivity).
    exfalso; apply (Hnot items); reflexivity.
Qed.

End DistrictLists.

Lemma getDistrictsByState_blank_or_sorted_districts_witness :
  exists districts,
    Options.getDistrictsByState "Kerala"
      (Shapes.answering
         (Js.JArr [Js.JObj [("state", Js.JStr "Kerala"); ("district", Js.JStr "Kochi")];
                   Js.JObj [("state", Js.JStr "Goa"); ("district", Js.JStr "Panaji")];
                   Js.JObj [("state", Js.JStr "Kerala"); ("district", Js.JStr "Alappuzha")]]))
    = Client.mkOutcome (inr districts)
        [Client.mkRequest Client.GET "/api/v1/criminals"
           [("limit", Client.FNum 1000%float); ("offset", Client.FNum 0%float)]
           Client.NoBody]
    /\ Sorted Options.string_le districts
    /\ NoDup districts
    /\ (forall x, In x districts <->
          x <> "" /\ exists fields,
            In (Js.JObj fields)
               [Js.JObj [("state", Js.JStr "Kerala"); ("district", Js.JStr "Kochi")];
                Js.JObj [("state", Js.JStr "Goa"); ("district", Js.JStr "Panaji")];
                Js.JObj [("state", Js.JStr "Kerala"); ("district", Js.JStr "Alappuzha")]]
            /\ Js.assoc "state" fields = Some (Js.JStr "Kerala")
            /\ Js.assoc "district" fields = Some (Js.JStr x)).
Proof.
  apply (getDistrictsByState_blank_or_sorted_districts
           (Shapes.answering
              (Js.JArr [Js.JObj [("state", Js.JStr "Kerala"); ("district", Js.JStr "Kochi")];
                        Js.JObj [("state", Js.JStr "Goa"); ("district", Js.JStr "Panaji")];
                        Js.JObj [("state", Js.JStr "Kerala");
                                 ("district", Js.JStr "Alappuzha")]]))
           (Js.JArr [Js.JObj [("state", Js.JStr "Kerala"); ("district", Js.JStr "Kochi")];
                     Js.JObj [("state", Js.JStr "Goa"); ("district", Js.JStr "Panaji")];
                     Js.JObj [("state", Js.JStr "Kerala"); ("district", Js.JStr "Alappuzha")]])
           _ "Kerala").
  - intros r; exists 200%Z; reflexivity.
  - left; reflexivity.
  - repeat constructor; discriminate.
Defined.

Lemma getUniqueStates_fails_on_null_row_or_non_list_witness :
  Options.getUniqueStates
    (Shapes.answering (Js.JArr [Js.JObj [("state", Js.JStr "Goa")]; Js.JNull]))
  = Client.mkOutcome (inl (Client.new_ApiError "Failed to retrieve states" 500))
      [Client.mkRequest Client.GET "/api/v1/criminals"
         [("limit", Client.FNum 1000%float); ("offset", Client.FNum 0%float)]
         Client.NoBody].
Proof.
  apply (getUniqueStates_fails_on_null_row_or_non_list
           (Shapes.answering (Js.JArr [Js.JObj [("state", Js.JStr "Goa")]; Js.JNull]))
           (Js.JArr [Js.JObj [("state", Js.JStr "Goa")]; Js.JNull])
           (Js.JArr [Js.JObj [("state", Js.JStr "Goa")]; Js.JNull])).
  - intros r; exists 200%Z; reflexivity.
  - left; split; reflexivity.
  - left; eexists; split; [reflexivity | simpl; auto].
Defined.

(** ** The enrollment page: lists, modal buttons, submit *)
Section EnrollmentPage.
Import Js Client Types UploadPage EnrollmentFlow.

Variable as_MatchResponse : json -> MatchResponse.
Variable as_EnrollmentResponse : json -> EnrollmentResponse.
Variable backend : Backend.

(** Whatever the state select is changed to, and whether or not the
    districts can be loaded, the chosen district is cleared, so the form
    cannot be submitted until a district is chosen again; no toast is
    raised, the rest of the form is kept, and a failure leaves the district
    list empty. *)
Theorem state_change_clears_district :
  forall (v : string) (s : State) (l : Lists),
    let run := onStateChange backend v s l in
    form run = setDistrict "" (setState v s)
    /\ district (form run) = ""
    /\ submitDisabled (form run) = true
    /\ toasts (form run) = toasts s
    /\ states (lists run) = states l
    /\ (truthy v = false -> districts (lists run) = [] /\ sent_requests run = [])
    /\ (forall error, result (Options.getDistrictsByState v backend) = inl error ->
        districts (lists run) = []).
Proof.
  intros v s l; cbv zeta.
  unfold onStateChange, stateEffect; simpl state.
  assert (Hdis : forall x, submitDisabled (setDistrict "" x) = true).
  { intros x; unfold submitDisabled, required_missing; simpl.
    destruct (loading x), (file x), (truthy (name x)), (truthy (state x)); reflexivity. }
  destruct (truthy v) eqn:Hv.
  - destruct (result (Options.getDistrictsByState v backend)) as [error | list] eqn:Hres;
      simpl; (repeat split; try apply Hdis; try discriminate; try reflexivity).
  - simpl; repeat split; apply Hdis.
Qed.

(** "Proceed Anyway" hides the modal and keeps everything else, the file
    included, and asks nothing of the backend; "Cancel" hides the modal and
    drops the file, again without a request, and the form can then not be
    submitted. *)
Theorem proceed_keeps_file_cancel_drops_it :
  forall (s : State),
    (modalShown (onProceed s) = false
     /\ file (onProceed s) = file s
     /\ submitDisabled (onProceed s) = submitDisabled s
     /\ toasts (onProceed s) = toasts s)
    /\ (let run := onClose as_MatchResponse backend s in
        modalShown (after run) = false
        /\ file (after run) = None
        /\ submitDisabled (after run) = true
        /\ requests run = []).
Proof.
  intros s; split; [repeat split |].
  cbv zeta; unfold onClose, onFileSelect, fileEffect; simpl.
  repeat split.
  unfold submitDisabled, required_missing; simpl. apply orb_true_r.
Qed.

(** A submit with a required field missing asks nothing of the backend and
    changes nothing but the toasts. *)
Lemma submit_incomplete (s : State) :
  required_missing s = true ->
  handleSubmit as_EnrollmentResponse backend s
  = mkRun (addToast (mkToast "Error"
             (Plain "Please fill in all required fields: Name, State, District, Age Range, and Crime Type")
             "error") s) [] [].
Proof. intros H; unfold handleSubmit; now rewrite H. Qed.

(** Every submit adds exactly one toast.  With a required field missing
    nothing is sent and the form is untouched.  Otherwise the page ends not
    loading; only an answer read as [success] empties the form (the
    augmentation box apart) and clears the match; any other outcome, a
    refusal by the backend or a thrown error, keeps the file and every
    field as they were. *)
Theorem submit_resets_only_on_success :
  forall (s : State),
    let run := handleSubmit as_EnrollmentResponse backend s in
    let call := Api.uploadSingleImage (file s) (name s) (or_undefined (personId s))
                  (crimeType s) (or_undefined (gender s)) (state s) (district s)
                  (ageRange s) (applyAugmentations s) backend in
    length (toasts (after run)) = S (length (toasts s))
    /\ applyAugmentations (after run) = applyAugmentations s
    /\ (required_missing s = true ->
        requests run = []
        /\ after run
           = addToast (mkToast "Error"
               (Plain "Please fill in all required fields: Name, State, District, Age Range, and Crime Type")
               "error") s)
    /\ (required_missing s = false ->
        requests run = sent call
        /\ loading (after run) = false
        /\ ((exists payload, result call = inr payload
                             /\ success (as_EnrollmentResponse payload) = true) ->
            file (after run) = None /\ name (after run) = ""
            /\ personId (after run) = "" /\ crimeType (after run) = ""
            /\ gender (after run) = "" /\ state (after run) = ""
            /\ district (after run) = "" /\ ageRange (after run) = ""
            /\ existingMatch (after run) = None
            /\ submitDisabled (after run) = true)
        /\ (~ (exists payload, result call = inr payload
                               /\ success (as_EnrollmentResponse payload) = true) ->
            file (after run) = file s /\ name (after run) = name s
            /\ personId (after run) = personId s /\ crimeType (after run) = crimeType s
            /\ gender (after run) = gender s /\ state (after run) = state s
            /\ district (after run) = district s /\ ageRange (after run) = ageRange s
            /\ existingMatch (after run) = existingMatch s)).
Proof.
  intros s; cbv zeta.
  unfold handleSubmit.
  destruct (required_missing s) eqn:Hreq.
  - cbn [after requests].
    split; [unfold addToast; cbn [toasts]; rewrite length_app; simpl; lia |].
    split; [reflexivity |].
    split; [intros _; split; reflexivity | intros H; discriminate H].
  - cbv zeta.
    cbn [file name personId crimeType gender state district ageRange applyAugmentations
         setLoading].
    set (call := Api.uploadSingleImage _ _ _ _ _ _ _ _ _ backend).
    clearbody call.
    destruct (result call) as [error | payload] eqn:Hres.
    + cbn [after requests].
      split; [unfold setLoading, addToast; cbn [toasts]; rewrite length_app; simpl; lia |].
      split; [reflexivity |].
      split; [intros H; discriminate H |].
      intros _; split; [reflexivity |].
      split; [reflexivity |].
      split; [intros (p & Hp & _); discriminate Hp |].
      intros _; repeat split.
    + destruct (success (as_EnrollmentResponse payload)) eqn:Hok; cbn [after requests].
      * split; [unfold setLoading, setExistingMatch, resetForm, addToast; cbn [toasts];
                rewrite length_app; simpl; lia |].
        split; [reflexivity |].
        split; [intros H; discriminate H |].
        intros _; split; [reflexivity |].
        split; [reflexivity |].
        split; [intros _; repeat split |].
        intros Hno; exfalso; apply Hno; exists payload; auto.
      * split; [unfold setLoading, addToast; cbn [toasts]; rewrite length_app; simpl; lia |].
        split; [reflexivity |].
        split; [intros H; discriminate H |].
        intros _; split; [reflexivity |].
        split; [reflexivity |].
        split; [| intros _; repeat split].
        intros (p & Hp & Hs); inversion Hp; subst p; congruence.
Qed.

(** After "Proceed Anyway" enrollment goes on: with the form filled in, a
    non-blank name and a file of a type [uploadSingleImage] lists, the
    submit sends the enrollment request, and that request carries the file
    that raised the modal. *)
Theorem proceed_then_submit_sends_the_file :
  forall (f : File) (s : State),
    file s = Some f ->
    required_missing s = false ->
    blank (name s) = false ->
    includes Api.validTypes (toLowerCase (file_type f)) = true ->
    exists entries,
      requests (handleSubmit as_EnrollmentResponse backend (onProceed s))
      = [mkRequest POST "/api/v1/enroll/image" []
           (FormData (("image", FFile f) :: ("name", FStr (trim (name s))) :: entries))].
Proof.
  intros f s Hfile Hreq Hname Htype.
  unfold handleSubmit.
  replace (required_missing (onProceed s)) with (required_missing s) by reflexivity.
  rewrite Hreq; simpl.
  rewrite Hfile; unfold Api.uploadSingleImage.
  rewrite Hname, Htype; simpl negb; cbv iota.
  eexists.
  apply (guarded_sent _ (fun response => ret (data response))); reflexivity.
Qed.

End EnrollmentPage.

Lemma proceed_then_submit_sends_the_file_witness :
  exists entries,
    UploadPage.requests
      (UploadPage.handleSubmit
         (fun _ => Types.mkEnrollmentResponse true "" 1%float 1%float [])
         (Shapes.answering Js.JNull)
         (EnrollmentFlow.onProceed
            (UploadPage.mkState (Some (Js.mkFile "face.png" "image/png" 2048%float))
               "A" "" "Theft" "" "S" "D" "20-30" false false []
               (Some (Types.mkMatchResult "p1" "B" None 91.5%float None None None None None
                                          None))
               false)))
    = [Client.mkRequest Client.POST "/api/v1/enroll/image" []
         (Client.FormData (("image", Client.FFile (Js.mkFile "face.png" "image/png" 2048%float))
                           :: ("name", Client.FStr (Js.trim "A")) :: entries))].
Proof.
  apply (proceed_then_submit_sends_the_file
           (fun _ => Types.mkEnrollmentResponse true "" 1%float 1%float [])
           (Shapes.answering Js.JNull)
           (Js.mkFile "face.png" "image/png" 2048%float)
           (UploadPage.mkState (Some (Js.mkFile "face.png" "image/png" 2048%float))
               "A" "" "Theft" "" "S" "D" "20-30" false false []
               (Some (Types.mkMatchResult "p1" "B" None 91.5%float None None None None None
                                          None))
               false)); reflexivity.
Defined.

(** ** Editing a criminal: what the update carries *)
Section EditCriminal.
Import Js Client Api Criminal EditCriminalModal EditVocabulary.

Lemma or_else_empty (s : string) : or_else s "" = s.
Proof. destruct s; reflexivity. Qed.

Lemma normalizeValue_Some (v t : string) :
  normalizeValue v = Some t -> t = trim v /\ truthy t = true.
Proof.
  unfold normalizeValue; destruct (truthy (trim v)) eqn:E; [| discriminate].
  intros H; inversion H; subst; auto.
Qed.

Lemma normalizeValue_blank (v : string) :
  truthy (trim v) = false -> normalizeValue v = None.
Proof. intros H; unfold normalizeValue; now rewrite H. Qed.

Lemma changed_Some (v : string) (old : option string) (t : string) :
  changed v old = Some t -> t = trim v /\ truthy t = true.
Proof.
  unfold changed; destruct (differ _ _); [apply normalizeValue_Some | discriminate].
Qed.

Lemma changed_blank (v : string) (old : option string) :
  truthy (trim v) = false -> changed v old = None.
Proof.
  intros H; unfold changed; rewrite (normalizeValue_blank v H).
  now destruct (differ _ _).
Qed.

Lemma differ_same (a : option string) : differ a a = false.
Proof. destruct a; simpl; [now rewrite String.eqb_refl | reflexivity]. Qed.

Lemma changed_same (old : option string) : changed (or_empty old) old = None.
Proof. unfold changed; now rewrite differ_same. Qed.

Lemma defined_entry_In (k : string) (o : option string) (k' : string) (x : field) :
  In (k', x) (defined_entry k o) -> k' = k /\ exists s, o = Some s /\ x = FStr (or_else s "").
Proof.
  destruct o as [s |]; simpl; [| intros []].
  intros [H | []]; inversion H; subst; eauto.
Qed.

Lemma updateCriminal_sent (b : Backend) (personId : string) (u : CriminalUpdate) :
  blank personId = false ->
  sent (updateCriminal personId u b)
  = [mkRequest PUT ("/api/v1/criminals/" ++ trim personId) [] (FormData (entries_of u))].
Proof.
  intros H; unfold updateCriminal; rewrite H.
  apply (guarded_sent _ unwrap); intros resp; apply unwrap_sent.
Qed.

Lemma text_entries (criminal : CriminalResponse) (f : Form) (k v : string) :
  In (k, FStr v) (entries_of (updateData criminal f)) ->
  truthy v = true
  /\ ((k = "name" /\ v = trim (name f))
      \/ (k = "crime_type" /\ v = trim (crimeType f))
      \/ (k = "state" /\ v = trim (state f))
      \/ (k = "district" /\ v = trim (district f))
      \/ (k = "gender" /\ v = trim (gender f))).
Proof.
  unfold entries_of, updateData; cbn [up_name up_crime_type up_state up_district up_gender
                                      up_image].
  rewrite !in_app_iff.
  intros [H | [H | [H | [H | [H | H]]]]].
  - destruct (negb _); [| destruct H].
    destruct (normalizeValue (name f)) as [t |] eqn:E; simpl in H; [| destruct H].
    destruct H as [H | []]; inversion H; subst.
    apply normalizeValue_Some in E as [-> Ht]; auto.
  - apply defined_entry_In in H as (-> & s & E & Hx); inversion Hx; subst.
    apply changed_Some in E as [-> Ht]; rewrite or_else_empty; auto 6.
  - apply defined_entry_In in H as (-> & s & E & Hx); inversion Hx; subst.
    apply changed_Some in E as [-> Ht]; rewrite or_else_empty; auto 7.
  - apply defined_entry_In in H as (-> & s & E & Hx); inversion Hx; subst.
    apply changed_Some in E as [-> Ht]; rewrite or_else_empty; auto 8.
  - apply defined_entry_In in H as (-> & s & E & Hx); inversion Hx; subst.
    apply changed_Some in E as [-> Ht]; rewrite or_else_empty; auto 9.
  - destruct (imageFile f); simpl in H; [| destruct H].
    destruct H as [H | []]; discriminate H.
Qed.

Lemma cleared_entries (criminal : CriminalResponse) (f : Form) (k v : string) (x : field) :
  field_of f k = Some v ->
  truthy (trim v) = false ->
  ~ In (k, x) (entries_of (updateData criminal f)).
Proof.
  intros Hk Hblank Hin.
  unfold entries_of, updateData in Hin;
    cbn [up_name up_crime_type up_state up_district up_gender up_image] in Hin.
  rewrite !in_app_iff in Hin.
  unfold field_of in Hk.
  destruct Hin as [H | [H | [H | [H | [H | H]]]]].
  - destruct (negb _); [| destruct H].
    destruct (normalizeValue (name f)) as [t |] eqn:E; simpl in H; [| destruct H].
    destruct H as [H | []]; inversion H; subst.
    simpl in Hk; inversion Hk; subst.
    now rewrite (normalizeValue_blank _ Hblank) in E.
  - apply defined_entry_In in H as (-> & s & E & _).
    simpl in Hk; inversion Hk; subst.
    now rewrite (changed_blank _ _ Hblank) in E.
  - apply defined_entry_In in H as (-> & s & E & _).
    simpl in Hk; inversion Hk; subst.
    now rewrite (changed_blank _ _ Hblank) in E.
  - apply defined_entry_In in H as (-> & s & E & _).
    simpl in Hk; inversion Hk; subst.
    now rewrite (changed_blank _ _ Hblank) in E.
  - apply defined_entry_In in H as (-> & s & E & _).
    simpl in Hk; inversion Hk; subst.
    now rewrite (changed_blank _ _ Hblank) in E.
  - destruct (imageFile f); simpl in H; [| destruct H].
    destruct H as [H | []]; inversion H; subst.
    simpl in Hk; discriminate Hk.
Qed.

(** Saving the edit form sends one update for the criminal being edited
    (followed by the refresh of the list when it succeeds).  Every text
    entry of that update is the trimmed, non-empty content of its form
    field; a field that was cleared, or holds only blanks, has no entry, so
    the update can replace a value but never remove one. *)
Theorem edit_sends_trimmed_values_and_never_clears :
  forall (b : Backend) (criminal : CriminalResponse) (f : Form) (p : CriminalsPage.State),
    CriminalsPage.editingCriminal p = Some criminal ->
    blank (person_id criminal) = false ->
    exists entries refresh,
      CriminalsPage.requests (snd (fst (handleSubmit b criminal f p)))
      = mkRequest PUT ("/api/v1/criminals/" ++ trim (person_id criminal)) []
                  (FormData entries) :: refresh
      /\ (forall k v, In (k, FStr v) entries ->
            truthy v = true
            /\ exists content, field_of f k = Some content /\ v = trim content)
      /\ (forall k content x, field_of f k = Some content ->
            truthy (trim content) = false -> ~ In (k, x) entries)
      /\ saving (fst (fst (handleSubmit b criminal f p))) = false.
Proof.
  intros b criminal f p Hedit Hid.
  exists (entries_of (updateData criminal f)).
  unfold handleSubmit, CriminalsPage.handleUpdate; rewrite Hedit.
  pose proof (updateCriminal_sent b (person_id criminal) (updateData criminal f) Hid) as Hsent.
  destruct (result (updateCriminal (person_id criminal) (updateData criminal f) b))
    as [error | payload];
    [exists [] | eexists]; (split; [cbn [fst snd CriminalsPage.requests]; rewrite Hsent;
                                   reflexivity |]);
    (split; [| split; [intros k content x; apply cleared_entries | reflexivity]]);
    intros k v Hin; destruct (text_entries criminal f k v Hin) as [Ht Hk];
    (split; [exact Ht |]);
    destruct Hk as [[-> ->] | [[-> ->] | [[-> ->] | [[-> ->] | [-> ->]]]]];
    eexists; split; reflexivity.
Qed.

End EditCriminal.

Lemma edit_sends_trimmed_values_and_never_clears_witness :
  exists entries refresh,
    CriminalsPage.requests
      (snd (fst (EditCriminalModal.handleSubmit (Shapes.answering Js.JNull) Samples.criminal
                                                Samples.editForm Samples.criminalsPage)))
    = Client.mkRequest Client.PUT ("/api/v1/criminals/" ++ Js.trim "P-7") []
                       (Client.FormData entries) :: refresh
    /\ (forall k v, In (k, Client.FStr v) entries ->
          Js.truthy v = true
          /\ exists content, EditVocabulary.field_of Samples.editForm k = Some content
                             /\ v = Js.trim content)
    /\ (forall k content x, EditVocabulary.field_of Samples.editForm k = Some content ->
          Js.truthy (Js.trim content) = false -> ~ In (k, x) entries)
    /\ EditCriminalModal.saving
         (fst (fst (EditCriminalModal.handleSubmit (Shapes.answering Js.JNull)
                      Samples.criminal Samples.editForm Samples.criminalsPage))) = false.
Proof.
  apply (edit_sends_trimmed_values_and_never_clears
           (Shapes.answering Js.JNull) Samples.criminal Samples.editForm
           Samples.criminalsPage); reflexivity.
Defined.

(** In the sample the crime type was cleared and the name changed: the
    update carries the name alone. *)
Example edit_sample_request :
  CriminalsPage.requests
    (snd (fst (EditCriminalModal.handleSubmit (Shapes.failing
                 (Client.mkAxiosError None true "Network Error")) Samples.criminal
                 Samples.editForm Samples.criminalsPage)))
  = [Client.mkRequest Client.PUT "/api/v1/criminals/P-7" []
       (Client.FormData [("name", Client.FStr "Ravi K")])].
Proof. reflexivity. Qed.

Section EditCriminalMore.
Import Js Client Api Criminal EditCriminalModal EditVocabulary.

(** Saving a form that was not touched, for a criminal whose name has no
    blanks around it, still sends an update, with an empty form. *)
Theorem untouched_form_sends_an_empty_update :
  forall (b : Backend) (criminal : CriminalResponse) (ds : list string)
         (p : CriminalsPage.State),
    CriminalsPage.editingCriminal p = Some criminal ->
    blank (person_id criminal) = false ->
    trim (Criminal.name criminal) = Criminal.name criminal ->
    updateData criminal (initial criminal ds)
    = mkCriminalUpdate None None None None None None
    /\ exists refresh,
        CriminalsPage.requests (snd (fst (handleSubmit b criminal (initial criminal ds) p)))
        = mkRequest PUT ("/api/v1/criminals/" ++ trim (person_id criminal)) [] (FormData [])
          :: refresh.
Proof.
  intros b criminal ds p Hedit Hid Hname.
  assert (Hu : updateData criminal (initial criminal ds)
               = mkCriminalUpdate None None None None None None).
  { unfold updateData, initial; cbn [name crimeType state district gender imageFile].
    rewrite !changed_same, or_else_empty, Hname, String.eqb_refl; reflexivity. }
  split; [exact Hu |].
  unfold handleSubmit, CriminalsPage.handleUpdate; rewrite Hedit, Hu.
  pose proof (updateCriminal_sent b (person_id criminal)
                (mkCriminalUpdate None None None None None None) Hid) as Hsent.
  destruct (result (updateCriminal (person_id criminal)
                      (mkCriminalUpdate None None None None None None) b));
    [exists [] | eexists]; cbn [fst snd CriminalsPage.requests]; rewrite Hsent; reflexivity.
Qed.

(** When the districts of the chosen state load, the form is left with a
    district that is one of them, or with none; when they fail to load the
    list is emptied but the chosen district stays. *)
Theorem loaded_districts_hold_the_chosen_one :
  forall (b : Backend) (f : Form),
    let f' := fst (stateEffect b f) in
    (forall dists, truthy (state f) = true ->
        result (Options.getDistrictsByState (state f) b) = inr dists ->
        districts f' = dists /\ (district f' = "" \/ In (district f') dists))
    /\ (forall error, truthy (state f) = true ->
        result (Options.getDistrictsByState (state f) b) = inl error ->
        districts f' = [] /\ district f' = district f)
    /\ (truthy (state f) = false -> districts f' = [] /\ district f' = "")
    /\ name f' = name f /\ crimeType f' = crimeType f /\ state f' = state f
    /\ gender f' = gender f /\ imageFile f' = imageFile f.
Proof.
  intros b f; cbv zeta; unfold stateEffect.
  destruct (truthy (state f)) eqn:Hs.
  - destruct (result (Options.getDistrictsByState (state f) b)) as [error | ds] eqn:Hres;
      cbn [fst name crimeType state district gender imageFile districts].
    + split; [intros dists _ H; discriminate H |].
      split; [intros e _ _; auto |].
      split; [intros H; discriminate H | repeat split].
    + split.
      * intros dists _ H; inversion H; subst dists; split; [reflexivity |].
        destruct (district f) as [| c d] eqn:Hd; [left; reflexivity |].
        cbn [truthy andb].
        destruct (includes ds (String c d)) eqn:Hin; cbn [negb].
        -- right; apply includes_In, Hin.
        -- left; reflexivity.
      * split; [intros e _ H; discriminate H |].
        split; [intros H; discriminate H | repeat split].
  - cbn [fst name crimeType state district gender imageFile districts].
    split; [intros dists H; discriminate H |].
    split; [intros e H; discriminate H |].
    split; [auto | repeat split].
Qed.

End EditCriminalMore.

Lemma untouched_form_sends_an_empty_update_witness :
  EditCriminalModal.updateData Samples.criminal
    (EditCriminalModal.initial Samples.criminal ["Kochi"])
  = Api.mkCriminalUpdate None None None None None None
  /\ exists refresh,
      CriminalsPage.requests
        (snd (fst (EditCriminalModal.handleSubmit (Shapes.answering Js.JNull)
                     Samples.criminal
                     (EditCriminalModal.initial Samples.criminal ["Kochi"])
                     Samples.criminalsPage)))
      = Client.mkRequest Client.PUT ("/api/v1/criminals/" ++ Js.trim "P-7") []
                         (Client.FormData []) :: refresh.
Proof.
  apply (untouched_form_sends_an_empty_update (Shapes.answering Js.JNull) Samples.criminal
           ["Kochi"] Samples.criminalsPage); reflexivity.
Defined.

(** ** The criminals list: pages and refresh *)
Section CriminalsList.
Import Js Client Api CriminalsPage.

Lemma query_sent (b : Backend) (s : State) :
  lt (page s * limit) 0 = false ->
  sent (getCriminals (Some (query s)) b)
  = [mkRequest GET "/api/v1/criminals"
       ([("limit", FNum limit); ("offset", FNum (page s * limit)%float)]
        ++ trimmed_entry "search" (or_undefined (search s))
        ++ trimmed_entry "crime_type" (or_undefined (crimeTypeFilter s))
        ++ trimmed_entry "state" (or_undefined (stateFilter s))
        ++ trimmed_entry "district" (or_undefined (districtFilter s))
        ++ trimmed_entry "gender" (or_undefined (genderFilter s))) NoBody].
Proof.
  intros Hoff; unfold getCriminals, query.
  cbn [opt_get nullish cq_limit cq_offset cq_search cq_crime_type cq_state cq_district
       cq_gender].
  replace (lt limit 1 || gt limit 1000) with false by reflexivity.
  rewrite Hoff.
  apply (guarded_sent _ unwrap); intros resp; apply unwrap_sent.
Qed.

(** A fetch of the list always ends not loading.  "Load more" stays on
    offer exactly when the answer was a list of 20 rows; after a failure,
    a short page or an answer that is no list, [handleLoadMore] changes
    nothing.  Loading more appends to the rows shown and never drops one; a
    reset replaces them; a failure keeps them unless it was a reset.  The
    search and the filters are not touched. *)
Theorem fetch_pages_and_load_more :
  forall (b : Backend) (reset : bool) (s : State),
    let run := fetchCriminals b reset s in
    let call := getCriminals (Some (query s)) b in
    loading (after run) = false
    /\ requests run = sent call
    /\ (hasMore (after run) = true <->
        exists rows, result call = inr (JArr rows) /\ length rows = 20)
    /\ (hasMore (after run) = false -> handleLoadMore (after run) = after run)
    /\ (forall data, result call = inr data ->
        criminals (after run) = (if reset then [] else criminals s) ++ rows_of data)
    /\ (forall error, result call = inl error ->
        criminals (after run) = if reset then [] else criminals s)
    /\ search (after run) = search s
    /\ crimeTypeFilter (after run) = crimeTypeFilter s
    /\ stateFilter (after run) = stateFilter s
    /\ districtFilter (after run) = districtFilter s
    /\ genderFilter (after run) = genderFilter s.
Proof.
  intros b reset s; cbv zeta.
  unfold fetchCriminals.
  set (call := getCriminals (Some (query s)) b); clearbody call.
  assert (Hmore : forall x, hasMore x = false -> handleLoadMore x = x).
  { intros x Hx; unfold handleLoadMore; rewrite Hx, andb_false_r; reflexivity. }
  destruct (result call) as [error | data] eqn:Hres.
  - split; [reflexivity |]. split; [reflexivity |].
    split; [destruct reset; (split; [discriminate | intros (rows & H & _); discriminate H]) |].
    split; [apply Hmore |].
    split; [intros data H; discriminate H |].
    split; [intros e _; destruct reset; reflexivity |].
    destruct reset; repeat split.
  - split; [reflexivity |]. split; [reflexivity |].
    split.
    { replace (hasMore _) with (Nat.eqb (length (rows_of data)) 20)
        by (destruct reset; reflexivity).
      rewrite Nat.eqb_eq; split.
      - intros Hlen; destruct data as [| ? | ? | ? | rows | ?]; try discriminate Hlen.
        exists rows; auto.
      - intros (rows & H & Hlen); inversion H; subst data; exact Hlen. }
    split; [apply Hmore |].
    split; [intros d H; inversion H; subst d; destruct reset; reflexivity |].
    split; [intros e H; discriminate H |].
    destruct reset; repeat split.
Qed.

(** A reset fetch asks for the offset of the page the list was on, not for
    the first rows: it sets the page to 0 but its request carries
    [page * 20] of the render it was called from. *)
Theorem reset_fetch_keeps_the_old_offset :
  forall (b : Backend) (s : State),
    lt (page s * limit) 0 = false ->
    exists filters,
      requests (fetchCriminals b true s)
      = [mkRequest GET "/api/v1/criminals"
           (("limit", FNum 20%float) :: ("offset", FNum (page s * 20)%float) :: filters)
           NoBody]
      /\ page (after (fetchCriminals b true s)) = 0%float.
Proof.
  intros b s Hoff.
  eexists; split.
  - replace (requests (fetchCriminals b true s)) with (sent (getCriminals (Some (query s)) b))
      by reflexivity.
    rewrite (query_sent b s Hoff); reflexivity.
  - unfold fetchCriminals.
    destruct (result (getCriminals (Some (query s)) b)); reflexivity.
Qed.

End CriminalsList.

Lemma reset_fetch_keeps_the_old_offset_witness :
  exists filters,
    CriminalsPage.requests
      (CriminalsPage.fetchCriminals (Shapes.answering (Js.JArr [])) true Samples.criminalsPage)
    = [Client.mkRequest Client.GET "/api/v1/criminals"
         (("limit", Client.FNum 20%float)
          :: ("offset", Client.FNum (CriminalsPage.page Samples.criminalsPage * 20)%float)
          :: filters) Client.NoBody]
    /\ CriminalsPage.page
         (CriminalsPage.after
            (CriminalsPage.fetchCriminals (Shapes.answering (Js.JArr [])) true
                                          Samples.criminalsPage)) = 0%float.
Proof.
  apply (reset_fetch_keeps_the_old_offset (Shapes.answering (Js.JArr []))
                                          Samples.criminalsPage); reflexivity.
Defined.

(** On the third page (page 2) a reset asks for offset 40. *)
Example reset_on_third_page_asks_for_offset_40 :
  CriminalsPage.requests
    (CriminalsPage.fetchCriminals (Shapes.answering (Js.JArr [])) true Samples.criminalsPage)
  = [Client.mkRequest Client.GET "/api/v1/criminals"
       [("limit", Client.FNum 20%float); ("offset", Client.FNum 40%float)] Client.NoBody].
Proof. reflexivity. Qed.

(** ** Card images: presigned URLs and their fallbacks *)
Section CardImages.
Import Js Client Api Criminal Types Cards Shapes.

Lemma checked_cases {A} (call : M A) (checks : list (bool * string)) (otherwise : Prop) :
  checked call checks otherwise -> (exists msg, refused call msg) \/ otherwise.
Proof.
  induction checks as [| [failed msg] rest IH]; cbn [checked]; [auto |].
  destruct failed; [eauto | exact IH].
Qed.

(** A helper accessor makes at most one request, and throws when the
    backend cannot be reached. *)
Lemma helper_one_request (call : M json) (r : Request) (k : AxiosResponse -> M json)
      (own : string) (checks : list (bool * string)) (b : Backend) :
  checked call checks (unguarded call r k own) ->
  length (sent (call b)) <= 1
  /\ (unreachable b -> exists error, result (call b) = inl error).
Proof.
  intros Hc; destruct (checked_cases _ _ _ Hc) as [[msg Hr] | Hu].
  - rewrite (Hr b); simpl; split; [lia | eauto].
  - destruct (Hu b) as (Hs & Hf & _); rewrite Hs; split; [simpl; lia |].
    intros Hb; destruct (Hb r) as [err Herr]; rewrite (Hf err Herr); eauto.
Qed.

Lemma fromImagePath_facts (b : Backend) (imagePath : option string)
      (made : list Request) (said : list Logged) :
  let run := fromImagePath b imagePath made said in
  imageError (after run) = false
  /\ imageLoading (after run) = false
  /\ length (requests run) <= S (length made)
  /\ (unreachable b -> forall path, imagePath = Some path -> truthy path = true ->
      imageUrl (after run) = JStr path)
  /\ ((forall path, imagePath = Some path -> truthy path = false) ->
      imageUrl (after run) = JNull /\ requests run = made).
Proof.
  cbv zeta; unfold fromImagePath.
  destruct imagePath as [path |].
  - destruct (truthy path) eqn:Hp.
    + destruct (helper_one_request _ _ _ _ _ b (getPresignedUrlFromImageUrl_checks path))
        as [Hlen Hfail].
      destruct (result (getPresignedUrlFromImageUrl path b)) as [error | url] eqn:Hres;
        cbn [after requests imageError imageLoading imageUrl];
        (split; [reflexivity |]); (split; [reflexivity |]);
        (split; [rewrite length_app; lia |]); split.
      * intros _ p Hs _; inversion Hs; reflexivity.
      * intros Hall; specialize (Hall path eq_refl); congruence.
      * intros Hb p Hs _; inversion Hs; subst p.
        destruct (Hfail Hb) as [e He].
        congruence.
      * intros Hall; specialize (Hall path eq_refl); congruence.
    + cbn [after requests imageError imageLoading imageUrl].
      split; [reflexivity |]. split; [reflexivity |]. split; [lia |].
      split; [intros _ p Hs Ht; inversion Hs; subst p; congruence | auto].
  - cbn [after requests imageError imageLoading imageUrl].
    split; [reflexivity |]. split; [reflexivity |]. split; [lia |].
    split; [intros _ p Hs; discriminate Hs | auto].
Qed.

(** [loadImage] of a criminal's card never reports an error of its own and
    always ends not loading, after at most two requests.  When the S3 key
    is presigned, that URL is shown and the stored image URL is not asked
    for.  When the backend cannot be reached and the criminal has a stored
    image URL, that stored URL is shown as it is.  Without a key and
    without an image nothing is requested and no URL is set. *)
Theorem card_image_falls_back_to_stored_url :
  forall (b : Backend) (criminal : CriminalResponse),
    let run := loadImage b criminal in
    imageError (after run) = false
    /\ imageLoading (after run) = false
    /\ length (requests run) <= 2
    /\ (forall key url,
          first (s3_paths criminal) = Some key -> truthy key = true ->
          result (getPresignedUrlFromS3Key key b) = inr url ->
          imageUrl (after run) = url
          /\ requests run = sent (getPresignedUrlFromS3Key key b))
    /\ (unreachable b ->
        forall path, first (images criminal) = Some path -> truthy path = true ->
        imageUrl (after run) = JStr path)
    /\ (first (s3_paths criminal) = None -> first (images criminal) = None ->
        imageUrl (after run) = JNull /\ requests run = []).
Proof.
  intros b criminal; cbv zeta; unfold loadImage.
  destruct (first (s3_paths criminal)) as [key |].
  - destruct (truthy key) eqn:Hk.
    + destruct (helper_one_request _ _ _ _ _ b (getPresignedUrlFromS3Key_checks key))
        as [Hlen Hfail].
      destruct (result (getPresignedUrlFromS3Key key b)) as [error | url] eqn:Hres.
      * destruct (fromImagePath_facts b (first (images criminal))
                    (sent (getPresignedUrlFromS3Key key b))
                    [Warned "Failed to get presigned URL from S3 key:" error])
          as (He & Hl & Hn & Hfall & _).
        split; [exact He |]. split; [exact Hl |]. split; [lia |].
        split; [intros k u Hs _ Hu; inversion Hs; subst k; congruence |].
        split; [exact Hfall | intros H; discriminate H].
      * cbn [after requests imageError imageLoading imageUrl].
        split; [reflexivity |]. split; [reflexivity |]. split; [lia |].
        split; [intros k u Hs _ Hu; inversion Hs; subst k;
                rewrite Hres in Hu; inversion Hu; auto |].
        split; [| intros H; discriminate H].
        intros Hb path _ _.
        destruct (Hfail Hb) as [e He].
        congruence.
    + destruct (fromImagePath_facts b (first (images criminal)) [] [])
        as (He & Hl & Hn & Hfall & _).
      split; [exact He |]. split; [exact Hl |]. split; [simpl in Hn; lia |].
      split; [intros k u Hs Ht; inversion Hs; subst k; congruence |].
      split; [exact Hfall | intros H; discriminate H].
  - destruct (fromImagePath_facts b (first (images criminal)) [] [])
      as (He & Hl & Hn & Hfall & Hnone).
    split; [exact He |]. split; [exact Hl |]. split; [simpl in Hn; lia |].
    split; [intros k u Hs; discriminate Hs |].
    split; [exact Hfall |].
    intros _ Himg; apply Hnone; intros path Hp; congruence.
Qed.

(** On mount a match card asks for no presigned URL: its initial state
    already holds [match.image_url], or there is none, and [loadImage]
    returns at once.  Only from a state without a URL does it ask, and then
    a failure leaves the match's own URL. *)
Theorem match_card_asks_nothing_on_mount :
  forall (b : Backend) (m : MatchResult),
    loadMatchImage b m (initialImage m) = mkRun (initialImage m) [] []
    /\ (forall st u error,
          image_url m = Some u -> truthy u = true -> truthy_value (imageUrl st) = false ->
          result (getPresignedUrlFromImageUrl u b) = inl error ->
          imageUrl (after (loadMatchImage b m st)) = JStr u
          /\ imageError (after (loadMatchImage b m st)) = false).
Proof.
  intros b m; split.
  - unfold loadMatchImage, initialImage.
    destruct (image_url m) as [u |]; [| reflexivity].
    destruct u as [| c u]; reflexivity.
  - intros st u error Hu Ht Hst Hres.
    unfold loadMatchImage; rewrite Hu, Ht, Hst; cbn [negb orb].
    rewrite Hres; split; reflexivity.
Qed.

End CardImages.

(** ** The client's errors and the health probe *)
Section ClientErrors.
Import Js Client.

Lemma or_else_truthy (a b : string) : truthy b = true -> truthy (or_else a b) = true.
Proof. intros H; unfold or_else; destruct (truthy a) eqn:E; [exact E | exact H]. Qed.

Lemma or_else_left (a b : string) : truthy a = true -> or_else a b = a.
Proof. intros H; unfold or_else; now rewrite H. Qed.

Lemma or_else_right (a b : string) : truthy a = false -> or_else a b = b.
Proof. intros H; unfold or_else; now rewrite H. Qed.

(** What the interceptor throws for a response of a status other than
    401 and 404: an [ApiError] of that status and body whose message is
    [String] of the value picked. *)
Lemma onResponseError_picks (base : string) (err : AxiosError) (st : Z) (d : json) :
  error_response err = Some (st, d) -> st <> 401%Z -> st <> 404%Z ->
  exists fallback,
    fallback = match st with
               | 400%Z => "Invalid request"
               | 403%Z => "Access forbidden"
               | 500%Z => "Internal server error"
               | 503%Z => "Service temporarily unavailable"
               | _ => "An error occurred"
               end
    /\ onResponseError base err
       = throw_ApiError
           (or_value (or_value (or_value (or_value (prop "error" d) (prop "detail" d))
                                         (prop "message" d))
                               (JStr (error_message err)))
                     (JStr fallback)) st d.
Proof.
  intros H H401 H404; unfold onResponseError; rewrite H.
  eexists; split; [reflexivity |].
  destruct st as [| p | p]; try reflexivity.
  do 10 (try destruct p as [p | p |]); try reflexivity;
    solve [now contradiction H401 | now contradiction H404].
Qed.

(** The message of what the response interceptor throws.  For a 401 and a
    404 it is fixed, whatever the body says.  For every other status it is
    [String] of the first truthy value among the body's [error], [detail]
    and [message], the transport's own text and the default of the status:
    a string as it is, an empty array as the empty string, an array of
    objects as ["[object Object]"]; and when that value cannot be made a
    string, what is thrown is no [ApiError].  When no response came the
    message names the configured base URL and the status is 0. *)
Theorem interceptor_message_precedence :
  forall (base : string) (err : AxiosError),
    (forall d, error_response err = Some (401%Z, d) ->
       onResponseError base err
       = IsApiError (mkApiError "Unauthorized access" (Some 401%Z) (Some d)))
    /\ (forall d, error_response err = Some (404%Z, d) ->
          onResponseError base err
          = IsApiError (mkApiError "Resource not found" (Some 404%Z) (Some d)))
    /\ (forall st d, error_response err = Some (st, d) -> st <> 401%Z -> st <> 404%Z ->
          let fallback := match st with
                          | 400%Z => "Invalid request"
                          | 403%Z => "Access forbidden"
                          | 500%Z => "Internal server error"
                          | 503%Z => "Service temporarily unavailable"
                          | _ => "An error occurred"
                          end in
          let thrown v := onResponseError base err = throw_ApiError v st d in
          (truthy_value (prop "error" d) = true -> thrown (prop "error" d))
          /\ (truthy_value (prop "error" d) = false ->
              truthy_value (prop "detail" d) = true -> thrown (prop "detail" d))
          /\ (truthy_value (prop "error" d) = false ->
              truthy_value (prop "detail" d) = false ->
              truthy_value (prop "message" d) = true -> thrown (prop "message" d))
          /\ (truthy_value (prop "error" d) = false ->
              truthy_value (prop "detail" d) = false ->
              truthy_value (prop "message" d) = false ->
              thrown (JStr (or_else (error_message err) fallback))))
    /\ (forall v st d,
          match to_string v with
          | Some text => throw_ApiError v st d = IsApiError (mkApiError text (Some st) (Some d))
          | None => exists name msg, throw_ApiError v st d = OtherError name msg
          end)
    /\ (forall s, to_string (JStr s) = Some s)
    /\ to_string (JArr []) = Some ""
    /\ (forall fields, assoc "toString" fields = None ->
          to_string (JArr [JObj fields]) = Some "[object Object]")
    /\ (forall fields v, assoc "toString" fields = Some v -> to_string (JObj fields) = None)
    /\ (error_response err = None -> error_request err = true ->
          onResponseError base err
          = IsApiError
              (mkApiError ("Network error: Unable to reach server at " ++ base
                           ++ ". Please ensure the backend is running.")
                          (Some 0%Z) None)).
Proof.
  intros base err.
  split; [intros d H; unfold onResponseError; rewrite H; reflexivity |].
  split; [intros d H; unfold onResponseError; rewrite H; reflexivity |].
  split.
  - intros st d H H401 H404; cbv zeta.
    destruct (onResponseError_picks base err st d H H401 H404) as (fallback & -> & ->).
    split; [| split; [| split]].
    + intros He; now rewrite !(or_value_truthy (prop "error" d)) by exact He.
    + intros He Hd; rewrite (or_value_falsy (prop "error" d)) by exact He.
      now rewrite !(or_value_truthy (prop "detail" d)) by exact Hd.
    + intros He Hd Hm; rewrite (or_value_falsy (prop "error" d)) by exact He.
      rewrite (or_value_falsy (prop "detail" d)) by exact Hd.
      now rewrite !(or_value_truthy (prop "message" d)) by exact Hm.
    + intros He Hd Hm; rewrite (or_value_falsy (prop "error" d)) by exact He.
      rewrite (or_value_falsy (prop "detail" d)) by exact Hd.
      rewrite (or_value_falsy (prop "message" d)) by exact Hm.
      unfold or_value, or_else; cbn [truthy_value].
      destruct (truthy (error_message err)); reflexivity.
  - split.
    { intros v st d; unfold throw_ApiError; destruct (to_string v); eauto. }
    split; [reflexivity |]. split; [reflexivity |].
    split; [intros fields H; cbn; now rewrite H |].
    split; [intros fields v H; cbn; now rewrite H |].
    intros H Hr; unfold onResponseError; now rewrite H, Hr.
Qed.

(** A 500 whose body says [{"error": []}]: the empty array is truthy, so
    it is the message, and [String] of it is empty. *)
Example interceptor_empty_message :
  onResponseError "http://localhost:8000"
                  (mkAxiosError (Some (500%Z, JObj [("error", JArr [])])) true
                                "Request failed with status code 500")
  = IsApiError (mkApiError "" (Some 500%Z) (Some (JObj [("error", JArr [])]))).
Proof. reflexivity. Qed.

(** A number as the message: [String] of it. *)
Example interceptor_number_message :
  onResponseError "http://localhost:8000"
                  (mkAxiosError (Some (500%Z, JObj [("error", JNum 0.1%float)])) true
                                "Request failed with status code 500")
  = IsApiError (mkApiError "0.1" (Some 500%Z) (Some (JObj [("error", JNum 0.1%float)]))).
Proof. vm_compute. reflexivity. Qed.

End ClientErrors.

(** ** The health probe *)
Section HealthProbe.
Import Js Client.

(** [testBackendConnection] sends the one request [GET /health] and
    reports instead of throwing.  When the transport answers, the report is
    a success carrying the body.  When it fails, the report's message is
    the message of what the interceptor threw, and the fallback text when
    that message is empty; the diagnostic names the base URL and carries
    the [data] of the failed response's body when that is truthy, the
    message of what was thrown otherwise. *)
Theorem health_probe_reports_the_interceptor_message :
  forall b : Backend,
    let probe := mkRequest GET "/health" [] NoBody in
    let report := fst (Health.testBackendConnection b) in
    let note := "This is a diagnostic check. Alerts functionality may still work." in
    snd (Health.testBackendConnection b) = [probe]
    /\ (forall resp, transport b probe = inr resp ->
          report = Health.mkReport true "Backend is reachable" (Health.Body (data resp)))
    /\ (forall err, transport b probe = inl err ->
          Health.success report = false
          /\ match onResponseError (API_BASE_URL b) err with
             | IsApiError e =>
                 (truthy (message e) = true -> Health.message report = message e)
                 /\ (message e = "" ->
                     Health.message report = "Health check failed (alerts may still work)")
                 /\ Health.details report
                    = Health.Diagnostic (API_BASE_URL b)
                        (match response e with
                         | Some d => if truthy_value (get_data d) then get_data d
                                     else JStr (message e)
                         | None => JStr (message e)
                         end)
                        note
             | OtherError _ text =>
                 Health.message report
                 = or_else text "Health check failed (alerts may still work)"
                 /\ Health.details report
                    = Health.Diagnostic (API_BASE_URL b) (JStr text) note
             end).
Proof.
  intros b; cbv zeta.
  unfold Health.testBackendConnection, send.
  destruct (transport b (mkRequest GET "/health" [] NoBody)) as [err | resp] eqn:Ht.
  - split; [reflexivity |].
    split; [intros resp H; discriminate H |].
    intros err' H; inversion H; subst err'; clear H.
    cbn [fst snd result sent Health.success Health.message Health.details].
    split; [reflexivity |].
    destruct (onResponseError (API_BASE_URL b) err) as [e | name text];
      cbn [UploadPage.error_message_of Health.response_data].
    + split; [intros Hm; apply or_else_left, Hm |].
      split; [intros ->; reflexivity |].
      unfold or_value; destruct (response e) as [d |]; reflexivity.
    + split; reflexivity.
  - split; [reflexivity |].
    split; [intros resp' H; inversion H; reflexivity | intros err H; discriminate H].
Qed.

(** The probe against a server that answers 500 with [{"error": []}]: the
    interceptor's message is empty and the report falls back to its own
    text. *)
Example health_probe_falls_back_on_an_empty_message :
  Health.message
    (fst (Health.testBackendConnection
            (Shapes.failing (mkAxiosError (Some (500%Z, JObj [("error", JArr [])])) true
                                          "Request failed with status code 500"))))
  = "Health check failed (alerts may still work)".
Proof. reflexivity. Qed.

End HealthProbe.

(** ** The alerts page: refresh, detail view, status clicks *)
Section AlertsList.
Import Js Client Api Types JsMore AlertsPage Shapes.
Local Open Scope api_scope.

Variable as_alerts : json -> list AlertResponse.
Variable as_alert : json -> AlertResponse.
Variable backend : Backend.

(** The query of the page's refresh: limit 100, offset 0, and the status
    filter when one is set. *)
Lemma fetch_call (s : State) :
  getAlerts (Some (mkAlertsQueryParams (statusFilter s) (Some 100%float) (Some 0%float)))
  = try_catch
      (response <- send (mkRequest GET "/api/v1/alerts"
                           ([("limit", FNum 100%float); ("offset", FNum 0%float)]
                            ++ match statusFilter s with
                               | Some x => if truthy x then [("status", FStr x)] else []
                               | None => []
                               end) NoBody) ;;
       unwrap response)
      (rethrow_or "Failed to retrieve alerts").
Proof.
  unfold getAlerts; cbn [opt_get nullish aq_limit aq_offset aq_status].
  replace (lt 100 1 || gt 100 1000) with false by reflexivity.
  replace (lt 0 0) with false by reflexivity.
  reflexivity.
Qed.

Lemma unwrap_never_ApiError (resp : AxiosResponse) (b : Backend) (e : ApiError) :
  result (unwrap resp b) <> inl (IsApiError e).
Proof.
  unfold unwrap.
  destruct (truthy_value (data resp)); [| discriminate].
  unfold bind.
  destruct (data resp) as [| v | n | x | items | fields]; simpl; try discriminate.
  destruct (assoc "data" fields); simpl; discriminate.
Qed.

Lemma fetch_sent (closure s : State) :
  requests (fetchAlerts as_alerts backend closure s)
  = [mkRequest GET "/api/v1/alerts"
       ([("limit", FNum 100%float); ("offset", FNum 0%float)]
        ++ match statusFilter closure with
           | Some x => if truthy x then [("status", FStr x)] else []
           | None => []
           end) NoBody].
Proof.
  unfold fetchAlerts.
  replace (requests _) with
    (sent (getAlerts (Some (mkAlertsQueryParams (statusFilter closure) (Some 100%float)
                                                (Some 0%float))) backend))
    by (destruct (result _); reflexivity).
  rewrite fetch_call.
  apply (guarded_sent _ unwrap); intros resp; apply unwrap_sent.
Qed.

(** The list after a fetch: the payload when there is one, and on a
    failure the list on screen, or none when the render the function
    comes from had none. *)
Lemma fetch_alerts (closure s : State) :
  alerts (after (fetchAlerts as_alerts backend closure s))
  = match result (getAlerts (Some (mkAlertsQueryParams (statusFilter closure)
                                                       (Some 100%float) (Some 0%float)))
                            backend) with
    | inr data => if truthy_value data then as_alerts data else []
    | inl _ => match alerts closure with [] => [] | _ :: _ => alerts s end
    end.
Proof. unfold fetchAlerts; destruct (result _); reflexivity. Qed.

Lemma kept_alerts (s : State) :
  match alerts s with [] => [] | _ :: _ => alerts s end = alerts s.
Proof. destruct (alerts s); reflexivity. Qed.

(** A fetch always sends the one listing request (limit 100, offset 0, the
    status filter of the render the function comes from, if set) and ends
    not loading.  When the request fails, the alerts on screen are kept if
    that render had any and are cleared if it had none: the Refresh button
    and the table call the function of the render on screen, which keeps
    the list, while an event of the realtime subscription made on mount
    calls the function of the first render, whose list is empty, and
    clears a loaded list.  A failure without a response is recorded as a
    connection error, and the red card is shown when the list is then
    empty; a 401 or a 404 records nothing and shows nothing. *)
Theorem failed_refresh_keeps_alerts_and_flags_network_errors :
  forall (closure s : State) (err : AxiosError),
    (forall r, transport backend r = inl err) ->
    let run := fetchAlerts as_alerts backend closure s in
    alerts (after run) = match alerts closure with [] => [] | _ :: _ => alerts s end
    /\ alerts (after (refresh as_alerts backend s)) = alerts s
    /\ (alerts closure = [] -> alerts (after (realtime as_alerts backend closure s)) = [])
    /\ loading (after run) = false
    /\ length (requests run) = 1
    /\ (error_response err = None -> error_request err = true ->
          connectionError (after run)
          = Some ("Network error: Unable to reach server at " ++ API_BASE_URL backend
                  ++ ". Please ensure the backend is running.")%string
          /\ bannerShown (after run) = Nat.eqb (length (alerts (after run))) 0)
    /\ (forall d, error_response err = Some (401%Z, d)
                  \/ error_response err = Some (404%Z, d) ->
          connectionError (after run) = None /\ bannerShown (after run) = false).
Proof.
  intros closure s err Hdown; cbv zeta.
  assert (Hfail : forall c,
             result (getAlerts (Some (mkAlertsQueryParams (statusFilter c) (Some 100%float)
                                                          (Some 0%float))) backend)
             = inl (rethrown "Failed to retrieve alerts"
                             (onResponseError (API_BASE_URL backend) err))).
  { intros c; rewrite fetch_call.
    apply (guarded_failure _ unwrap _ backend err (Hdown _)). }
  split; [rewrite fetch_alerts, Hfail; reflexivity |].
  split; [unfold refresh; rewrite fetch_alerts, Hfail; apply kept_alerts |].
  split; [intros Hnone; unfold realtime; rewrite fetch_alerts, Hfail, Hnone; reflexivity |].
  pose proof (fetch_sent closure s) as Hsent.
  unfold fetchAlerts in *; rewrite Hfail in *.
  cbn [after requests alerts loading connectionError] in *.
  split; [reflexivity |].
  split; [rewrite Hsent; reflexivity |].
  split.
  - intros Hresp Hreq.
    unfold onResponseError; rewrite Hresp, Hreq.
    cbn [rethrown UploadPage.error_message_of message].
    replace (contains _ "Network error") with true by reflexivity.
    cbn [orb]; split; [reflexivity |].
    unfold bannerShown; cbn [connectionError alerts loading negb truthy append].
    now rewrite andb_true_r.
  - intros d [Hresp | Hresp]; unfold onResponseError; rewrite Hresp;
      cbn [rethrown UploadPage.error_message_of message]; split; reflexivity.
Qed.

(** "View" always ends with a decision on the detail card and never
    changes the list.  When the alert cannot be fetched, be it for a blank
    id (nothing is asked then) or because the request fails, the row's own
    alert is shown; when it is fetched, the fetched one is shown, a falsy
    payload showing nothing. *)
Theorem view_falls_back_to_the_row_alert :
  forall (alert : AlertResponse) (s : State),
    let run := handleViewAlert as_alert backend alert s in
    alerts (after run) = alerts s
    /\ connectionError (after run) = connectionError s
    /\ (blank (alert_id alert) = true ->
          selectedAlert (after run) = Some alert /\ requests run = [])
    /\ (forall error, result (getAlert (alert_id alert) backend) = inl error ->
          selectedAlert (after run) = Some alert)
    /\ (forall payload, result (getAlert (alert_id alert) backend) = inr payload ->
          requests run = [mkRequest GET ("/api/v1/alerts/" ++ alert_id alert) [] NoBody]
          /\ selectedAlert (after run)
             = if truthy_value payload then Some (as_alert payload) else None).
Proof.
  intros alert s; cbv zeta; unfold handleViewAlert.
  split; [reflexivity |]. split; [reflexivity |].
  split; [| split].
  - intros Hblank; unfold getAlert; rewrite Hblank; split; reflexivity.
  - intros error Hres; cbn [after selectedAlert]; now rewrite Hres.
  - intros payload Hres; cbn [after selectedAlert requests]; rewrite Hres.
    split; [| reflexivity].
    revert Hres; unfold getAlert.
    destruct (blank (alert_id alert)); [intros H; discriminate H | intros _].
    apply (guarded_sent _ unwrap); intros resp; apply unwrap_sent.
Qed.

Lemma rethrown_is_ApiError (own : string) (x : exn) :
  exists e, rethrown own x = IsApiError e.
Proof. destruct x; cbn; unfold new_ApiError; eauto. Qed.

(** Past its two checks [updateAlertStatus] is the one guarded [PUT]. *)
Lemma update_call (alertId status : string) :
  blank alertId = false ->
  includes validStatuses status = true ->
  guarded (updateAlertStatus alertId status)
          (mkRequest PUT ("/api/v1/alerts/" ++ alertId ++ "/status") []
                     (JsonBody [("status", FStr status)]))
          unwrap "Failed to update alert status".
Proof.
  intros Hid Hstatus; unfold updateAlertStatus; rewrite Hid, Hstatus; cbn [negb].
  apply guarded_tail; intros b resp; apply unwrap_sent.
Qed.

Lemma update_throws_ApiError (alertId status : string) (error : exn) :
  blank alertId = false ->
  includes validStatuses status = true ->
  result (updateAlertStatus alertId status backend) = inl error ->
  exists e, error = IsApiError e.
Proof.
  intros Hid Hstatus Hres.
  destruct (update_call alertId status Hid Hstatus backend) as (_ & Hfail & Hok).
  destruct (transport backend
              (mkRequest PUT ("/api/v1/alerts/" ++ alertId ++ "/status") []
                         (JsonBody [("status", FStr status)]))) as [err | resp].
  - rewrite (Hfail err eq_refl) in Hres; injection Hres as <-.
    apply rethrown_is_ApiError.
  - rewrite (Hok resp eq_refl) in Hres.
    destruct (result (unwrap resp backend)); [| discriminate Hres].
    injection Hres as <-; apply rethrown_is_ApiError.
Qed.

(** What a click on Verify or Reject does, by the outcome of the update. *)
Lemma statusClick_cases (alertId status : string) (t : AlertsTable.State) (s : State) :
  truthy alertId = true -> truthy status = true ->
  statusClick as_alerts backend alertId status t s
  = match result (updateAlertStatus alertId status backend) with
    | inr _ =>
        (AlertsTable.mkState None None,
         mkRun (after (refresh as_alerts backend s))
               (sent (updateAlertStatus alertId status backend)
                ++ requests (refresh as_alerts backend s)))
    | inl err =>
        (AlertsTable.mkState None
           (Some match err with
                 | IsApiError e => message e
                 | OtherError _ _ => "Failed to update alert status"
                 end),
         mkRun s (sent (updateAlertStatus alertId status backend)))
    end.
Proof.
  intros Ha Hs; unfold statusClick, AlertsTable.handleStatusUpdate.
  rewrite Ha, Hs; cbn [negb orb].
  destruct (result (updateAlertStatus alertId status backend)); reflexivity.
Qed.

Lemma not_blank_truthy (x : string) : blank x = false -> truthy x = true.
Proof. destruct x; [discriminate | reflexivity]. Qed.

Lemma valid_status_truthy (status : string) :
  includes validStatuses status = true -> truthy status = true.
Proof. destruct status; [discriminate | reflexivity]. Qed.

(** A click on Verify or Reject for an alert with an id, when the backend
    takes the update, is followed by a refresh of the list: the [PUT] of
    the status, then the listing request.  When the update fails nothing
    is fetched, the page is left as it was, and the table's error is the
    message of the [ApiError] thrown; for a failed request that is the
    error of the response interceptor, as the accessor's [catch] clause
    passes it on. *)
Theorem status_click_updates_then_refreshes :
  forall (alertId status : string) (t : AlertsTable.State) (s : State),
    blank alertId = false ->
    includes validStatuses status = true ->
    let click := statusClick as_alerts backend alertId status t s in
    let put := mkRequest PUT ("/api/v1/alerts/" ++ alertId ++ "/status") []
                         (JsonBody [("status", FStr status)]) in
    AlertsTable.updating (fst click) = None
    /\ (forall payload, result (updateAlertStatus alertId status backend) = inr payload ->
          requests (snd click) = put :: requests (refresh as_alerts backend s)
          /\ length (requests (snd click)) = 2
          /\ after (snd click) = after (refresh as_alerts backend s)
          /\ AlertsTable.error (fst click) = None)
    /\ (forall error, result (updateAlertStatus alertId status backend) = inl error ->
          requests (snd click) = [put]
          /\ after (snd click) = s
          /\ exists e, error = IsApiError e
                       /\ AlertsTable.error (fst click) = Some (message e))
    /\ (forall err, transport backend put = inl err ->
          result (updateAlertStatus alertId status backend)
          = inl (rethrown "Failed to update alert status"
                          (onResponseError (API_BASE_URL backend) err))).
Proof.
  intros alertId status t s Hid Hstatus; cbv zeta.
  destruct (update_call alertId status Hid Hstatus backend) as (Hsent & Hfail & _).
  rewrite (statusClick_cases alertId status t s (not_blank_truthy _ Hid)
                             (valid_status_truthy _ Hstatus)).
  destruct (result (updateAlertStatus alertId status backend)) as [error | payload] eqn:Hres;
    cbn [fst snd requests after AlertsTable.updating AlertsTable.error].
  - split; [reflexivity |].
    split; [intros p H; discriminate H |].
    split; [| exact Hfail].
    intros e He; injection He as <-.
    split; [exact Hsent |]. split; [reflexivity |].
    destruct (update_throws_ApiError alertId status error Hid Hstatus Hres) as [e ->].
    exists e; split; reflexivity.
  - split; [reflexivity |].
    split; [| split; [intros e H; discriminate H | exact Hfail]].
    intros p _; rewrite Hsent.
    split; [reflexivity |].
    split; [cbn [app length]; unfold refresh; rewrite fetch_sent; reflexivity |].
    split; reflexivity.
Qed.

(** C3, as the code has it.  The table renders only a list whose every
    status is Pending, Verified or Rejected; it then has one row for each
    alert, in order.  A row has the Verify and Reject buttons exactly when
    its alert's status is the string "Pending", so the only status changes
    the table asks for are Pending to Verified and Pending to Rejected.
    After a click on one of them the page shows what a refresh gave it:
    when the update fails, or succeeds and the refresh fails, the list on
    screen is kept; when both succeed the list is the payload.  In the
    table rendered then, the buttons of the alert are gone exactly when
    the list holds no pending alert of that id. *)
Theorem status_actions_only_when_pending :
  forall (p : AlertsTable.Props) (t : AlertsTable.State),
    (AlertsTable.render p t <> None <->
     forall alert, In alert (AlertsTable.alerts p) ->
                   In (Types.status alert) ["Pending"; "Verified"; "Rejected"])
    /\ (forall rs, AlertsTable.render p t = Some rs ->
          map AlertsTable.row_alert rs = AlertsTable.alerts p
          /\ forall row, In row rs ->
               let alert := AlertsTable.row_alert row in
               filter AlertsTable.changesStatus (AlertsTable.row_buttons row)
               = (if String.eqb (Types.status alert) "Pending"
                  then [AlertsTable.mkButton
                          "Verify" (AlertsTable.HandleStatusUpdate (alert_id alert) "Verified")
                          (AlertsTable.is_updating t alert);
                        AlertsTable.mkButton
                          "Reject" (AlertsTable.HandleStatusUpdate (alert_id alert) "Rejected")
                          (AlertsTable.is_updating t alert)]
                  else [])
               /\ (Types.status alert = "Pending" <->
                   exists b, In b (AlertsTable.row_buttons row)
                             /\ AlertsTable.changesStatus b = true))
    /\ (forall from to,
          In (from, to) (AlertsTable.offeredTransitions p t) <->
          AlertsTable.render p t <> None
          /\ from = "Pending" /\ (to = "Verified" \/ to = "Rejected")
          /\ exists alert, In alert (AlertsTable.alerts p) /\ Types.status alert = "Pending")
    /\ (forall (s : State) (alert : AlertResponse) (target : string),
          In alert (alerts s) ->
          Types.status alert = "Pending" ->
          blank (alert_id alert) = false ->
          target = "Verified" \/ target = "Rejected" ->
          let click := statusClick as_alerts backend (alert_id alert) target t s in
          let update := updateAlertStatus (alert_id alert) target backend in
          let listed :=
            getAlerts (Some (mkAlertsQueryParams (statusFilter s) (Some 100%float)
                                                 (Some 0%float))) backend in
          (forall error, result update = inl error -> alerts (after (snd click)) = alerts s)
          /\ (forall payload error,
                result update = inr payload -> result listed = inl error ->
                alerts (after (snd click)) = alerts s)
          /\ (forall payload data,
                result update = inr payload -> result listed = inr data ->
                alerts (after (snd click))
                = if truthy_value data then as_alerts data else [])
          /\ (forall rs,
                AlertsTable.render (table (after (snd click))) (fst click) = Some rs ->
                (AlertsTable.statusButtonsFor (alert_id alert) rs = [] <->
                 forall a, In a (alerts (after (snd click))) ->
                           alert_id a = alert_id alert -> Types.status a <> "Pending"))).
Proof.
  intros p t.
  split; [apply (proj1 (rows_spec p t (AlertsTable.alerts p))) |].
  split.
  { intros rs Hr.
    destruct (proj2 (rows_spec p t (AlertsTable.alerts p)) rs Hr) as [Hmap Hrows].
    split; [exact Hmap |].
    intros row Hin; cbv zeta.
    destruct (Hrows row Hin) as [Hb _].
    assert (Hf : filter AlertsTable.changesStatus (AlertsTable.row_buttons row)
                 = AlertsTable.statusButtons t (AlertsTable.row_alert row))
      by (rewrite Hb; apply rowButtons_split).
    split; [rewrite Hf; reflexivity |].
    split.
    - intros Hs.
      exists (AlertsTable.mkButton
                "Verify"
                (AlertsTable.HandleStatusUpdate (alert_id (AlertsTable.row_alert row))
                                                "Verified")
                (AlertsTable.is_updating t (AlertsTable.row_alert row))).
      split; [| reflexivity].
      apply (proj1 (filter_In AlertsTable.changesStatus _ _)).
      rewrite Hf, (statusButtons_pending t _ Hs); left; reflexivity.
    - intros (b & Hbin & Hbc).
      assert (Hin' : In b (AlertsTable.statusButtons t (AlertsTable.row_alert row)))
        by (rewrite <- Hf; apply filter_In; auto).
      destruct (String.eqb_spec (Types.status (AlertsTable.row_alert row)) "Pending")
        as [E | NE]; [exact E |].
      rewrite (statusButtons_other t _ NE) in Hin'; destruct Hin'. }
  split; [intros from to; apply offered_spec |].
  intros s alert target Hin Hpending Hid Htarget; cbv zeta.
  assert (Hvalid : includes validStatuses target = true)
    by (destruct Htarget as [-> | ->]; reflexivity).
  rewrite (statusClick_cases (alert_id alert) target t s (not_blank_truthy _ Hid)
                             (valid_status_truthy _ Hvalid)).
  destruct (result (updateAlertStatus (alert_id alert) target backend))
    as [error | payload];
    cbn [fst snd after].
  - split; [reflexivity |].
    split; [intros ? ? H; discriminate H |].
    split; [intros ? ? H; discriminate H |].
    intros rs Hr; apply (statusButtonsFor_nil _ _ _ _ rs Hr).
  - split; [intros ? H; discriminate H |].
    split; [intros ? error _ Hl; unfold refresh; rewrite fetch_alerts, Hl;
            apply kept_alerts |].
    split; [intros ? data _ Hl; unfold refresh; rewrite fetch_alerts, Hl; reflexivity |].
    intros rs Hr; apply (statusButtonsFor_nil _ _ _ _ rs Hr).
Qed.

End AlertsList.

(** C3 as stated fails on "after a successful update the buttons
    disappear": the backend records the change of [a1] to Verified and
    then cannot be reached for the list.  The click sends the [PUT] and the
    listing request, the list on screen is kept, and the table still shows
    [a1] as Pending with its View, Verify and Reject buttons. *)
Lemma verified_alert_keeps_its_buttons_when_the_refresh_fails :
  Client.result (Api.updateAlertStatus "a1" "Verified" AlertSamples.recordingOnly)
  = inr AlertSamples.verified
  /\ AlertsTable.render
       (AlertsPage.table
          (AlertsPage.after
             (snd (AlertsPage.statusClick AlertSamples.read_alerts AlertSamples.recordingOnly
                     "a1" "Verified" (AlertsTable.mkState None None) AlertSamples.loaded))))
       (fst (AlertsPage.statusClick AlertSamples.read_alerts AlertSamples.recordingOnly
               "a1" "Verified" (AlertsTable.mkState None None) AlertSamples.loaded))
     = Some [AlertsTable.mkRow
               AlertSamples.pendingAlert
               (AlertsTable.mkBadge "secondary" "Clock" "text-yellow-500" "Pending")
               [AlertsTable.mkButton "View" (AlertsTable.HandleView AlertSamples.pendingAlert)
                                     false;
                AlertsTable.mkButton "Verify" (AlertsTable.HandleStatusUpdate "a1" "Verified")
                                     false;
                AlertsTable.mkButton "Reject" (AlertsTable.HandleStatusUpdate "a1" "Rejected")
                                     false]]
  /\ length (AlertsPage.requests
               (snd (AlertsPage.statusClick AlertSamples.read_alerts
                       AlertSamples.recordingOnly "a1" "Verified"
                       (AlertsTable.mkState None None) AlertSamples.loaded))) = 2.
Proof. repeat split. Qed.

(** With a backend that lists the alert as Verified the buttons go. *)
Example verified_alert_loses_its_buttons_when_the_refresh_lists_it :
  AlertsTable.render
    (AlertsPage.table
       (AlertsPage.after
          (snd (AlertsPage.statusClick AlertSamples.read_alerts AlertSamples.recording
                  "a1" "Verified" (AlertsTable.mkState None None) AlertSamples.loaded))))
    (AlertsTable.mkState None None)
  = Some [AlertsTable.mkRow
            (AlertsTable.withStatus "Verified" AlertSamples.pendingAlert)
            (AlertsTable.mkBadge "default" "CheckCircle2" "text-green-500" "Verified")
            [AlertsTable.mkButton
               "View"
               (AlertsTable.HandleView
                  (AlertsTable.withStatus "Verified" AlertSamples.pendingAlert))
               false]].
Proof. reflexivity. Qed.

(** The page mounts, loads one alert, and the backend goes down.  An event
    of the realtime subscription, which holds the [fetchAlerts] of the
    first render, clears the list and shows the red card; the Refresh
    button keeps the list. *)
Lemma failed_refresh_keeps_alerts_and_flags_network_errors_witness :
  AlertsPage.alerts
    (AlertsPage.after
       (AlertsPage.realtime AlertSamples.read_alerts AlertSamples.down
                            AlertSamples.mounted AlertSamples.loaded))
  = []
  /\ AlertsPage.bannerShown
       (AlertsPage.after
          (AlertsPage.fetchAlerts AlertSamples.read_alerts AlertSamples.down
                                  AlertSamples.mounted AlertSamples.loaded))
     = true
  /\ AlertsPage.alerts
       (AlertsPage.after
          (AlertsPage.refresh AlertSamples.read_alerts AlertSamples.down AlertSamples.loaded))
     = [AlertSamples.pendingAlert].
Proof.
  destruct (failed_refresh_keeps_alerts_and_flags_network_errors
              AlertSamples.read_alerts AlertSamples.down
              AlertSamples.mounted AlertSamples.loaded
              (Client.mkAxiosError None true "Network Error")
              (fun r => eq_refl)) as (_ & H2 & H3 & _ & _ & H6 & _).
  exact (conj (H3 eq_refl) (conj (proj2 (H6 eq_refl eq_refl)) H2)).
Defined.

(** A click on Verify for the loaded alert, the backend recording it and
    listing it as Verified: two requests, and the list is the payload. *)
Lemma status_click_updates_then_refreshes_witness :
  length (AlertsPage.requests
            (snd (AlertsPage.statusClick AlertSamples.read_alerts AlertSamples.recording
                    "a1" "Verified" (AlertsTable.mkState None None) AlertSamples.loaded)))
  = 2
  /\ AlertsPage.after
       (snd (AlertsPage.statusClick AlertSamples.read_alerts AlertSamples.recording
               "a1" "Verified" (AlertsTable.mkState None None) AlertSamples.loaded))
     = AlertsPage.after
         (AlertsPage.refresh AlertSamples.read_alerts AlertSamples.recording
                             AlertSamples.loaded).
Proof.
  destruct (status_click_updates_then_refreshes
              AlertSamples.read_alerts AlertSamples.recording "a1" "Verified"
              (AlertsTable.mkState None None) AlertSamples.loaded
              eq_refl eq_refl) as (_ & Hok & _).
  destruct (Hok AlertSamples.verified eq_refl) as (_ & H2 & H3 & _).
  exact (conj H2 H3).
Defined.

(** ** The face matching page *)
Section MatchSearch.
Import Js Client Api Types MatchPage.
Local Open Scope api_scope.

Variable as_MatchResponse : json -> MatchResponse.
Variable backend : Backend.

(** [matchFace] as the page calls it: five results, no sender. *)
Lemma matchFace_from_page (f : File) (t : number) (c : bool) :
  matchFace (Some f) (Some 5%float) (Some t) (Some c) None
  = if lt t 0 || gt t 100 then
      throw (new_ApiError "similarityThreshold must be between 0 and 100" 400)
    else
      try_catch
        (response <- send (mkRequest POST "/api/v1/match" []
                             (FormData [("image", FFile f);
                                        ("max_results", FNum 5%float);
                                        ("similarity_threshold", FNum t);
                                        ("create_alert", FBool c)])) ;;
         ret (data response))
        (rethrow_or "Failed to match face").
Proof.
  unfold matchFace; cbn [nullish].
  replace (lt 5 1 || gt 5 100) with false by reflexivity.
  destruct (lt t 0 || gt t 100); reflexivity.
Qed.

Lemma one_more_toast (t : Toast) (s : State) :
  length (toasts (addToast t s)) = S (length (toasts s)).
Proof. unfold addToast; cbn [toasts]; rewrite length_app; simpl; lia. Qed.

(** A search adds exactly one toast and leaves the file, the threshold and
    the alert box alone.  Without a file nothing is asked.  With a file the
    page ends not loading; a threshold outside 0..100 is refused before any
    request, with the accessor's message as the toast and no result; any
    other threshold gives the one request, for at most 5 results, carrying
    the threshold and the alert box as they are on the page. *)
Theorem match_search_asks_for_five_with_the_page_settings :
  forall (s : State),
    let run := handleMatch as_MatchResponse backend s in
    let t := similarityThreshold s in
    length (toasts (after run)) = S (length (toasts s))
    /\ file (after run) = file s
    /\ similarityThreshold (after run) = t
    /\ createAlert (after run) = createAlert s
    /\ (file s = None ->
          requests run = [] /\ loading (after run) = loading s
          /\ result (after run) = result s)
    /\ (forall f, file s = Some f ->
          loading (after run) = false
          /\ (lt t 0 || gt t 100 = true ->
                requests run = [] /\ result (after run) = None
                /\ toasts (after run)
                   = toasts s
                     ++ [mkToast "Error"
                           (Plain "similarityThreshold must be between 0 and 100")
                           "error"])
          /\ (lt t 0 || gt t 100 = false ->
                requests run
                = [mkRequest POST "/api/v1/match" []
                     (FormData [("image", FFile f);
                                ("max_results", FNum 5%float);
                                ("similarity_threshold", FNum t);
                                ("create_alert", FBool (createAlert s))])])).
Proof.
  intros s; cbv zeta; unfold handleMatch.
  destruct (file s) as [f |] eqn:Hf.
  - rewrite matchFace_from_page.
    destruct (lt (similarityThreshold s) 0 || gt (similarityThreshold s) 100) eqn:Hrange.
    + cbn [throw Client.result sent after requests].
      split; [cbn [setLoading toasts]; rewrite one_more_toast; reflexivity |].
      split; [cbn; exact Hf |].
      split; [reflexivity |]. split; [reflexivity |].
      split; [intros H; discriminate H |].
      intros f' _; split; [reflexivity |].
      split; [intros _; repeat split | intros H; discriminate H].
    + set (call := try_catch _ _ backend).
      assert (Hsent : sent call
                      = [mkRequest POST "/api/v1/match" []
                           (FormData [("image", FFile f);
                                      ("max_results", FNum 5%float);
                                      ("similarity_threshold", FNum (similarityThreshold s));
                                      ("create_alert", FBool (createAlert s))])]).
      { apply (guarded_sent _ (fun response => ret (data response))); reflexivity. }
      clearbody call.
      destruct (Client.result call) as [error | payload].
      * cbn [after requests].
        split; [cbn [setLoading toasts]; rewrite one_more_toast; reflexivity |].
        split; [cbn; exact Hf |].
        split; [reflexivity |]. split; [reflexivity |].
        split; [intros H; discriminate H |].
        intros f' Hf'; inversion Hf'; subst f'.
        split; [reflexivity |].
        split; [intros H; discriminate H | intros _; exact Hsent].
      * cbn [after requests].
        assert (Hshape :
                  forall st,
                    length (toasts (setLoading false st)) = length (toasts st)
                    /\ file (setLoading false st) = file st
                    /\ similarityThreshold (setLoading false st) = similarityThreshold st
                    /\ createAlert (setLoading false st) = createAlert st
                    /\ loading (setLoading false st) = false)
          by (intros st; repeat split).
        destruct (matches (as_MatchResponse payload)) as [found |];
          [destruct (0 <? length found)%nat |];
          (split; [cbn [setLoading toasts]; rewrite one_more_toast; reflexivity |]);
          (split; [cbn; exact Hf |]);
          (split; [reflexivity |]); (split; [reflexivity |]);
          (split; [intros H; discriminate H |]);
          intros f' Hf'; inversion Hf'; subst f';
          (split; [reflexivity |]);
          (split; [intros H; discriminate H | intros _; exact Hsent]).
  - cbn [after requests].
    split; [apply one_more_toast |].
    split; [cbn; exact Hf |].
    split; [reflexivity |]. split; [reflexivity |].
    split; [intros _; repeat split | intros f H; discriminate H].
Qed.

(** A number compared as smaller than another is not [NaN]. *)
Lemma compare_self (p q : spec_float) (c : comparison) :
  SFcompare p q = Some c -> SFcompare p p = Some Eq.
Proof.
  destruct p as [s | s | | s m e]; simpl; try discriminate; intros _.
  - reflexivity.
  - destruct s; reflexivity.
  - rewrite Z.compare_refl, Pos.compare_cont_refl; destruct s; reflexivity.
Qed.

Lemma compare_self_right (p q : spec_float) (c : comparison) :
  SFcompare p q = Some c -> SFcompare q q = Some Eq.
Proof.
  destruct q as [s | s | | s m e]; simpl.
  - reflexivity.
  - destruct s; reflexivity.
  - destruct p; discriminate.
  - rewrite Z.compare_refl, Pos.compare_cont_refl; destruct s; reflexivity.
Qed.

(** A number outside 0..100 is neither zero nor [NaN]. *)
Lemma out_of_range_is_truthy (x : number) :
  lt x 0 || gt x 100 = true -> truthy_number x = true.
Proof.
  unfold lt, gt, truthy_number, PrimFloat.is_nan.
  rewrite !FloatAxioms.ltb_spec, !FloatAxioms.eqb_spec.
  unfold SFltb, SFeqb.
  replace (Prim2SF 0) with (S754_zero false) by reflexivity.
  intros H; apply orb_true_iff in H; destruct H as [H | H].
  - destruct (SFcompare (Prim2SF x) (S754_zero false)) as [[| |] |] eqn:Hc;
      try discriminate H.
    now rewrite (compare_self _ _ _ Hc).
  - destruct (SFcompare (Prim2SF 100) (Prim2SF x)) as [[| |] |] eqn:Hc;
      try discriminate H.
    rewrite (compare_self_right _ _ _ Hc).
    revert Hc.
    replace (Prim2SF 100) with (S754_finite false 7036874417766400 (-46)) by reflexivity.
    destruct (Prim2SF x) as [s | s | | s m e]; simpl; try discriminate;
      destruct s; try discriminate; reflexivity.
Qed.

(** The threshold input never stores [0] or [NaN]: an input that parses
    to either is replaced by 80.0, any other number is stored as typed.
    That includes numbers outside 0..100, which with a file chosen are
    then refused at search time without a request. *)
Theorem threshold_input_never_stores_zero_or_nan :
  forall (parsed : number) (s : State),
    let s' := onThresholdChange parsed s in
    PrimFloat.eqb (similarityThreshold s') 0 = false
    /\ PrimFloat.is_nan (similarityThreshold s') = false
    /\ (PrimFloat.eqb parsed 0 = true \/ PrimFloat.is_nan parsed = true ->
          similarityThreshold s' = 80.0%float)
    /\ (PrimFloat.eqb parsed 0 = false -> PrimFloat.is_nan parsed = false ->
          similarityThreshold s' = parsed)
    /\ (forall f, file s = Some f -> lt parsed 0 || gt parsed 100 = true ->
          similarityThreshold s' = parsed
          /\ requests (handleMatch as_MatchResponse backend s') = []).
Proof.
  intros parsed s; cbv zeta.
  unfold onThresholdChange; cbn [similarityThreshold setSimilarityThreshold].
  split; [| split; [| split; [| split]]].
  - unfold truthy_number.
    destruct (PrimFloat.eqb parsed 0) eqn:Hz; [reflexivity |].
    destruct (PrimFloat.is_nan parsed); [reflexivity | exact Hz].
  - unfold truthy_number.
    destruct (PrimFloat.eqb parsed 0) eqn:Hz; [reflexivity |].
    destruct (PrimFloat.is_nan parsed) eqn:Hn; [reflexivity | exact Hn].
  - unfold truthy_number; intros [H | H]; rewrite H; [| rewrite orb_true_r]; reflexivity.
  - unfold truthy_number; intros Hz Hn; rewrite Hz, Hn; reflexivity.
  - intros f Hf Hrange.
    rewrite (out_of_range_is_truthy parsed Hrange).
    split; [reflexivity |].
    unfold handleMatch; cbn [file similarityThreshold createAlert setSimilarityThreshold].
    rewrite Hf, matchFace_from_page, Hrange; reflexivity.
Qed.

End MatchSearch.

(** ** Bulk enrollment: the sheet's extension, the toasts *)
Section BulkSheets.
Import Js Client Api Types JsMore BulkUploadPage.
Local Open Scope string_scope.

Lemma endsWith_app (s suffix : string) :
  endsWith s suffix = true -> exists p, s = p ++ suffix.
Proof.
  induction s as [| c s IH]; cbn [endsWith]; intros H.
  - rewrite orb_false_r in H; apply String.eqb_eq in H; subst; now exists "".
  - apply orb_true_iff in H; destruct H as [H | H].
    + apply String.eqb_eq in H; rewrite H; now exists "".
    + destruct (IH H) as [p ->]; now exists (String c p).
Qed.

Lemma lastIndexOf_from_app (c : ascii) (p q : string) :
  forall i found,
    lastIndexOf_from c (p ++ q) i found
    = lastIndexOf_from c q (i + Z.of_nat (String.length p))
                       (lastIndexOf_from c p i found).
Proof.
  induction p as [| d p IH]; intros i found; simpl String.length.
  - simpl; now rewrite Z.add_0_r.
  - cbn [append lastIndexOf_from]; rewrite IH.
    f_equal; lia.
Qed.

Lemma toLowerCase_app (p q : string) :
  toLowerCase (p ++ q) = toLowerCase p ++ toLowerCase q.
Proof. induction p as [| c p IH]; simpl; [reflexivity | now rewrite IH]. Qed.

Lemma toLowerCase_length (s : string) : String.length (toLowerCase s) = String.length s.
Proof. induction s as [| c s IH]; simpl; [reflexivity | now rewrite IH]. Qed.

Lemma append_length (a b : string) :
  String.length (a ++ b) = String.length a + String.length b.
Proof. induction a as [| c a IH]; simpl; [reflexivity | now rewrite IH]. Qed.

Lemma substring_all (s : string) : substring 0 (String.length s) s = s.
Proof. induction s as [| c s IH]; simpl; [reflexivity | now rewrite IH]. Qed.

Lemma substring_skip (a b : string) :
  substring (String.length a) (String.length (a ++ b) - String.length a) (a ++ b) = b.
Proof.
  induction a as [| c a IH]; simpl.
  - rewrite Nat.sub_0_r; apply substring_all.
  - exact IH.
Qed.

(** The extension [enrollBulk] computes for a name [p ++ ext], when the
    only dot of [ext] is its first character. *)
Lemma extension_of (p ext : string) (f : File) :
  file_name f = p ++ ext ->
  (forall i found, lastIndexOf_from "."%char ext i found = i) ->
  fileExtension f = toLowerCase ext.
Proof.
  intros Hname Hdot.
  unfold fileExtension, substring_from, lastIndexOf; rewrite Hname.
  rewrite lastIndexOf_from_app, Hdot, Z.add_0_l, Nat2Z.id.
  rewrite toLowerCase_app.
  rewrite <- (toLowerCase_length p).
  apply substring_skip.
Qed.

Lemma enrollBulk_sent (b : Backend) (f : File) (path : option string) :
  includes validExtensions (fileExtension f) = true ->
  sent (enrollBulk (Some f) path b)
  = [mkRequest POST "/api/v1/enroll" []
       (FormData (("excel_file", FFile f) :: trimmed_entry "images_folder" path))].
Proof.
  intros Hext; unfold enrollBulk.
  change (substring_from _ _) with (fileExtension f); rewrite Hext; cbn [negb].
  apply (guarded_sent _ (fun response => ret (data response))); reflexivity.
Qed.

Variable as_EnrollmentResponse : json -> EnrollmentResponse.
Variable backend : Backend.

(** The page's test of the sheet's name is narrower than [enrollBulk]'s.
    A file the page accepts (name ending in [.xlsx] or [.csv]) has an
    extension [enrollBulk] lists, so with a folder path the submit sends
    the enrollment request with that file.  A file named [*.xls] is turned
    away by the page with a toast, although [enrollBulk] would take it. *)
Theorem page_sheet_check_is_narrower_than_enrollBulk :
  forall (f : File) (s : State),
    ascii_only (file_name f) = true ->
    (endsWith (file_name f) ".xlsx" || endsWith (file_name f) ".csv" = true ->
       handleExcelSelect (Some f) s = setExcelFile (Some f) s
       /\ includes validExtensions (fileExtension f) = true
       /\ (truthy (imagesFolderPath s) = true ->
             requests (handleSubmit as_EnrollmentResponse backend
                         (handleExcelSelect (Some f) s))
             = [mkRequest POST "/api/v1/enroll" []
                  (FormData (("excel_file", FFile f)
                             :: trimmed_entry "images_folder"
                                              (Some (imagesFolderPath s))))]))
    /\ (endsWith (file_name f) ".xls" = true ->
          excelFile (handleExcelSelect (Some f) s) = excelFile s
          /\ toasts (handleExcelSelect (Some f) s)
             = (toasts s
                ++ [mkToast "Error" (Plain "Please select an Excel (.xlsx) or CSV file")
                            "error"])%list
          /\ includes validExtensions (fileExtension f) = true).
Proof.
  intros f s _; split.
  - intros Hpage.
    assert (Hext : includes validExtensions (fileExtension f) = true).
    { apply orb_true_iff in Hpage; destruct Hpage as [H | H];
        destruct (endsWith_app _ _ H) as [p Hp];
        rewrite (extension_of p _ f Hp) by (intros i found; reflexivity);
        reflexivity. }
    unfold handleExcelSelect; rewrite Hpage.
    split; [reflexivity |]. split; [exact Hext |].
    intros Hpath; unfold handleSubmit.
    cbn [excelFile imagesFolderPath setExcelFile]; rewrite Hpath; cbn [negb].
    pose proof (enrollBulk_sent backend f (Some (imagesFolderPath s)) Hext) as Hsent.
    destruct (result (enrollBulk (Some f) (Some (imagesFolderPath s)) backend));
      exact Hsent.
  - intros Hxls.
    destruct (endsWith_app _ _ Hxls) as [p Hp].
    assert (Hno : endsWith (file_name f) ".xlsx" || endsWith (file_name f) ".csv" = false).
    { rewrite Hp; clear.
      assert (Hx : forall q, endsWith (q ++ ".xls") ".xlsx" = false
                             /\ endsWith (q ++ ".xls") ".csv" = false).
      { induction q as [| c q [IH1 IH2]]; [split; reflexivity |].
        cbn [append endsWith]; rewrite IH1, IH2, !orb_false_r.
        split; apply String.eqb_neq; intros H.
        - destruct q as [| d q]; [discriminate H |].
          apply (f_equal String.length) in H; simpl in H.
          rewrite append_length in H; simpl in H; lia.
        - apply (f_equal String.length) in H; simpl in H.
          rewrite append_length in H; simpl in H; lia. }
      destruct (Hx p) as [H1 H2]; now rewrite H1, H2. }
    unfold handleExcelSelect; rewrite Hno.
    split; [reflexivity |]. split; [reflexivity |].
    rewrite (extension_of p _ f Hp) by (intros i found; reflexivity).
    reflexivity.
Qed.

Lemma last_cons {A} (l : list A) :
  forall x d, last (x :: l) d = last l x.
Proof.
  induction l as [| y l IH]; intros x d; [reflexivity |].
  change (last (x :: y :: l) d) with (last (y :: l) d).
  now rewrite (IH y d), (IH y x).
Qed.

Lemma stale_toasts (shown : list Toast) (errors : list string) :
  forall (st : State) (text : string),
    toasts st = (shown ++ [mkToast "Error" (Plain text) "error"])%list ->
    toasts (fold_left
              (fun st error => addToast shown (mkToast "Error" (Plain error) "error") st)
              errors st)
    = (shown ++ [mkToast "Error" (Plain (last errors text)) "error"])%list
    /\ excelFile (fold_left
                    (fun st error =>
                       addToast shown (mkToast "Error" (Plain error) "error") st)
                    errors st) = excelFile st
    /\ imagesFolderPath (fold_left
                    (fun st error =>
                       addToast shown (mkToast "Error" (Plain error) "error") st)
                    errors st) = imagesFolderPath st.
Proof.
  induction errors as [| e errors IH]; intros st text Hst.
  - simpl; auto.
  - cbn [fold_left].
    destruct (IH (addToast shown (mkToast "Error" (Plain e) "error") st) e eq_refl)
      as (H1 & H2 & H3).
    split; [| split; [exact H2 | exact H3]].
    rewrite H1, (last_cons errors e text); reflexivity.
Qed.

(** After a submit the page shows exactly one toast more than the render
    it was submitted from, whatever came back.  When the backend reports a
    failure with a list of errors, that one toast is the last error of the
    list: the summary message and the earlier errors are overwritten,
    because every [addToast] of the handler starts from the same array.
    The file and the folder path are cleared only on success. *)
Theorem bulk_submit_leaves_one_toast :
  forall (s : State),
    let run := handleSubmit as_EnrollmentResponse backend s in
    (exists t, toasts (after run) = (toasts s ++ [t])%list)
    /\ (forall xls payload,
          excelFile s = Some xls -> truthy (imagesFolderPath s) = true ->
          result (enrollBulk (Some xls) (Some (imagesFolderPath s)) backend) = inr payload ->
          let r := as_EnrollmentResponse payload in
          loading (after run) = false
          /\ (success r = false ->
                toasts (after run)
                = (toasts s
                   ++ [mkToast "Error"
                         (Plain (last (errors r)
                                      (or_else (enroll_message r) "Bulk enrollment failed")))
                         "error"])%list
                /\ excelFile (after run) = Some xls
                /\ imagesFolderPath (after run) = imagesFolderPath s)
          /\ (success r = true ->
                excelFile (after run) = None /\ imagesFolderPath (after run) = ""))
    /\ (forall xls error,
          excelFile s = Some xls -> truthy (imagesFolderPath s) = true ->
          result (enrollBulk (Some xls) (Some (imagesFolderPath s)) backend) = inl error ->
          excelFile (after run) = Some xls
          /\ imagesFolderPath (after run) = imagesFolderPath s
          /\ loading (after run) = false).
Proof.
  intros s; cbv zeta; unfold handleSubmit, missing.
  destruct (excelFile s) as [xls |] eqn:Hx.
  - destruct (truthy (imagesFolderPath s)) eqn:Hp; cbn [negb].
    + destruct (result (enrollBulk (Some xls) (Some (imagesFolderPath s)) backend))
        as [error | payload] eqn:Hres.
      * split; [eexists; reflexivity |].
        split; [intros x p Hx' _ H; inversion Hx'; subst x; congruence |].
        intros x e Hx' _ _; inversion Hx'; subst x; cbn; rewrite Hx; auto.
      * destruct (success (as_EnrollmentResponse payload)) eqn:Hok.
        -- split; [eexists; reflexivity |].
           split; [| intros x e Hx' _ H; inversion Hx'; subst x; congruence].
           intros x p Hx' _ Hp'; inversion Hx'; subst x.
           assert (p = payload) by congruence; subst p.
           split; [reflexivity |].
           split; [intros H; congruence | intros _; split; reflexivity].
        -- destruct (stale_toasts (toasts s) (errors (as_EnrollmentResponse payload))
                       (addToast (toasts s)
                          (mkToast "Error"
                             (Plain (or_else (enroll_message (as_EnrollmentResponse payload))
                                             "Bulk enrollment failed")) "error")
                          (setLoading true s))
                       _ eq_refl) as (H1 & H2 & H3).
           cbn [after requests toasts setLoading excelFile imagesFolderPath loading].
           split; [eexists; exact H1 |].
           split; [| intros x e Hx' _ H; inversion Hx'; subst x; congruence].
           intros x p Hx' _ Hp'; inversion Hx'; subst x.
           assert (p = payload) by congruence; subst p.
           split; [reflexivity |].
           split; [| intros H; congruence].
           intros _; split; [exact H1 |].
           split; [rewrite H2; cbn; exact Hx | rewrite H3; reflexivity].
    + split; [eexists; reflexivity |].
      split; [intros x p _ H; discriminate H | intros x e _ H; discriminate H].
  - split; [eexists; reflexivity |].
    split; [intros x p H; discriminate H | intros x e H; discriminate H].
Qed.

End BulkSheets.

Lemma page_sheet_check_is_narrower_than_enrollBulk_witness :
  BulkUploadPage.excelFile
    (BulkUploadPage.handleExcelSelect
       (Some (Js.mkFile "cases.xls" "application/vnd.ms-excel" 4096%float))
       (BulkUploadPage.mkState None "/srv/images" false []))
  = None
  /\ Js.includes Api.validExtensions
       (BulkUploadPage.fileExtension
          (Js.mkFile "cases.xls" "application/vnd.ms-excel" 4096%float))
     = true.
Proof.
  destruct (page_sheet_check_is_narrower_than_enrollBulk
              (fun _ => Types.mkEnrollmentResponse false "" 0%float 0%float [])
              (Shapes.answering Js.JNull)
              (Js.mkFile "cases.xls" "application/vnd.ms-excel" 4096%float)
              (BulkUploadPage.mkState None "/srv/images" false [])
              eq_refl) as [_ H].
  destruct (H eq_refl) as (H1 & _ & H3).
  exact (conj H1 H3).
Defined.

(** ** Complaints: Accept, Reject and the tabs *)
Section ComplaintsReview.
Import Js ComplaintsPage ComplaintsActions.
Local Open Scope string_scope.

Lemma tab_pending (cs : list Complaint) :
  getFilteredComplaints cs "pending" = filter actionsShown cs.
Proof. reflexivity. Qed.

Lemma tab_open (cs : list Complaint) :
  getFilteredComplaints cs "open"
  = filter (fun c => String.eqb (status c) "Open" || String.eqb (status c) "open") cs.
Proof. reflexivity. Qed.

Lemma tab_closed (cs : list Complaint) :
  getFilteredComplaints cs "closed"
  = filter (fun c => String.eqb (status c) "Closed" || String.eqb (status c) "Resolved"
                     || String.eqb (status c) "closed" || String.eqb (status c) "resolved")
           cs.
Proof. reflexivity. Qed.

(** A test that the rewritten complaints fail keeps, after the rewrite,
    what it kept before minus the rewritten ones. *)
Lemma filter_rewritten (test : Complaint -> bool) (cid status' : string)
      (cs : list Complaint) :
  (forall c, test (withStatus status' c) = false) ->
  filter test (map (fun c => if String.eqb (id c) cid then withStatus status' c else c) cs)
  = filter (fun c => negb (String.eqb (id c) cid)) (filter test cs).
Proof.
  intros Hfail; induction cs as [| c cs IH]; [reflexivity |].
  cbn [map filter].
  destruct (String.eqb (id c) cid) eqn:Hid.
  - rewrite Hfail, IH.
    destruct (test c); [cbn [filter]; rewrite Hid |]; reflexivity.
  - rewrite IH.
    destruct (test c); [cbn [filter]; rewrite Hid |]; reflexivity.
Qed.

Lemma rewritten_in_tab (test : Complaint -> bool) (cid status' : string)
      (cs : list Complaint) (c : Complaint) :
  test (withStatus status' c) = true ->
  In c cs -> id c = cid ->
  In (withStatus status' c)
     (filter test
        (map (fun c => if String.eqb (id c) cid then withStatus status' c else c) cs)).
Proof.
  intros Htest Hin Hid.
  apply filter_In; split; [| exact Htest].
  apply in_map_iff; exists c; split; [| exact Hin].
  now rewrite Hid, String.eqb_refl.
Qed.

Lemma rewritten_status (cid status' : string) (cs : list Complaint) (c : Complaint) :
  In c (map (fun c => if String.eqb (id c) cid then withStatus status' c else c) cs) ->
  id c = cid -> status c = status'.
Proof.
  intros Hin Hid; apply in_map_iff in Hin; destruct Hin as (c0 & Hc & _).
  destruct (String.eqb (id c0) cid) eqn:H0.
  - now subst c.
  - subst c; apply String.eqb_neq in H0; contradiction.
Qed.

(** Accept and Reject, once the update is taken: the complaints with the
    given id, and only they, get the new status; none is added or dropped.
    They leave the pending tab (and lose their buttons) and the tab of the
    other decision, and when the timer fires the page is on the tab of the
    decision, which shows them.  Until then the id stays marked as
    updating.  When the update is refused or throws, the list and the tab
    are left as they were, the mark is cleared, one text is alerted and no
    timer is set. *)
Theorem review_moves_the_complaint_to_its_tab :
  forall (accept : bool) (complaintId : string) (s : State),
    let handle := if accept then handleAccept else handleReject in
    let status' := if accept then "Open" else "Closed" in
    let tab := if accept then "open" else "closed" in
    let other := if accept then "closed" else "open" in
    let run := handle Updated complaintId s in
    let shown := timeout tab (after run) in
    switchTo run = Some tab
    /\ alerted run = []
    /\ updating (after run) = Some complaintId
    /\ activeTab shown = tab
    /\ updating shown = None
    /\ length (complaints shown) = length (complaints s)
    /\ (forall c, In c (complaints s) -> id c = complaintId ->
          In (withStatus status' c)
             (getFilteredComplaints (complaints shown) (activeTab shown)))
    /\ (forall c, In c (complaints shown) -> id c = complaintId ->
          status c = status' /\ actionsShown c = false)
    /\ getFilteredComplaints (complaints shown) "pending"
       = filter (fun c => negb (String.eqb (id c) complaintId))
                (getFilteredComplaints (complaints s) "pending")
    /\ getFilteredComplaints (complaints shown) other
       = filter (fun c => negb (String.eqb (id c) complaintId))
                (getFilteredComplaints (complaints s) other)
    /\ (forall outcome, outcome <> Updated ->
          let failed := handle outcome complaintId s in
          complaints (after failed) = complaints s
          /\ activeTab (after failed) = activeTab s
          /\ updating (after failed) = None
          /\ switchTo failed = None
          /\ length (alerted failed) = 1).
Proof.
  intros accept complaintId s; cbv zeta.
  destruct accept; unfold handleAccept, handleReject, review;
    cbn [after alerted switchTo timeout complaints activeTab updating loading
         setUpdating setComplaints];
    (split; [reflexivity |]); (split; [reflexivity |]); (split; [reflexivity |]);
    (split; [reflexivity |]); (split; [reflexivity |]);
    (split; [apply length_map |]).
  - split; [intros c Hin Hid; rewrite tab_open; apply rewritten_in_tab; auto |].
    split; [intros c Hin Hid;
            pose proof (rewritten_status _ _ _ _ Hin Hid) as Hst;
            split; [exact Hst | unfold actionsShown; rewrite Hst; reflexivity] |].
    split; [rewrite !tab_pending; apply filter_rewritten; reflexivity |].
    split; [rewrite !tab_closed; apply filter_rewritten; reflexivity |].
    intros [| m | m] Hne; [now contradiction Hne | |]; repeat split.
  - split; [intros c Hin Hid; rewrite tab_closed; apply rewritten_in_tab; auto |].
    split; [intros c Hin Hid;
            pose proof (rewritten_status _ _ _ _ Hin Hid) as Hst;
            split; [exact Hst | unfold actionsShown; rewrite Hst; reflexivity] |].
    split; [rewrite !tab_pending; apply filter_rewritten; reflexivity |].
    split; [rewrite !tab_open; apply filter_rewritten; reflexivity |].
    intros [| m | m] Hne; [now contradiction Hne | |]; repeat split.
Qed.

(** Two tables with the same statuses, row by row, give equal counts
    under tests that look at the status only. *)
Lemma count_by_status (p : string -> bool) :
  forall (cs : list Complaint) (rows : list AnalyticsPage.ComplaintRow),
    map status cs = map AnalyticsPage.status rows ->
    length (filter (fun c => p (status c)) cs)
    = length (filter (fun r => p (AnalyticsPage.status r)) rows).
Proof.
  induction cs as [| c cs IH]; intros [| r rows] H; try discriminate H; [reflexivity |].
  inversion H as [[Hc Hrest]]; cbn [filter]; rewrite Hc.
  destruct (p (AnalyticsPage.status r)); cbn [length]; now rewrite (IH rows Hrest).
Qed.

(** A status is not closed exactly when it is pending, open or unlisted,
    and then it is only one of the three. *)
Lemma not_closed_cases (c : Complaint) :
  Nat.b2n (negb (String.eqb (status c) "Closed" || String.eqb (status c) "Resolved"
                 || String.eqb (status c) "closed" || String.eqb (status c) "resolved"))
  = Nat.b2n (actionsShown c)
    + Nat.b2n (String.eqb (status c) "Open" || String.eqb (status c) "open")
    + Nat.b2n (unlisted c).
Proof.
  unfold actionsShown, unlisted, includes; cbn [existsb].
  generalize (status c); intros st.
  destruct (String.eqb_spec st "Pending") as [-> | _]; [reflexivity |].
  destruct (String.eqb_spec st "pending") as [-> | _]; [reflexivity |].
  destruct (String.eqb_spec st "submitted") as [-> | _]; [reflexivity |].
  destruct (String.eqb_spec st "Submitted") as [-> | _]; [reflexivity |].
  destruct (String.eqb_spec st "Open") as [-> | _]; [reflexivity |].
  destruct (String.eqb_spec st "open") as [-> | _]; [reflexivity |].
  destruct (String.eqb_spec st "Closed") as [-> | _]; [reflexivity |].
  destruct (String.eqb_spec st "Resolved") as [-> | _]; [reflexivity |].
  destruct (String.eqb_spec st "closed") as [-> | _]; [reflexivity |].
  destruct (String.eqb_spec st "resolved") as [-> | _]; reflexivity.
Qed.

Lemma length_filter_b2n {A} (f : A -> bool) (x : A) (l : list A) :
  length (filter f (x :: l)) = Nat.b2n (f x) + length (filter f l).
Proof. cbn [filter]; destruct (f x); reflexivity. Qed.

(** The analytics summary and the complaints page count the same table
    differently.  "Closed" on the summary is the size of the closed tab.
    "Open" on the summary is everything else: the pending tab, the open
    tab, and the complaints whose status no tab lists. *)
Theorem summary_open_is_pending_open_and_unlisted :
  forall (cs : list Complaint) (rows : list AnalyticsPage.ComplaintRow)
         (userCount : option nat) (rtis : list AnalyticsPage.RTIRow),
    map status cs = map AnalyticsPage.status rows ->
    let stats := AnalyticsPage.summary userCount rows rtis in
    AnalyticsPage.totalComplaints stats = length cs
    /\ AnalyticsPage.closedComplaints stats = length (getFilteredComplaints cs "closed")
    /\ AnalyticsPage.openComplaints stats
       = length (getFilteredComplaints cs "pending")
         + length (getFilteredComplaints cs "open")
         + length (filter unlisted cs).
Proof.
  intros cs rows userCount rtis Hsame; cbv zeta.
  unfold AnalyticsPage.summary;
    cbn [AnalyticsPage.totalComplaints AnalyticsPage.closedComplaints
         AnalyticsPage.openComplaints].
  split; [| split].
  - rewrite <- (length_map AnalyticsPage.status rows), <- Hsame; apply length_map.
  - rewrite tab_closed.
    rewrite (count_by_status
               (fun st => String.eqb st "Closed" || String.eqb st "Resolved"
                          || String.eqb st "closed" || String.eqb st "resolved")
               cs rows Hsame).
    f_equal; apply filter_ext; intros r; unfold AnalyticsPage.isClosed.
    destruct (String.eqb (AnalyticsPage.status r) "Resolved"),
             (String.eqb (AnalyticsPage.status r) "Closed"),
             (String.eqb (AnalyticsPage.status r) "closed"),
             (String.eqb (AnalyticsPage.status r) "resolved"); reflexivity.
  - rewrite tab_pending, tab_open.
    transitivity
      (length (filter (fun c => negb (String.eqb (status c) "Closed"
                                      || String.eqb (status c) "Resolved"
                                      || String.eqb (status c) "closed"
                                      || String.eqb (status c) "resolved")) cs)).
    + symmetry.
      rewrite (count_by_status
                 (fun st => negb (String.eqb st "Closed" || String.eqb st "Resolved"
                                  || String.eqb st "closed" || String.eqb st "resolved"))
                 cs rows Hsame).
      f_equal; apply filter_ext; intros r; unfold AnalyticsPage.isOpen.
      destruct (String.eqb (AnalyticsPage.status r) "Resolved"),
               (String.eqb (AnalyticsPage.status r) "Closed"),
               (String.eqb (AnalyticsPage.status r) "closed"),
               (String.eqb (AnalyticsPage.status r) "resolved"); reflexivity.
    + clear; induction cs as [| c cs IH]; [reflexivity |].
      rewrite !length_filter_b2n, IH, not_closed_cases; lia.
Qed.

End ComplaintsReview.

Lemma summary_open_is_pending_open_and_unlisted_witness :
  AnalyticsPage.openComplaints
    (AnalyticsPage.summary None
       [AnalyticsPage.mkComplaintRow "1" AnalyticsPage.InvalidDate None "submitted";
        AnalyticsPage.mkComplaintRow "2" AnalyticsPage.InvalidDate None "Resolved";
        AnalyticsPage.mkComplaintRow "3" AnalyticsPage.InvalidDate None "In Review"] [])
  = length (ComplaintsPage.getFilteredComplaints Shapes.sampleComplaints "pending")
    + length (ComplaintsPage.getFilteredComplaints Shapes.sampleComplaints "open")
    + length (filter ComplaintsActions.unlisted Shapes.sampleComplaints).
Proof.
  exact (proj2 (proj2 (summary_open_is_pending_open_and_unlisted
                         Shapes.sampleComplaints
                         [AnalyticsPage.mkComplaintRow "1" AnalyticsPage.InvalidDate None
                                                       "submitted";
                          AnalyticsPage.mkComplaintRow "2" AnalyticsPage.InvalidDate None
                                                       "Resolved";
                          AnalyticsPage.mkComplaintRow "3" AnalyticsPage.InvalidDate None
                                                       "In Review"]
                         None [] eq_refl))).
Defined.

(** ** The dashboard's counters *)
Section DashboardStats.
Import Dashboard.

Lemma filter_both_le {A} (f g : A -> bool) (l : list A) :
  length (filter (fun x => f x && g x) l) <= length (filter f l)
  /\ length (filter f l) <= length l.
Proof.
  induction l as [| x l [IH1 IH2]]; [split; reflexivity |].
  cbn [filter]; destruct (f x), (g x); cbn [andb length]; lia.
Qed.

(** The counters stay within one another and within the list on screen
    through every fetch: an answer without an error replaces the list and
    recomputes both counters from it (a missing list counts as empty, a
    user without [verification_status] as not verified); an answer with
    an error leaves list and counters alone.  Either way the page stops
    loading. *)
Theorem fetchUsers_keeps_counters_within_the_list :
  forall (answer : Answer) (s : State),
    consistent s ->
    consistent (fetchUsers answer s)
    /\ loading (fetchUsers answer s) = false
    /\ (error answer = None ->
          users (fetchUsers answer s) = or_empty (data answer)
          /\ stats (fetchUsers answer s) = calculateStats (users (fetchUsers answer s)))
    /\ (error answer <> None ->
          users (fetchUsers answer s) = users s /\ stats (fetchUsers answer s) = stats s).
Proof.
  intros answer s Hs; unfold fetchUsers.
  destruct (error answer) as [e |].
  - split; [exact Hs |]. split; [reflexivity |].
    split; [intros H; discriminate H | intros _; split; reflexivity].
  - split.
    + unfold consistent, calculateStats; cbn [stats users totalVerified totalMobileUpdates].
      apply filter_both_le.
    + split; [reflexivity |].
      split; [intros _; split; reflexivity | intros H; now contradiction H].
Qed.

End DashboardStats.

Lemma fetchUsers_keeps_counters_within_the_list_witness :
  Dashboard.consistent
    (Dashboard.fetchUsers
       (Dashboard.mkAnswer
          (Some [Dashboard.mkUser 7 (Dashboard.mkProfileData "A" "B")
                                  (Dashboard.mkAuthData "1" "2")
                                  (Some (Dashboard.mkVerificationStatus true false)) "t";
                 Dashboard.mkUser 8 (Dashboard.mkProfileData "C" "D")
                                  (Dashboard.mkAuthData "3" "4") None "u"])
          None)
       Dashboard.initial).
Proof.
  apply (fetchUsers_keeps_counters_within_the_list _ Dashboard.initial).
  split; apply Nat.le_refl.
Defined.

(** ** The upload card's events *)
Section CardEvents.
Import Js UploadCard UploadCardEvents.

(** A drop never leaves the card in its dragging look and never hands
    [null] to the page.  On a disabled card it does nothing else.  On an
    enabled card it hands over the dropped file exactly when there is one,
    of a listed type, not above the size limit and not empty; otherwise it
    hands over nothing and shows an error text. *)
Theorem drop_hands_over_only_valid_files :
  forall (disabled : bool) (maxSizeMB : number) (file : option File) (s : State),
    let run := handleDrop disabled maxSizeMB file s in
    isDragging (after run) = false
    /\ ~ In None (selected run)
    /\ (disabled = true -> error (after run) = error s /\ selected run = [])
    /\ (forall f, selected run = [Some f] <->
          disabled = false /\ file = Some f
          /\ isValidImageType f = true
          /\ gt (file_size f) (maxSizeMB * 1024 * 1024) = false
          /\ PrimFloat.eqb (file_size f) 0 = false)
    /\ (disabled = false ->
          (selected run = [] <-> error (after run) <> None)
          /\ (selected run <> [] -> exists f, selected run = [Some f])).
Proof.
  intros disabled maxSizeMB file s; cbv zeta; unfold handleDrop.
  destruct disabled.
  - cbn [after selected isDragging error].
    split; [reflexivity |]. split; [intros H; exact H |].
    split; [intros _; split; reflexivity |].
    split; [intros f; split; [intros H; discriminate H | intros (H & _); discriminate H] |].
    intros H; discriminate H.
  - destruct file as [f |].
    + unfold fromHandleFile, handleFile, validateFile.
      destruct (isValidImageType f) eqn:Htype; cbn [negb].
      * destruct (gt (file_size f) (maxSizeMB * 1024 * 1024)) eqn:Hsize.
        -- cbn [after selected isDragging error].
           split; [reflexivity |]. split; [intros H; exact H |].
           split; [intros H; discriminate H |].
           split; [intros f'; split;
                   [intros H; discriminate H
                   | intros (_ & Hf & _ & H & _); inversion Hf; subst f'; congruence] |].
           intros _; split; [split; [intros _ H; discriminate H | reflexivity] |].
           intros H; now contradiction H.
        -- destruct (PrimFloat.eqb (file_size f) 0) eqn:Hempty.
           ++ cbn [after selected isDragging error].
              split; [reflexivity |]. split; [intros H; exact H |].
              split; [intros H; discriminate H |].
              split; [intros f'; split;
                      [intros H; discriminate H
                      | intros (_ & Hf & _ & _ & H); inversion Hf; subst f'; congruence] |].
              intros _; split; [split; [intros _ H; discriminate H | reflexivity] |].
              intros H; now contradiction H.
           ++ cbn [after selected isDragging error].
              split; [reflexivity |].
              split; [intros [H | []]; discriminate H |].
              split; [intros H; discriminate H |].
              split; [intros f'; split;
                      [intros H; inversion H; subst f'; repeat split; assumption
                      | intros (_ & Hf & _); inversion Hf; reflexivity] |].
              intros _; split; [split; [intros H; discriminate H
                                       | intros H; now contradiction H] |].
              intros _; exists f; reflexivity.
      * cbn [after selected isDragging error].
        split; [reflexivity |]. split; [intros H; exact H |].
        split; [intros H; discriminate H |].
        split; [intros f'; split;
                [intros H; discriminate H
                | intros (_ & Hf & H & _); inversion Hf; subst f'; congruence] |].
        intros _; split; [split; [intros _ H; discriminate H | reflexivity] |].
        intros H; now contradiction H.
    + cbn [after selected isDragging error].
      split; [reflexivity |]. split; [intros H; exact H |].
      split; [intros H; discriminate H |].
      split; [intros f'; split;
              [intros H; discriminate H | intros (_ & H & _); discriminate H] |].
      intros _; split; [split; [intros _ H; discriminate H | reflexivity] |].
      intros H; now contradiction H.
Qed.

End CardEvents.

(** ** The admin session and the client's token *)
Section Sessions.
Import Js Auth.

Lemma getItem_removeItem_same (k : string) (storage : Storage) :
  getItem k (removeItem k storage) = None.
Proof.
  induction storage as [| [k' v] rest IH]; [reflexivity |].
  unfold removeItem; cbn [filter fst].
  destruct (String.eqb k k') eqn:Hk; cbn [negb]; [exact IH |].
  cbn [getItem]; rewrite Hk; exact IH.
Qed.

Lemma getItem_removeItem_other (k k' : string) (storage : Storage) :
  String.eqb k k' = false ->
  getItem k (removeItem k' storage) = getItem k storage.
Proof.
  intros Hne; induction storage as [| [k0 v] rest IH]; [reflexivity |].
  unfold removeItem; cbn [filter fst getItem].
  destruct (String.eqb k' k0) eqn:Hk; cbn [negb].
  - apply String.eqb_eq in Hk; subst k0; rewrite Hne; exact IH.
  - cbn [getItem]; destruct (String.eqb k k0); [reflexivity | exact IH].
Qed.

(** The admin session and the client's token live under different keys of
    the storage.  Logging in or out does not change the token the client
    sends, and a 401, which drops the token, does not end the session.
    A reload after [login] finds the session, a reload after [logout]
    finds none.  The redirect never bounces: the route it sends to is one
    it leaves alone, and a login lands on a route that stays. *)
Theorem session_and_token_are_separate :
  forall (storage : Storage) (email : string) (now : number) (s : State),
    bearer (fst (fst (login email now storage s))) = bearer storage
    /\ bearer (fst (fst (logout storage s))) = bearer storage
    /\ checkAuth (onUnauthorized storage) = checkAuth storage
    /\ isAuthenticated (checkAuth (fst (fst (login email now storage s)))) = true
    /\ isAuthenticated (checkAuth (fst (fst (logout storage s)))) = false
    /\ (forall pathname target, redirect s pathname = Some target ->
          redirect s target = None)
    /\ redirect (checkAuth (fst (fst (login email now storage s))))
                (snd (login email now storage s)) = None
    /\ redirect (checkAuth (fst (fst (logout storage s)))) (snd (logout storage s)) = None.
Proof.
  intros storage email now s.
  unfold login, logout, onUnauthorized, bearer, checkAuth, setItem; cbn [fst snd].
  split; [cbn [getItem String.eqb Ascii.eqb Bool.eqb];
          now rewrite getItem_removeItem_other by reflexivity |].
  split; [now rewrite getItem_removeItem_other by reflexivity |].
  split; [now rewrite getItem_removeItem_other by reflexivity |].
  split; [reflexivity |].
  split; [now rewrite getItem_removeItem_same |].
  split.
  - intros pathname target; unfold redirect.
    destruct (isLoading s); cbn [negb]; [intros H; discriminate H |].
    destruct (isAuthenticated s); cbn [negb andb].
    + destruct (String.eqb pathname "/login"); intros H; inversion H; reflexivity.
    + destruct (String.eqb pathname "/login"); intros H; inversion H; reflexivity.
  - split; [reflexivity |].
    now rewrite getItem_removeItem_same.
Qed.

End Sessions.
